(** * Roxiler transactions server: a shallow embedding of
      [src/controllers/transactionController.js] and the properties of its
      six request handlers.

    Layout of the development:
    - [JS]       the JavaScript primitives the controller relies on
                 (numbers, [Number(s)] / unary plus, [parseInt], plain
                 objects used as dictionaries, [RegExp] for a fragment);
    - [Model]    the mongoose schema of [models/Transaction.js] and the
                 documents flowing through aggregation pipelines;
    - [Mongo]    pipeline stages and their interpreter;
    - [Express]  the world (store, store faults, responses sent) and the
                 state-and-exception monad the async handlers run in;
    - [Controller] the six handlers, line by line;
    - theorems.

    Modelling conventions.  A finite JavaScript number is the rational
    ([Q], kept in lowest terms) that the double stands for.  Reading a
    number from text ([Number(s)], unary plus, [parseInt]) and adding up
    prices round to the nearest double as IEEE-754 does ([JS.round64]);
    the arithmetic on counters and page windows ([JS.add], [JS.sub],
    [JS.mul], [JS.div]) is the exact one, which is what doubles compute
    as long as the integers involved stay within [2^53].  The two zeros
    of IEEE-754 are one number here (no operation of the controller tells
    them apart).  Strings are byte strings and case folding is ASCII.
    [console.error] is not modelled.  An aggregation that fails has no
    effect on the store, and neither has a [deleteMany] that fails; an
    [insertMany] that fails keeps the documents it had already written
    ([Express.written]). *)

From Stdlib Require Import ZArith QArith Qround Qreduction Qcanon Lqa.
From Stdlib Require Import String Ascii List Bool Lia Permutation.
Import ListNotations.

Local Open Scope Z_scope.

(* ================================================================= *)
(** ** JavaScript primitives *)

Module JS.

(** A JavaScript Number: NaN, a finite value, or a signed infinity. *)
Inductive jsnum : Type :=
| NaN
| Num (q : Q)
| Infinity (negative : bool).

(** Finite results are always stored in lowest terms, so that equal numbers
    are equal terms. *)
Definition num (q : Q) : jsnum := Num (Qred q).
Definition of_Z (z : Z) : jsnum := Num (inject_Z z).

Definition isNaN (x : jsnum) : bool :=
  match x with NaN => true | _ => false end.

(** [a <= b] *)
Definition le (a b : jsnum) : bool :=
  match a, b with
  | NaN, _ | _, NaN => false
  | Num p, Num q => Qle_bool p q
  | Num _, Infinity neg => negb neg
  | Infinity neg, Num _ => neg
  | Infinity n1, Infinity n2 => n1 || negb n2
  end.

(** [a > b] *)
Definition gt (a b : jsnum) : bool :=
  match a, b with
  | NaN, _ | _, NaN => false
  | Num p, Num q => negb (Qle_bool p q)
  | Num _, Infinity neg => neg
  | Infinity neg, Num _ => negb neg
  | Infinity n1, Infinity n2 => negb n1 && n2
  end.

(** [a >= b] *)
Definition ge (a b : jsnum) : bool := le b a.

(** Equality of numbers as the store's [$match] compares them. *)
Definition eqb (a b : jsnum) : bool :=
  match a, b with
  | NaN, NaN => true
  | Num p, Num q => Qeq_bool p q
  | Infinity n1, Infinity n2 => Bool.eqb n1 n2
  | _, _ => false
  end.

Definition sgn_neg (q : Q) : bool := (Qnum q <? 0)%Z.
Definition is_zero (q : Q) : bool := (Qnum q =? 0)%Z.

(** [a + b] on counters and page numbers: the exact sum, which is the
    double sum whenever the operands and the result are integers within
    [2^53].  Sums of prices go through [add64] below. *)
Definition add (a b : jsnum) : jsnum :=
  match a, b with
  | NaN, _ | _, NaN => NaN
  | Num p, Num q => num (p + q)
  | Num _, Infinity n | Infinity n, Num _ => Infinity n
  | Infinity n1, Infinity n2 => if Bool.eqb n1 n2 then Infinity n1 else NaN
  end.

Definition neg (a : jsnum) : jsnum :=
  match a with
  | NaN => NaN
  | Num p => num (- p)
  | Infinity n => Infinity (negb n)
  end.

(** [a - b] *)
Definition sub (a b : jsnum) : jsnum := add a (neg b).

(** [a * b] *)
Definition mul (a b : jsnum) : jsnum :=
  match a, b with
  | NaN, _ | _, NaN => NaN
  | Num p, Num q => num (p * q)
  | Num p, Infinity n | Infinity n, Num p =>
      if is_zero p then NaN else Infinity (xorb (sgn_neg p) n)
  | Infinity n1, Infinity n2 => Infinity (xorb n1 n2)
  end.

(** [a / b] *)
Definition div (a b : jsnum) : jsnum :=
  match a, b with
  | NaN, _ | _, NaN => NaN
  | Num p, Num q =>
      if is_zero q
      then (if is_zero p then NaN else Infinity (sgn_neg p))
      else num (p / q)
  | Num _, Infinity _ => num 0
  | Infinity n, Num q => Infinity (xorb n (sgn_neg q))
  | Infinity _, Infinity _ => NaN
  end.

(* ----------------------------------------------------------------- *)
(** *** Rounding to the nearest double (IEEE-754 binary64) *)

(** [floor (log2 (n / d))] *)
Definition floor_log2 (n d : positive) : Z :=
  let l := Z.log2 (Zpos n) - Z.log2 (Zpos d) in
  let below :=
    if l <? 0 then Zpos d <=? Zpos n * 2 ^ (- l)
    else Zpos d * 2 ^ l <=? Zpos n in
  if below then l else l - 1.

(** The integer nearest to [a / b] for [0 <= a] and [0 < b]; a tie goes to
    the even neighbour. *)
Definition nearest_even (a b : Z) : Z :=
  let q := a / b in
  match 2 * (a mod b) ?= b with
  | Lt => q
  | Gt => q + 1
  | Eq => if Z.even q then q else q + 1
  end.

(** [m * 2^e] *)
Definition times_pow2 (m e : Z) : Q :=
  if e <? 0 then Qred (m # Z.to_pos (2 ^ (- e))) else inject_Z (m * 2 ^ e).

(** The double nearest to [n / d]: a 53-bit significand [m] at the binary
    exponent [e] of the value, [e] no lower than [-1074] (below [2^-1022]
    doubles are spaced [2^-1074] apart and small values round to [0]);
    values that round to [2^1024] or more give [Infinity]. *)
Definition round64_pos (n d : positive) : jsnum :=
  let e := Z.max (floor_log2 n d - 52) (- 1074) in
  let m :=
    if e <? 0 then nearest_even (Zpos n * 2 ^ (- e)) (Zpos d)
    else nearest_even (Zpos n) (Zpos d * 2 ^ e) in
  if 971 <? e then Infinity false
  else if (e =? 971) && (m =? 2 ^ 53) then Infinity false
  else Num (times_pow2 m e).

(** The double nearest to a rational, ties to even. *)
Definition round64 (q : Q) : jsnum :=
  match Qnum (Qred q) with
  | Z0 => Num 0
  | Zpos n => round64_pos n (Qden (Qred q))
  | Zneg n => neg (round64_pos n (Qden (Qred q)))
  end.

(** [a + b] on doubles: the exact sum rounded to the nearest double. *)
Definition add64 (a b : jsnum) : jsnum :=
  match a, b with
  | NaN, _ | _, NaN => NaN
  | Num p, Num q => round64 (p + q)
  | Num _, Infinity n | Infinity n, Num _ => Infinity n
  | Infinity n1, Infinity n2 => if Bool.eqb n1 n2 then Infinity n1 else NaN
  end.

(** [Math.ceil(a)] *)
Definition Math_ceil (a : jsnum) : jsnum :=
  match a with
  | Num p => of_Z (Qceiling p)
  | _ => a
  end.

(** Truthiness of a number: [NaN] and [0] are falsy. *)
Definition truthy (a : jsnum) : bool :=
  match a with
  | NaN => false
  | Num p => negb (is_zero p)
  | Infinity _ => true
  end.

(** [a || b] on numbers. *)
Definition or_else (a b : jsnum) : jsnum := if truthy a then a else b.

(* ----------------------------------------------------------------- *)
(** *** Strings to numbers *)

Definition chars (s : string) : list ascii := list_ascii_of_string s.

(** White space and line terminators (the ASCII ones). *)
Definition is_space (c : ascii) : bool :=
  let n := N_of_ascii c in
  ((9 <=? n) && (n <=? 13) || (n =? 32))%N.

Definition is_digit (c : ascii) : bool :=
  let n := N_of_ascii c in ((48 <=? n) && (n <=? 57))%N.

Definition digit_val (c : ascii) : Z := Z.of_N (N_of_ascii c) - 48.

(** Value of a hexadecimal digit, if it is one. *)
Definition hex_val (c : ascii) : option Z :=
  let n := N_of_ascii c in
  if ((48 <=? n) && (n <=? 57))%N then Some (Z.of_N n - 48)
  else if ((97 <=? n) && (n <=? 102))%N then Some (Z.of_N n - 87)
  else if ((65 <=? n) && (n <=? 70))%N then Some (Z.of_N n - 55)
  else None.

Fixpoint drop_while {A} (p : A -> bool) (l : list A) : list A :=
  match l with
  | [] => []
  | x :: r => if p x then drop_while p r else l
  end.

Fixpoint take_while {A} (p : A -> bool) (l : list A) : list A :=
  match l with
  | [] => []
  | x :: r => if p x then x :: take_while p r else []
  end.

Definition trim_left (l : list ascii) : list ascii := drop_while is_space l.
Definition trim (l : list ascii) : list ascii :=
  rev (trim_left (rev (trim_left l))).

(** Digits of radix [r], most significant first; [None] if some character
    is not a digit of that radix or there is no digit at all. *)
Fixpoint radix_value (r : Z) (acc : Z) (l : list ascii) : option Z :=
  match l with
  | [] => Some acc
  | c :: rest =>
      match hex_val c with
      | Some d => if d <? r then radix_value r (r * acc + d) rest else None
      | None => None
      end
  end.

Definition radix_literal (r : Z) (l : list ascii) : option Z :=
  match l with [] => None | _ => radix_value r 0 l end.

Definition decimal_value (ds : list ascii) : Z :=
  fold_left (fun acc c => 10 * acc + digit_val c) ds 0.

(** [10 ^ e] for any integer [e]. *)
Definition pow10 (e : Z) : Q :=
  if e <? 0 then 1 # Pos.pow 10 (Z.to_pos (- e)) else inject_Z (10 ^ e).

(** The exponent part of a decimal literal: nothing, or [e]/[E], an optional
    sign and at least one digit, up to the end of the text. *)
Definition exponent_part (l : list ascii) : option Z :=
  match l with
  | [] => Some 0
  | c :: r =>
      if (Ascii.eqb c "e" || Ascii.eqb c "E")%char then
        let '(sg, ds) :=
          match r with
          | "+"%char :: r' => (1, r')
          | "-"%char :: r' => (-1, r')
          | _ => (1, r)
          end in
        match ds with
        | [] => None
        | _ => if forallb is_digit ds then Some (sg * decimal_value ds) else None
        end
      else None
  end.

(** StrUnsignedDecimalLiteral without [Infinity]:
    digits, optional fraction, optional exponent. *)
Definition unsigned_decimal (l : list ascii) : option Q :=
  let ip := take_while is_digit l in
  let r1 := drop_while is_digit l in
  let '(fp, r2) :=
    match r1 with
    | "."%char :: r => (take_while is_digit r, drop_while is_digit r)
    | _ => ([], r1)
    end in
  match ip ++ fp with
  | [] => None
  | ds =>
      match exponent_part r2 with
      | Some e =>
          Some (inject_Z (decimal_value ds) * pow10 (e - Z.of_nat (length fp)))%Q
      | None => None
      end
  end.

Definition infinity_text : list ascii := chars "Infinity".

Definition ascii_list_eqb (a b : list ascii) : bool :=
  String.eqb (string_of_list_ascii a) (string_of_list_ascii b).

Definition unsigned_numeric (negative : bool) (l : list ascii) : jsnum :=
  if ascii_list_eqb l infinity_text then Infinity negative
  else match unsigned_decimal l with
       | Some q => round64 (if negative then - q else q)
       | None => NaN
       end.

Definition radix_number (radix : Z) (l : list ascii) : jsnum :=
  match radix_literal radix l with
  | Some z => round64 (inject_Z z)
  | None => NaN
  end.

(** [Number(s)] and unary [+s] on a string (StringToNumber): the
    mathematical value of the literal, rounded to the nearest double. *)
Definition ToNumber (s : string) : jsnum :=
  match trim (chars s) with
  | [] => of_Z 0
  | "+"%char :: r => unsigned_numeric false r
  | "-"%char :: r => unsigned_numeric true r
  | "0"%char :: p :: r =>
      if (Ascii.eqb p "x" || Ascii.eqb p "X")%char then radix_number 16 r
      else if (Ascii.eqb p "o" || Ascii.eqb p "O")%char then radix_number 8 r
      else if (Ascii.eqb p "b" || Ascii.eqb p "B")%char then radix_number 2 r
      else unsigned_numeric false ("0"%char :: p :: r)
  | l => unsigned_numeric false l
  end.

(** [parseInt(s, 10)]: leading white space, an optional sign, then the
    longest run of decimal digits; [NaN] when that run is empty, otherwise
    the integer the digits spell, rounded to the nearest double. *)
Definition parseInt10 (s : string) : jsnum :=
  let l := trim_left (chars s) in
  let '(sg, r) :=
    match l with
    | "+"%char :: r' => (1, r')
    | "-"%char :: r' => (-1, r')
    | _ => (1, l)
    end in
  match take_while is_digit r with
  | [] => NaN
  | ds => round64 (inject_Z (sg * decimal_value ds))
  end.

(** Truthiness of a string: only the empty string is falsy. *)
Definition truthy_string (s : string) : bool :=
  match s with EmptyString => false | _ => true end.

(* ----------------------------------------------------------------- *)
(** *** Plain objects used as dictionaries *)

(** What a property read can give: [undefined], a number, a string, or an
    object or function (kept as the text its conversion to a primitive
    gives, the only thing the controller can observe of it). *)
Inductive jsval : Type :=
| Undefined
| VNum (n : jsnum)
| VStr (s : string)
| VObject (text : string).

(** Own enumerable properties of an object literal [{}], in creation order. *)
Definition jsobject : Type := list (string * jsval).

(** The members every object inherits from [Object.prototype], with the text
    each converts to.  [__proto__] is an accessor giving the prototype
    itself; the others are native functions. *)
Definition native (name : string) : string :=
  ("function " ++ name ++ "() { [native code] }")%string.

Definition Object_prototype : list (string * string) :=
  [ ("__proto__", "[object Object]");
    ("constructor", native "Object");
    ("hasOwnProperty", native "hasOwnProperty");
    ("isPrototypeOf", native "isPrototypeOf");
    ("propertyIsEnumerable", native "propertyIsEnumerable");
    ("toLocaleString", native "toLocaleString");
    ("toString", native "toString");
    ("valueOf", native "valueOf");
    ("__defineGetter__", native "__defineGetter__");
    ("__defineSetter__", native "__defineSetter__");
    ("__lookupGetter__", native "__lookupGetter__");
    ("__lookupSetter__", native "__lookupSetter__") ]%string.

Fixpoint assoc {V} (k : string) (l : list (string * V)) : option V :=
  match l with
  | [] => None
  | (k', v) :: r => if String.eqb k k' then Some v else assoc k r
  end.

(** [o[k]]: an own property, else an inherited one, else [undefined]. *)
Definition get (o : jsobject) (k : string) : jsval :=
  match assoc k o with
  | Some v => v
  | None =>
      match assoc k Object_prototype with
      | Some text => VObject text
      | None => Undefined
      end
  end.

Fixpoint update (k : string) (v : jsval) (o : jsobject) : jsobject :=
  match o with
  | [] => [(k, v)]
  | (k', v') :: r =>
      if String.eqb k k' then (k', v) :: r else (k', v') :: update k v r
  end.

(** [o[k] = v] for a primitive [v]: the [__proto__] setter ignores a value
    that is not an object; any other key becomes (or stays) an own
    property, a new one going last. *)
Definition set (o : jsobject) (k : string) (v : jsval) : jsobject :=
  if String.eqb k "__proto__" then o else update k v o.

Definition truthy_val (v : jsval) : bool :=
  match v with
  | Undefined => false
  | VNum n => truthy n
  | VStr s => truthy_string s
  | VObject _ => true
  end.

(** [v || 0] *)
Definition or_zero (v : jsval) : jsval :=
  if truthy_val v then v else VNum (of_Z 0).

(** [v + 1]: numeric addition, or concatenation once [v] converts to a
    string. *)
Definition plus_one (v : jsval) : jsval :=
  match v with
  | Undefined => VNum NaN
  | VNum n => VNum (add n (of_Z 1))
  | VStr s => VStr (s ++ "1")
  | VObject text => VStr (text ++ "1")
  end.

(** A canonical array index: [0], or digits without a leading zero, at most
    [2^32 - 2]. *)
Definition array_index (k : string) : option Z :=
  match chars k with
  | [] => None
  | c :: r =>
      if forallb is_digit (c :: r)
         && (negb (Ascii.eqb c "0") || match r with [] => true | _ => false end)
         && (decimal_value (c :: r) <=? 4294967294)
      then Some (decimal_value (c :: r))
      else None
  end.

Fixpoint insert_index {V} (i : Z) (e : string * V) (l : list (Z * (string * V)))
  : list (Z * (string * V)) :=
  match l with
  | [] => [(i, e)]
  | (j, e') :: r =>
      if i <? j then (i, e) :: l else (j, e') :: insert_index i e r
  end.

(** Property order of an ordinary object: array-index keys in ascending
    numeric order, then the other keys in creation order. *)
Fixpoint index_entries {V} (o : list (string * V)) : list (Z * (string * V)) :=
  match o with
  | [] => []
  | (k, v) :: r =>
      match array_index k with
      | Some i => insert_index i (k, v) (index_entries r)
      | None => index_entries r
      end
  end.

Definition named_entries {V} (o : list (string * V)) : list (string * V) :=
  filter (fun e => match array_index (fst e) with Some _ => false | None => true end) o.

Definition own_entries {V} (o : list (string * V)) : list (string * V) :=
  map snd (index_entries o) ++ named_entries o.

(** [Object.entries(o)] *)
Definition Object_entries (o : jsobject) : list (string * jsval) := own_entries o.

(* ----------------------------------------------------------------- *)
(** *** Regular expressions (a fragment) *)

(** The patterns modelled: a sequence of literal characters and [.]
    wildcards.  Any other metacharacter puts the pattern outside the
    fragment. *)
Inductive regex_item : Type :=
| Lit (c : ascii)
| AnyChar.

Definition regex : Type := list regex_item.

Definition is_meta (c : ascii) : bool :=
  existsb (Ascii.eqb c) (chars "\^$.|?*+()[]{}").

Fixpoint compile (l : list ascii) : option regex :=
  match l with
  | [] => Some []
  | c :: r =>
      match compile r with
      | None => None
      | Some items =>
          if Ascii.eqb c "." then Some (AnyChar :: items)
          else if is_meta c then None
          else Some (Lit c :: items)
      end
  end.

(** [new RegExp(source, 'i')], [None] outside the fragment. *)
Definition RegExp_i (source : string) : option regex := compile (chars source).

(** ASCII case folding, as the [i] flag does on ASCII letters. *)
Definition lower (c : ascii) : ascii :=
  let n := N_of_ascii c in
  if ((65 <=? n) && (n <=? 90))%N then ascii_of_N (n + 32) else c.

Definition is_line_break (c : ascii) : bool :=
  let n := N_of_ascii c in ((n =? 10) || (n =? 13))%N.

Definition item_matches (i : regex_item) (c : ascii) : bool :=
  match i with
  | Lit a => Ascii.eqb (lower a) (lower c)
  | AnyChar => negb (is_line_break c)
  end.

Fixpoint match_here (r : regex) (s : list ascii) : bool :=
  match r, s with
  | [], _ => true
  | _ :: _, [] => false
  | i :: r', c :: s' => item_matches i c && match_here r' s'
  end.

(** An unanchored match: the pattern matches at some position. *)
Fixpoint search_from (r : regex) (s : list ascii) : bool :=
  match_here r s ||
  match s with
  | [] => false
  | _ :: s' => search_from r s'
  end.

Definition test (r : regex) (s : string) : bool := search_from r (chars s).

End JS.

(* ================================================================= *)
(** ** The data model: [models/Transaction.js] *)

Module Model.

(** A stored transaction, as the mongoose schema shapes it: [title], [price]
    and [dateOfSale] are required, [description] and [category] optional,
    [sold] defaults to [false].  [dateOfSale] is a Date, that is a number
    of milliseconds since the epoch. *)
Record Transaction : Type := mkTransaction {
  title : string;
  description : option string;
  price : Q;
  category : option string;
  dateOfSale : Z;
  sold : bool
}.

(** An element of the array fetched from the third-party API, before the
    schema has been applied: every field may be missing. *)
Record rawdoc : Type := mkRaw {
  raw_title : option string;
  raw_description : option string;
  raw_price : option Q;
  raw_category : option string;
  raw_dateOfSale : option Z;
  raw_sold : option bool
}.

(** Schema validation and defaults, as [insertMany] applies them to one
    element: the three required paths must be present (a required string
    must also be non-empty), and [sold] defaults to [false]. *)
Definition validate (r : rawdoc) : option Transaction :=
  match raw_title r, raw_price r, raw_dateOfSale r with
  | Some t, Some p, Some d =>
      if JS.truthy_string t
      then Some (mkTransaction t (raw_description r) p (raw_category r) d
                               (match raw_sold r with Some b => b | None => false end))
      else None
  | _, _, _ => None
  end.

Fixpoint validate_all (data : list rawdoc) : option (list Transaction) :=
  match data with
  | [] => Some []
  | r :: rest =>
      match validate r, validate_all rest with
      | Some t, Some ts => Some (t :: ts)
      | _, _ => None
      end
  end.

(** The paths of [r] that fail the [required] validator, in schema
    order. *)
Definition missing_paths (r : rawdoc) : list string :=
  (match raw_title r with
   | Some t => if JS.truthy_string t then [] else ["title"%string]
   | None => ["title"%string]
   end)
  ++ (match raw_price r with Some _ => [] | None => ["price"%string] end)
  ++ (match raw_dateOfSale r with Some _ => [] | None => ["dateOfSale"%string] end).

(** The message of the [ValidationError] mongoose raises for [r]: the
    model name, then each failing path with its own message. *)
Definition validation_message (r : rawdoc) : string :=
  ("Transaction validation failed: "
   ++ String.concat ", "
        (map (fun path => path ++ ": Path `" ++ path ++ "` is required.")
             (missing_paths r)))%string.

(** The whole array through the schema: the documents to insert, or the
    message for the first element the schema refuses. *)
Fixpoint validate_batch (data : list rawdoc) : string + list Transaction :=
  match data with
  | [] => inr []
  | r :: rest =>
      match validate r with
      | None => inl (validation_message r)
      | Some t =>
          match validate_batch rest with
          | inl e => inl e
          | inr ts => inr (t :: ts)
          end
      end
  end.

(** A document inside or coming out of an aggregation pipeline: any field
    may have been projected away; [month] is the field [$addFields]
    computes and [totalRecords] the one [$count] produces. *)
Record doc : Type := mkDoc {
  doc_title : option string;
  doc_description : option string;
  doc_price : option Q;
  doc_category : option string;
  doc_dateOfSale : option Z;
  doc_sold : option bool;
  doc_month : option Z;
  doc_totalRecords : option Z
}.

Definition stored (t : Transaction) : doc :=
  mkDoc (Some (title t)) (description t) (Some (price t)) (category t)
        (Some (dateOfSale t)) (Some (sold t)) None None.

(** The calendar month (1 to 12, UTC) of a timestamp in milliseconds: the
    day number is turned into a civil date counting from 1 March of year 0
    in eras of 400 years. *)
Definition utc_month (ms : Z) : Z :=
  let days := ms / 86400000 in
  let z := days + 719468 in
  let era := z / 146097 in
  let doe := z - era * 146097 in
  let yoe := (doe - doe / 1460 + doe / 36524 - doe / 146096) / 365 in
  let doy := doe - (365 * yoe + yoe / 4 - yoe / 100) in
  let mp := (5 * doy + 2) / 153 in
  if mp <? 10 then mp + 3 else mp - 9.

End Model.

(* ================================================================= *)
(** ** Aggregation pipelines *)

Module Mongo.
Import Model.

(** One alternative of the [$or] of the list view's search. *)
Inductive clause : Type :=
| TitleRegex (r : JS.regex)                (* { title: searchRegex } *)
| DescriptionRegex (r : JS.regex)          (* { description: searchRegex } *)
| PriceEq (v : option JS.jsnum).           (* { price: <number or undefined> } *)

(** The argument of a [$match] stage as the controller builds them: an
    optional [month] equality and an optional [$or]. *)
Record match_spec : Type := mkMatch {
  match_month : option JS.jsnum;
  match_or : option (list clause)
}.

Inductive field : Type :=
| f_title | f_description | f_price | f_sold | f_dateOfSale | f_category.

Inductive stage : Type :=
| AddFields_month                 (* { $addFields: { month: { $month: '$dateOfSale' } } } *)
| Match (m : match_spec)          (* { $match: ... } *)
| Skip (n : JS.jsnum)             (* { $skip: n } *)
| Limit (n : JS.jsnum)            (* { $limit: n } *)
| Project (fields : list field)   (* { $project: { f: 1, ... } } *)
| Count_totalRecords.             (* { $count: 'totalRecords' } *)

Definition pipeline : Type := list stage.

Definition add_month (d : doc) : doc :=
  mkDoc (doc_title d) (doc_description d) (doc_price d) (doc_category d)
        (doc_dateOfSale d) (doc_sold d)
        (option_map utc_month (doc_dateOfSale d)) (doc_totalRecords d).

Definition regex_on (r : JS.regex) (f : option string) : bool :=
  match f with
  | Some s => JS.test r s
  | None => false
  end.

(** [{ price: undefined }] reaches the store as [{ price: null }], which
    selects the documents without a price. *)
Definition clause_matches (c : clause) (d : doc) : bool :=
  match c with
  | TitleRegex r => regex_on r (doc_title d)
  | DescriptionRegex r => regex_on r (doc_description d)
  | PriceEq (Some n) =>
      match doc_price d with
      | Some p => JS.eqb (JS.Num p) n
      | None => false
      end
  | PriceEq None =>
      match doc_price d with
      | Some _ => false
      | None => true
      end
  end.

Definition month_matches (m : option JS.jsnum) (d : doc) : bool :=
  match m with
  | None => true
  | Some n =>
      match doc_month d with
      | Some z => JS.eqb (JS.of_Z z) n
      | None => false
      end
  end.

Definition or_matches (cs : option (list clause)) (d : doc) : bool :=
  match cs with
  | None => true
  | Some l => existsb (fun c => clause_matches c d) l
  end.

Definition matches (m : match_spec) (d : doc) : bool :=
  month_matches (match_month m) d && or_matches (match_or m) d.

Definition has_field (f : field) (fs : list field) : bool :=
  existsb (fun g =>
             match f, g with
             | f_title, f_title | f_description, f_description
             | f_price, f_price | f_sold, f_sold
             | f_dateOfSale, f_dateOfSale | f_category, f_category => true
             | _, _ => false
             end) fs.

Definition keep {A} (f : field) (fs : list field) (v : option A) : option A :=
  if has_field f fs then v else None.

Definition project (fs : list field) (d : doc) : doc :=
  mkDoc (keep f_title fs (doc_title d)) (keep f_description fs (doc_description d))
        (keep f_price fs (doc_price d)) (keep f_category fs (doc_category d))
        (keep f_dateOfSale fs (doc_dateOfSale d)) (keep f_sold fs (doc_sold d))
        None None.

(** A whole number, if the number is finite and integral. *)
Definition integral (n : JS.jsnum) : option Z :=
  match n with
  | JS.Num q => if Qeq_bool q (inject_Z (Qfloor q)) then Some (Qfloor q) else None
  | _ => None
  end.

(** One stage over the documents reaching it.  The store refuses a [$skip]
    that is not a non-negative integer, a [$limit] that is not a positive
    one, and an empty [$or]. *)
Definition run_stage (s : stage) (ds : list doc) : string + list doc :=
  match s with
  | AddFields_month => inr (map add_month ds)
  | Match m =>
      match match_or m with
      | Some [] => inl "$or must be a nonempty array"%string
      | _ => inr (filter (matches m) ds)
      end
  | Skip n =>
      match integral n with
      | Some k =>
          if 0 <=? k then inr (skipn (Z.to_nat k) ds)
          else inl "invalid argument to $skip stage"%string
      | None => inl "invalid argument to $skip stage"%string
      end
  | Limit n =>
      match integral n with
      | Some k =>
          if 0 <? k then inr (firstn (Z.to_nat k) ds)
          else inl "the limit must be positive"%string
      | None => inl "the limit must be positive"%string
      end
  | Project fs => inr (map (project fs) ds)
  | Count_totalRecords =>
      match ds with
      | [] => inr []
      | _ => inr [mkDoc None None None None None None None
                        (Some (Z.of_nat (length ds)))]
      end
  end.

Fixpoint run (p : pipeline) (ds : list doc) : string + list doc :=
  match p with
  | [] => inr ds
  | s :: rest =>
      match run_stage s ds with
      | inl e => inl e
      | inr ds' => run rest ds'
      end
  end.

End Mongo.

(* ================================================================= *)
(** ** The world of a request: store, responses, failures *)

Module Express.
Import Model.

(** Operations issued to the store, in order. *)
Inductive db_op : Type :=
| deleteMany_op
| insertMany_op (docs : list Transaction)
| aggregate_op (p : Mongo.pipeline).

Record Pagination : Type := mkPagination {
  totalRecords : JS.jsnum;
  currentPage : JS.jsnum;
  perPage : JS.jsnum;
  totalPages : JS.jsnum
}.

(** The JSON bodies the controller sends. *)
Inductive body : Type :=
| Message (message : string) (error : option string)
| Initialized (message : string) (totalRecords : Z)
| TransactionsPage (transactions : list doc) (pagination : Pagination)
| Statistics (totalSaleAmount : JS.jsnum) (totalSoldItems totalUnsoldItems : Z)
| RangeCounts (rangeCounts : list (string * Z))
| CategoryCounts (categoryCounts : list (string * JS.jsval))
| Combined (statistics barChart pieChart : JS.jsval).

Record response : Type := mkResponse {
  status : Z;
  json : body
}.

(** What the third-party API answers to [axios.get(API_URL)]. *)
Inductive fetch : Type :=
| FetchOk (data : list rawdoc)
| FetchFails (message : string).

(** [store] is the collection, in scan order.  [faults] says how the coming
    store operations fare, one entry per operation ([Some message]: that
    operation fails); operations past the end of the list succeed.
    [oplog] records the operations issued and [sent] the responses written
    to the client, both oldest first.  [written] says how far an
    [insertMany] that fails had got: the store inserts the documents of an
    ordered batch one after the other and keeps those written before the
    failing one. *)
Record world : Type := mkWorld {
  store : list Transaction;
  faults : list (option string);
  oplog : list db_op;
  sent : list response;
  api : fetch;
  written : nat
}.

(** The second argument of a handler: the Express response object, or the
    [null] that [getCombinedData] passes. *)
Inductive resobj : Type :=
| express_res
| null.

(** What a handler call evaluates to. *)
Inductive value : Type :=
| undefined
| the_res.

(** How a computation ends: with a value, with an exception carrying
    [error.message], or outside what is modelled (a search pattern beyond
    the regex fragment). *)
Inductive outcome (A : Type) : Type :=
| Returned (a : A)
| Thrown (message : string)
| Unmodelled.
Arguments Returned {A} a.
Arguments Thrown {A} message.
Arguments Unmodelled {A}.

Definition M (A : Type) : Type := world -> outcome A * world.

Definition ret {A} (a : A) : M A := fun w => (Returned a, w).

Definition bind {A B} (c : M A) (k : A -> M B) : M B :=
  fun w =>
    match c w with
    | (Returned a, w') => k a w'
    | (Thrown e, w') => (Thrown e, w')
    | (Unmodelled, w') => (Unmodelled, w')
    end.

Definition throw {A} (message : string) : M A := fun w => (Thrown message, w).

Definition unmodelled {A} : M A := fun w => (Unmodelled, w).

(** [try { c } catch (error) { h error.message }] *)
Definition try_catch {A} (c : M A) (h : string -> M A) : M A :=
  fun w =>
    match c w with
    | (Thrown e, w') => h e w'
    | r => r
    end.

Definition type_error_null : string :=
  "Cannot read properties of null (reading 'status')".
Definition type_error_undefined (property : string) : string :=
  ("Cannot read properties of undefined (reading '" ++ property ++ "')")%string.

(** [res.status(code).json(b)]; evaluates to [res]. *)
Definition send (res : resobj) (code : Z) (b : body) : M value :=
  match res with
  | null => throw type_error_null
  | express_res =>
      fun w => (Returned the_res,
                mkWorld (store w) (faults w) (oplog w)
                        (sent w ++ [mkResponse code b]) (api w) (written w))
  end.

(** Issue one operation to the store: it is logged, and the next entry of
    [faults] decides whether it goes through; [torn] is what a failing
    operation leaves of the collection. *)
Definition issue_torn {A} (op : db_op)
           (effect : list Transaction -> outcome A * list Transaction)
           (torn : list Transaction -> list Transaction) : M A :=
  fun w =>
    let log := oplog w ++ [op] in
    match faults w with
    | Some e :: rest =>
        (Thrown e, mkWorld (torn (store w)) rest log (sent w) (api w) (written w))
    | None :: rest =>
        let '(o, st) := effect (store w) in
        (o, mkWorld st rest log (sent w) (api w) (written w))
    | [] =>
        let '(o, st) := effect (store w) in
        (o, mkWorld st [] log (sent w) (api w) (written w))
    end.

(** An operation that leaves the collection as it was when it fails. *)
Definition issue {A} (op : db_op)
           (effect : list Transaction -> outcome A * list Transaction) : M A :=
  issue_torn op effect (fun st => st).

(** [Transaction.deleteMany()] *)
Definition deleteMany : M unit :=
  issue deleteMany_op (fun _ => (Returned tt, [])).

(** The documents of [docs] an ordered insertion has written when it fails
    at one of them: at most all but the last. *)
Definition written_before_failure (w : world) (docs : list Transaction)
  : list Transaction :=
  firstn (Nat.min (written w) (length docs - 1)) docs.

(** [Transaction.insertMany(data)]: every element is validated first, and
    nothing is sent to the store if one of them fails or if there is
    nothing to insert; the batch is then inserted in order, and a failure
    keeps the documents already written. *)
Definition insertMany (data : list rawdoc) : M (list Transaction) :=
  match validate_batch data with
  | inl e => throw e
  | inr [] => ret []
  | inr docs =>
      fun w =>
        issue_torn (insertMany_op docs)
                   (fun st => (Returned docs, st ++ docs))
                   (fun st => st ++ written_before_failure w docs) w
  end.

(** [Transaction.aggregate(p)] *)
Definition aggregate (p : Mongo.pipeline) : M (list doc) :=
  issue (aggregate_op p)
        (fun st =>
           match Mongo.run p (map stored st) with
           | inl e => (Thrown e, st)
           | inr ds => (Returned ds, st)
           end).

(** [axios.get(process.env.API_URL)], keeping [data] of the answer. *)
Definition axios_get : M (list rawdoc) :=
  fun w =>
    match api w with
    | FetchOk data => (Returned data, w)
    | FetchFails e => (Thrown e, w)
    end.

(** [Promise.all] of three calls that have all been started: each runs, and
    the result is all three values or the first exception in array order. *)
Definition Promise_all3 {A} (p1 p2 p3 : M A) : M (A * A * A) :=
  fun w =>
    let '(o1, w1) := p1 w in
    let '(o2, w2) := p2 w1 in
    let '(o3, w3) := p3 w2 in
    match o1, o2, o3 with
    | Returned a, Returned b, Returned c => (Returned (a, b, c), w3)
    | Unmodelled, _, _ | _, Unmodelled, _ | _, _, Unmodelled => (Unmodelled, w3)
    | Thrown e, _, _ => (Thrown e, w3)
    | _, Thrown e, _ => (Thrown e, w3)
    | _, _, Thrown e => (Thrown e, w3)
    end.

(** [v.name] on what a handler call evaluated to: the response object has no
    such property; [undefined] has no properties at all. *)
Definition property (v : value) (name : string) : M JS.jsval :=
  match v with
  | the_res => ret JS.Undefined
  | undefined => throw (type_error_undefined name)
  end.

End Express.

Declare Scope handler_scope.
Delimit Scope handler_scope with handler.
Notation "x <- c ;; k" := (Express.bind c (fun x => k))
  (at level 61, c at next level, right associativity) : handler_scope.
Notation "c ;;; k" := (Express.bind c (fun _ => k))
  (at level 61, right associativity) : handler_scope.

(* ================================================================= *)
(** ** The controller: [controllers/transactionController.js] *)

Module Controller.
Import Model Mongo Express.
Local Open Scope handler_scope.

(** [req.query]: each parameter is a string or absent (repeated and nested
    parameters, which Express turns into arrays and objects, are not
    modelled). *)
Record query : Type := mkQuery {
  month : option string;
  search : option string;
  page : option string;
  perPage : option string
}.

Definition month_only (m : option string) : query := mkQuery m None None None.

(** A destructuring default: it applies to a parameter that is absent.  The
    numeric defaults of [page] and [perPage] are written as the strings
    [parseInt] turns them into. *)
Definition default (d : string) (v : option string) : string :=
  match v with Some s => s | None => d end.

(** [!month || +month <= 0 || +month > 12] *)
Definition invalid_month (month : option string) : bool :=
  match month with
  | None => true
  | Some m =>
      negb (JS.truthy_string m)
      || JS.le (JS.ToNumber m) (JS.of_Z 0)
      || JS.gt (JS.ToNumber m) (JS.of_Z 12)
  end.

Definition valid_month_required : body := Message "Valid month is required" None.

(** [+month] once [month] is known to be present. *)
Definition plus (month : option string) : JS.jsnum :=
  match month with
  | Some m => JS.ToNumber m
  | None => JS.NaN
  end.

(* ----------------------------------------------------------------- *)
(** *** initializeDB *)

Definition initializeDB (req : query) (res : resobj) : M value :=
  try_catch
    (data <- axios_get ;;
     deleteMany ;;;
     transactions <- insertMany data ;;
     send res 200 (Initialized "Database initialized successfully!"
                               (Z.of_nat (length transactions))) ;;;
     ret undefined)
    (fun error =>
       send res 500 (Message "Failed to initialize database" (Some error)) ;;;
       ret undefined).

(* ----------------------------------------------------------------- *)
(** *** listTransactions *)

(** Anything in a [$or] array is an object, hence truthy: [filter(Boolean)]
    keeps every clause. *)
Definition Boolean (c : clause) : bool := true.

Definition searchQuery (searchRegex : JS.regex) (search : string) : list clause :=
  filter Boolean
    [ TitleRegex searchRegex;
      DescriptionRegex searchRegex;
      PriceEq (if JS.isNaN (JS.ToNumber search) then None
               else Some (JS.ToNumber search)) ].

Definition listPipeline (month : option string) (searchRegex : JS.regex)
           (search : string) (skip limit : JS.jsnum) : pipeline :=
  [ AddFields_month;
    Match (mkMatch (match month with
                    | Some m => if JS.truthy_string m then Some (JS.ToNumber m) else None
                    | None => None
                    end)
                   (Some (searchQuery searchRegex search)));
    Skip skip;
    Limit limit;
    Project [f_title; f_description; f_price; f_sold; f_dateOfSale; f_category] ].

(** [a.slice(0, -2)] *)
Definition slice_0_minus2 {A} (a : list A) : list A :=
  firstn (length a - 2) a.

(** [totalCountResult[0]?.totalRecords || 0] *)
Definition first_totalRecords (totalCountResult : list doc) : JS.jsnum :=
  match totalCountResult with
  | d :: _ =>
      match doc_totalRecords d with
      | Some n => JS.or_else (JS.of_Z n) (JS.of_Z 0)
      | None => JS.of_Z 0
      end
  | [] => JS.of_Z 0
  end.

Definition listTransactions (req : query) (res : resobj) : M value :=
  try_catch
    (let month := month req in
     let search := default "" (search req) in
     let page := default "1" (page req) in
     let perPage := default "10" (perPage req) in
     if invalid_month month then send res 400 valid_month_required
     else
       let limit := JS.or_else (JS.parseInt10 perPage) (JS.of_Z 10) in
       let skip := JS.mul (JS.sub (JS.parseInt10 page) (JS.of_Z 1)) limit in
       match JS.RegExp_i search with
       | None => unmodelled
       | Some searchRegex =>
           let pipeline := listPipeline month searchRegex search skip limit in
           transactions <- aggregate pipeline ;;
           let totalRecordsPipeline := slice_0_minus2 pipeline ++ [Count_totalRecords] in
           totalCountResult <- aggregate totalRecordsPipeline ;;
           let totalRecords := first_totalRecords totalCountResult in
           send res 200
                (TransactionsPage transactions
                   (mkPagination totalRecords (JS.parseInt10 page) limit
                                 (JS.Math_ceil (JS.div totalRecords limit)))) ;;;
           ret undefined
       end)
    (fun error =>
       send res 500 (Message "Failed to fetch transactions" (Some error)) ;;;
       ret undefined).

(* ----------------------------------------------------------------- *)
(** *** getStatistics *)

(** The pipeline shared by the three views: the documents of the month,
    reduced to the given fields. *)
Definition monthPipeline (month : option string) (fields : list field) : pipeline :=
  [ AddFields_month;
    Match (mkMatch (Some (plus month)) None);
    Project fields ].

(** [item.sold] as a condition. *)
Definition item_sold (item : doc) : bool :=
  match doc_sold item with Some b => b | None => false end.

(** [item.price] in arithmetic and comparisons: a missing price is
    [undefined], which converts to [NaN]. *)
Definition item_price (item : doc) : JS.jsnum :=
  match doc_price item with Some p => JS.Num p | None => JS.NaN end.

Definition totalSaleAmount (transactions : list doc) : JS.jsnum :=
  fold_left (fun sum item => JS.add64 sum (item_price item))
            (filter item_sold transactions) (JS.of_Z 0).

Definition totalSoldItems (transactions : list doc) : Z :=
  Z.of_nat (length (filter item_sold transactions)).

Definition totalUnsoldItems (transactions : list doc) : Z :=
  Z.of_nat (length transactions) - totalSoldItems transactions.

Definition getStatistics (req : query) (res : resobj) : M value :=
  try_catch
    (let month := month req in
     if invalid_month month then send res 400 valid_month_required
     else
       transactions <- aggregate (monthPipeline month [f_price; f_sold]) ;;
       send res 200 (Statistics (totalSaleAmount transactions)
                                (totalSoldItems transactions)
                                (totalUnsoldItems transactions)) ;;;
       ret undefined)
    (fun error =>
       send res 500 (Message "Failed to fetch statistics" (Some error)) ;;;
       ret undefined).

(* ----------------------------------------------------------------- *)
(** *** getBarChart *)

Record range : Type := mkRange {
  label : string;
  min : JS.jsnum;
  max : JS.jsnum
}.

Definition ranges : list range :=
  [ mkRange "0-100" (JS.of_Z 0) (JS.of_Z 100);
    mkRange "101-200" (JS.of_Z 101) (JS.of_Z 200);
    mkRange "201-300" (JS.of_Z 201) (JS.of_Z 300);
    mkRange "301-400" (JS.of_Z 301) (JS.of_Z 400);
    mkRange "401-500" (JS.of_Z 401) (JS.of_Z 500);
    mkRange "501-600" (JS.of_Z 501) (JS.of_Z 600);
    mkRange "601-700" (JS.of_Z 601) (JS.of_Z 700);
    mkRange "701-800" (JS.of_Z 701) (JS.of_Z 800);
    mkRange "801-900" (JS.of_Z 801) (JS.of_Z 900);
    mkRange "901-above" (JS.of_Z 901) (JS.Infinity false) ].

(** [item.price >= range.min && item.price <= range.max && item.sold] *)
Definition in_range (r : range) (item : doc) : bool :=
  JS.ge (item_price item) (min r) && JS.le (item_price item) (max r)
  && item_sold item.

Definition rangeCounts (transactions : list doc) : list (string * Z) :=
  map (fun r => (label r, Z.of_nat (length (filter (in_range r) transactions))))
      ranges.

Definition getBarChart (req : query) (res : resobj) : M value :=
  try_catch
    (let month := month req in
     if invalid_month month then send res 400 valid_month_required
     else
       transactions <- aggregate (monthPipeline month [f_price; f_sold]) ;;
       send res 200 (RangeCounts (rangeCounts transactions)) ;;;
       ret undefined)
    (fun error =>
       send res 500 (Message "Failed to fetch bar chart data" (Some error)) ;;;
       ret undefined).

(* ----------------------------------------------------------------- *)
(** *** getPieChart *)

(** [transaction.category || 'Uncategorized'] *)
Definition category_or_default (transaction : doc) : string :=
  match doc_category transaction with
  | Some c => if JS.truthy_string c then c else "Uncategorized"
  | None => "Uncategorized"
  end.

(** The reducer: [acc[category] = (acc[category] || 0) + 1]. *)
Definition count_category (acc : JS.jsobject) (transaction : doc) : JS.jsobject :=
  let category := category_or_default transaction in
  JS.set acc category (JS.plus_one (JS.or_zero (JS.get acc category))).

Definition categoryCounts (transactions : list doc) : JS.jsobject :=
  fold_left count_category transactions [].

Definition result (transactions : list doc) : list (string * JS.jsval) :=
  map (fun '(category, count) => (category, count))
      (JS.Object_entries (categoryCounts transactions)).

Definition getPieChart (req : query) (res : resobj) : M value :=
  try_catch
    (let month := month req in
     if invalid_month month then send res 400 valid_month_required
     else
       transactions <- aggregate (monthPipeline month [f_category]) ;;
       send res 200 (CategoryCounts (result transactions)) ;;;
       ret undefined)
    (fun error =>
       send res 500 (Message "Failed to fetch pie chart data" (Some error)) ;;;
       ret undefined).

(* ----------------------------------------------------------------- *)
(** *** getCombinedData *)

Definition getCombinedData (req : query) (res : resobj) : M value :=
  try_catch
    (let month := month req in
     if invalid_month month then send res 400 valid_month_required
     else
       let statisticsPromise := getStatistics (month_only month) null in
       let barChartPromise := getBarChart (month_only month) null in
       let pieChartPromise := getPieChart (month_only month) null in
       results <- Promise_all3 statisticsPromise barChartPromise pieChartPromise ;;
       let '(statistics, barChart, pieChart) := results in
       statistics_error <- property statistics "error" ;;
       barChart_error <- (if JS.truthy_val statistics_error then ret statistics_error
                          else property barChart "error") ;;
       pieChart_error <- (if JS.truthy_val barChart_error then ret barChart_error
                          else property pieChart "error") ;;
       if JS.truthy_val pieChart_error
       then throw "Error fetching data from one or more APIs"
       else
         statistics_data <- property statistics "data" ;;
         barChart_data <- property barChart "data" ;;
         pieChart_data <- property pieChart "data" ;;
         send res 200 (Combined statistics_data barChart_data pieChart_data) ;;;
         ret undefined)
    (fun error =>
       send res 500 (Message "Failed to fetch combined data" (Some error)) ;;;
       ret undefined).

End Controller.

(* ================================================================= *)
(** ** Vocabulary of the statements *)

Module Spec.
Import Model Mongo Express Controller.

(** The world after one more response has been written to the client. *)
Definition replied (w : world) (code : Z) (b : body) : world :=
  mkWorld (store w) (faults w) (oplog w) (sent w ++ [mkResponse code b]) (api w)
          (written w).

(** The world after one more store operation has been issued and has gone
    through without changing the collection. *)
Definition logged (w : world) (op : db_op) : world :=
  mkWorld (store w) (tl (faults w)) (oplog w ++ [op]) (sent w) (api w) (written w).

(** The next [n] store operations go through. *)
Fixpoint store_up (n : nat) (fs : list (option string)) : Prop :=
  match n with
  | O => True
  | S k =>
      match fs with
      | Some _ :: _ => False
      | _ => store_up k (tl fs)
      end
  end.

(** The query string denotes the calendar month [z]. *)
Definition denotes_month (m : string) (z : Z) : Prop :=
  JS.ToNumber m = JS.of_Z z /\ 1 <= z <= 12.


(** The records of the store whose sale month is [z]. *)
Definition of_month (z : Z) (st : list Transaction) : list Transaction :=
  filter (fun t => utc_month (dateOfSale t) =? z) st.

(** A stored record as a month pipeline hands it over: with its computed
    month, reduced to [fields]. *)
Definition month_view (fields : list field) (t : Transaction) : doc :=
  project fields (add_month (stored t)).

(** The sum of the prices of some records. *)
Definition sum_prices (l : list Transaction) : Q :=
  fold_right (fun t acc => price t + acc)%Q 0%Q l.

(** The prices of some records added up one after the other, from 0, in
    double arithmetic. *)
Definition sum64 (l : list Transaction) : JS.jsnum :=
  fold_left (fun sum t => JS.add64 sum (JS.Num (price t))) l (JS.of_Z 0).

(** A price that is a whole, non-negative number. *)
Definition whole_price (t : Transaction) : Prop :=
  exists z, 0 <= z /\ (price t == inject_Z z)%Q.

Definition total (l : list Z) : Z := fold_right Z.add 0 l.

(** The ten price buckets as the specification lists them: integer bounds,
    both included; the last one has no upper bound. *)
Definition buckets : list (Z * option Z) :=
  [ (0, Some 100); (101, Some 200); (201, Some 300); (301, Some 400);
    (401, Some 500); (501, Some 600); (601, Some 700); (701, Some 800);
    (801, Some 900); (901, None) ].

Definition bucket_labels : list string :=
  [ "0-100"; "101-200"; "201-300"; "301-400"; "401-500"; "501-600";
    "601-700"; "701-800"; "801-900"; "901-above" ]%string.

Definition in_bucket (b : Z * option Z) (p : Q) : bool :=
  Qle_bool (inject_Z (fst b)) p
  && match snd b with
     | Some hi => Qle_bool p (inject_Z hi)
     | None => true
     end.

(** The price lies in one of the buckets. *)
Definition covered (p : Q) : bool := existsb (fun b => in_bucket b p) buckets.

(** The label a record is counted under: its category, or "Uncategorized"
    when the category is missing or empty. *)
Definition category_label (t : Transaction) : string :=
  match category t with
  | Some c => if JS.truthy_string c then c else "Uncategorized"
  | None => "Uncategorized"
  end.

(** The distinct elements of a list, each at its first occurrence. *)
Fixpoint first_occurrences (l : list string) : list string :=
  match l with
  | [] => []
  | c :: r => c :: filter (fun x => negb (String.eqb x c)) (first_occurrences r)
  end.

Definition occurrences (c : string) (l : list string) : Z :=
  Z.of_nat (length (filter (String.eqb c) l)).

(** The name of a member that every object inherits. *)
Definition inherited (c : string) : bool :=
  match JS.assoc c JS.Object_prototype with
  | Some _ => true
  | None => false
  end.

(** Counting one more [c] in a table of counts: its entry is incremented
    where it stands, or a new entry is added last. *)
Fixpoint bump (c : string) (table : list (string * Z)) : list (string * Z) :=
  match table with
  | [] => [(c, 1)]
  | (k, n) :: r =>
      if String.eqb c k then (k, n + 1) :: r else (k, n) :: bump c r
  end.

Definition tally (l : list string) : list (string * Z) :=
  fold_left (fun table c => bump c table) l [].

(** A table of counts as a plain object, and as the pie chart lists it. *)
Definition as_number (e : string * Z) : string * JS.jsval :=
  (fst e, JS.VNum (JS.of_Z (snd e))).

(** A stored record as the list view returns it. *)
Definition list_view (t : Transaction) : doc :=
  project [f_title; f_description; f_price; f_sold; f_dateOfSale; f_category]
          (add_month (stored t)).

(** The [$match] stage of the list view, on a stored record. *)
Definition list_selects (month : JS.jsnum) (r : JS.regex) (search : string)
           (t : Transaction) : bool :=
  matches (mkMatch (Some month) (Some (searchQuery r search))) (add_month (stored t)).

(** What [$count] leaves of the documents reaching it. *)
Definition counted {A} (l : list A) : list doc :=
  match l with
  | [] => []
  | _ => [mkDoc None None None None None None None (Some (Z.of_nat (length l)))]
  end.

(** [text] contains [needle] as a substring, letter case apart. *)
Definition contains_ci (text needle : string) : Prop :=
  exists before after,
    map JS.lower (JS.chars text)
    = before ++ map JS.lower (JS.chars needle) ++ after.

(** The records the search is meant to select within month [z]: the search
    text occurs in the title or in the description, or it reads as a number
    and the price equals that number. *)
Definition search_selects (z : Z) (search : string) (t : Transaction) : Prop :=
  utc_month (dateOfSale t) = z
  /\ (contains_ci (title t) search
      \/ (exists d, description t = Some d /\ contains_ci d search)
      \/ (exists q, JS.ToNumber search = JS.Num q /\ (price t == q)%Q)).

(** A search text without regular-expression metacharacters. *)
Definition plain_text (search : string) : Prop :=
  forallb (fun c => negb (JS.is_meta c)) (JS.chars search) = true.

(** The same world when the third-party API is about to answer [a]. *)
Definition refetch (w : world) (a : fetch) : world :=
  mkWorld (store w) (faults w) (oplog w) (sent w) a (written w).

(** A stored record carries what the fetched element had: the three
    required fields, the optional ones as they were, [sold] with its
    default. *)
Definition stores_as (r : rawdoc) (t : Transaction) : Prop :=
  raw_title r = Some (title t)
  /\ raw_description r = description t
  /\ raw_price r = Some (price t)
  /\ raw_category r = category t
  /\ raw_dateOfSale r = Some (dateOfSale t)
  /\ sold t = match raw_sold r with Some b => b | None => false end.

Definition seeded (n : nat) : body :=
  Initialized "Database initialized successfully!" (Z.of_nat n).

Definition seed_failed (e : string) : body :=
  Message "Failed to initialize database" (Some e).

(** What can be said of the message of a schema validation error: it
    starts with the model name and 'validation failed'. *)
Definition validation_failure (e : string) : Prop :=
  String.prefix "Transaction validation failed" e = true.

(** The ways a seed fails, with what is known of the error reported and
    the collection it leaves behind: the fetch fails and nothing has been
    touched; or the clear has gone through and the data set fails
    validation, so that nothing is inserted; or the clear has gone through
    and the store fails during the insertion, keeping the documents it had
    written by then. *)
Inductive seed_failure (w : world) : (string -> Prop) -> list Transaction -> Prop :=
| fetch_fails (e : string) :
    api w = FetchFails e ->
    seed_failure w (eq e) (store w)
| insert_invalid (data : list rawdoc) :
    api w = FetchOk data ->
    store_up 1 (faults w) ->
    validate_all data = None ->
    seed_failure w validation_failure []
| insert_refused (data : list rawdoc) (docs : list Transaction)
                 (e : string) (rest : list (option string)) :
    api w = FetchOk data ->
    store_up 1 (faults w) ->
    validate_all data = Some docs ->
    docs <> [] ->
    tl (faults w) = Some e :: rest ->
    seed_failure w (eq e) (firstn (Nat.min (written w) (length docs - 1)) docs).

(** What the combined view answers when a sub-call throws on [null]. *)
Definition combined_failure : response :=
  mkResponse 500 (Message "Failed to fetch combined data" (Some type_error_null)).

(** The endpoints that require [month]. *)
Definition month_endpoints : list (query -> resobj -> M value) :=
  [listTransactions; getStatistics; getBarChart; getPieChart; getCombinedData].

End Spec.

(* ================================================================= *)
(** ** Sample data *)

Module Sample.
Import Model Mongo Express Controller.

(** Noon UTC on 15 March 2024 and on 27 November 2021. *)
Definition march_2024 : Z := 1710504000000.
Definition november_2021 : Z := 1638014400000.

(** The two records of the worked example: one sold at 150 in category
    Electronics, one unsold at 50 without a category, both in March. *)
Definition television : Transaction :=
  mkTransaction "Television" None 150 (Some "Electronics"%string) march_2024 true.
Definition cable : Transaction :=
  mkTransaction "Cable" (Some "USB-C, 2 m"%string) 50 None march_2024 false.

(** A world holding [st], with a store that never fails and a seed source
    that is down. *)
Definition holding (st : list Transaction) : world :=
  mkWorld st [] [] [] (FetchFails "connect ECONNREFUSED") 0.

Definition example_world : world := holding [television; cable].

(** A sold record priced between two buckets. *)
Definition gadget : Transaction :=
  mkTransaction "Gadget" None (201 # 2) (Some "Electronics"%string) march_2024 true.

(** Two sold March records priced 0.1 and 0.2, that is, at the doubles
    nearest to these. *)
Definition sweet : Transaction :=
  mkTransaction "Sweet" None (3602879701896397 # 36028797018963968)
                (Some "Food"%string) march_2024 true.
Definition gum : Transaction :=
  mkTransaction "Gum" None (3602879701896397 # 18014398509481984)
                (Some "Food"%string) march_2024 true.

(** What the third-party API delivers: two well-formed elements. *)
Definition shirt_raw : rawdoc :=
  mkRaw (Some "Shirt"%string) (Some "Slim fit"%string) (Some (3299 # 100))
        (Some "men's clothing"%string) (Some november_2021) None.
Definition ring_raw : rawdoc :=
  mkRaw (Some "Ring"%string) None (Some 695%Q) (Some "jewelery"%string)
        (Some march_2024) (Some true).

(** An element the schema refuses: no price. *)
Definition priceless_raw : rawdoc :=
  mkRaw (Some "Mystery box"%string) None None None (Some march_2024) None.

(** The two elements above as the schema stores them. *)
Definition shirt : Transaction :=
  mkTransaction "Shirt" (Some "Slim fit"%string) (3299 # 100)
                (Some "men's clothing"%string) november_2021 false.
Definition ring : Transaction :=
  mkTransaction "Ring" None 695 (Some "jewelery"%string) march_2024 true.

(** A world holding [st] whose seed source is about to answer [a]. *)
Definition seeding (st : list Transaction) (a : fetch) : world :=
  mkWorld st [] [] [] a 0.

(** A world holding [st] whose seed source answers [data] and whose store
    clears the collection, then fails with [e] while inserting, [n]
    documents having been written. *)
Definition interrupted (st : list Transaction) (data : list rawdoc)
           (e : string) (n : nat) : world :=
  mkWorld st [None; Some e] [] [] (FetchOk data) n.

(** Three March records whose categories are a word, a canonical array
    index and the name of a member of [Object.prototype]. *)
Definition novel : Transaction :=
  mkTransaction "Novel" None 12 (Some "Books"%string) march_2024 true.
Definition ticket : Transaction :=
  mkTransaction "Ticket" None 30 (Some "1"%string) march_2024 false.
Definition brick : Transaction :=
  mkTransaction "Brick" None 5 (Some "constructor"%string) march_2024 true.

(** [GET ...?month=m] *)
Definition for_month (m : string) : query := month_only (Some m).

(** A request without parameters, as [GET /initialize] is. *)
Definition no_params : query := mkQuery None None None None.

End Sample.

(* ================================================================= *)
(** ** The router: [routes/transactionRoutes.js] *)

Module Routes.
Import Express Controller.

Inductive method : Type :=
| GET | HEAD | POST | PUT | PATCH | DELETE | OPTIONS.

(** The routes registered with [router.get], in registration order. *)
Definition routes : list (string * (query -> resobj -> M value)) :=
  [ ("/initialize", initializeDB);
    ("/", listTransactions);
    ("/statistics", getStatistics);
    ("/bar-chart", getBarChart);
    ("/pie-chart", getPieChart);
    ("/combined-data", getCombinedData) ]%string.

(** A route registered with [get] serves GET requests, and HEAD requests as
    well. *)
Definition served (m : method) : bool :=
  match m with
  | GET | HEAD => true
  | _ => false
  end.

Section Dispatch.

(** How Express decides that the path of a route matches the path of a
    request; the router is modelled for any such test. *)
Variable path_matches : string -> string -> bool.

(** The handler of the first registered route that matches. *)
Fixpoint first_match (rs : list (string * (query -> resobj -> M value)))
         (path : string) : option (query -> resobj -> M value) :=
  match rs with
  | [] => None
  | (route, handler) :: rest =>
      if path_matches route path then Some handler else first_match rest path
  end.

(** What the router runs for a request, if it has a route for it. *)
Definition dispatch (m : method) (path : string) (req : query) (res : resobj)
  : option (M value) :=
  if served m
  then option_map (fun handler => handler req res) (first_match routes path)
  else None.

End Dispatch.

End Routes.

(* ================================================================= *)
(** ** Vocabulary of the further statements *)

Module Behaviour.
Import Model Mongo Express Controller.

(** A computation that leaves the collection as it found it. *)
Definition keeps_store {A} (c : M A) : Prop :=
  forall w, store (snd (c w)) = store w.

(** A computation that returns normally after writing exactly one response,
    with one of the three status codes the controller uses. *)
Definition answers_once {A} (c : M A) (w : world) : Prop :=
  exists (a : A) (w' : world) (r : response),
    c w = (Returned a, w')
    /\ sent w' = sent w ++ [r]
    /\ In (status r) [200; 400; 500].

(** A 500 answer of a handler: its own message and the error's. *)
Definition failure (message e : string) : response :=
  mkResponse 500 (Message message (Some e)).

(** A handler call that returns after writing just the response [r], the
    collection being what it was. *)
Definition answers_with (c : M value) (w : world) (r : response) : Prop :=
  exists w', c w = (Returned undefined, w')
             /\ sent w' = sent w ++ [r]
             /\ store w' = store w.

(** The response a computation adds to those already written, if any. *)
Definition reply {A} (c : M A) (w : world) : option response :=
  nth_error (sent (snd (c w))) (length (sent w)).

(** The page of records in a response of the list view. *)
Definition transactions_of (r : option response) : list doc :=
  match r with
  | Some (mkResponse _ (TransactionsPage ts _)) => ts
  | _ => []
  end.

(** The pagination block in a response of the list view. *)
Definition pagination_of (r : option response) : option Pagination :=
  match r with
  | Some (mkResponse _ (TransactionsPage _ p)) => Some p
  | _ => None
  end.

Definition with_page (req : query) (pg : option string) : query :=
  mkQuery (month req) (search req) pg (perPage req).

Definition with_perPage (req : query) (pp : option string) : query :=
  mkQuery (month req) (search req) (page req) pp.

(** An element the schema accepts: a non-empty title, a price and a date of
    sale. *)
Definition well_formed (r : rawdoc) : bool :=
  match raw_title r, raw_price r, raw_dateOfSale r with
  | Some t, Some _, Some _ => JS.truthy_string t
  | _, _, _ => false
  end.

(** A page number that the store cannot turn into a [$skip]: not a number,
    or less than one. *)
Definition bad_page (pg : string) : Prop :=
  JS.parseInt10 pg = JS.NaN \/ exists k, JS.parseInt10 pg = JS.of_Z k /\ k < 1.

(** A page size that the store refuses as a [$limit]: negative. *)
Definition negative_perPage (pp : string) : Prop :=
  exists p, JS.parseInt10 pp = JS.of_Z p /\ p < 0.

(** Path matching by plain equality, the simplest test a router may use. *)
Definition same_path (route path : string) : bool := String.eqb route path.

End Behaviour.

(* ================================================================= *)
(** ** Further sample data *)

Module Sample2.
Import Model Mongo Express Controller Sample.

(** A world holding [st] whose coming store operations fare as [fs]. *)
Definition faring (st : list Transaction) (fs : list (option string)) : world :=
  mkWorld st fs [] [] (FetchFails "connect ECONNREFUSED") 0.

(** The store is down, or goes down after one operation. *)
Definition store_down : world := faring [television; cable] [Some "pool destroyed"%string].
Definition store_drops : world :=
  faring [television; cable] [None; Some "pool destroyed"%string].

(** The page numbers 1, 2 and 3 as they come in a query string. *)
Definition page_number (i : nat) : string :=
  match i with
  | 1%nat => "1"
  | 2%nat => "2"
  | _ => "3"
  end.

(** [GET /?month=3&page=pg&perPage=pp] *)
Definition march_page (pg pp : string) : query :=
  mkQuery (Some "3"%string) None (Some pg) (Some pp).

End Sample2.

Example ToNumber_3 : JS.ToNumber "3" = JS.of_Z 3.
Proof. reflexivity. Qed.
Example ToNumber_padded : JS.ToNumber " 07 " = JS.of_Z 7.
Proof. reflexivity. Qed.
Example ToNumber_neg : JS.ToNumber "-3" = JS.of_Z (-3).
Proof. reflexivity. Qed.
Example ToNumber_frac : JS.ToNumber "100.5" = JS.Num (201 # 2).
Proof. reflexivity. Qed.
Example ToNumber_exp : JS.ToNumber "1.5e2" = JS.of_Z 150.
Proof. reflexivity. Qed.
Example ToNumber_hex : JS.ToNumber "0x1f" = JS.of_Z 31.
Proof. reflexivity. Qed.
Example ToNumber_empty : JS.ToNumber "" = JS.of_Z 0.
Proof. reflexivity. Qed.
Example ToNumber_abc : JS.ToNumber "abc" = JS.NaN.
Proof. reflexivity. Qed.
Example ToNumber_dot : JS.ToNumber "." = JS.NaN.
Proof. reflexivity. Qed.
Example ToNumber_trailing : JS.ToNumber "12px" = JS.NaN.
Proof. reflexivity. Qed.
Example ToNumber_inf : JS.ToNumber "-Infinity" = JS.Infinity true.
Proof. reflexivity. Qed.
Example parseInt_px : JS.parseInt10 "12px" = JS.of_Z 12.
Proof. reflexivity. Qed.
Example parseInt_abc : JS.parseInt10 "abc" = JS.NaN.
Proof. reflexivity. Qed.
Example parseInt_neg : JS.parseInt10 " -5" = JS.of_Z (-5).
Proof. reflexivity. Qed.

(** Literals that are not doubles read as the nearest double. *)
Example ToNumber_above_12 : JS.ToNumber "12.0000000000000001" = JS.of_Z 12.
Proof. vm_compute. reflexivity. Qed.
Example ToNumber_below_3 : JS.ToNumber "2.99999999999999999999" = JS.of_Z 3.
Proof. vm_compute. reflexivity. Qed.
Example ToNumber_tenth :
  JS.ToNumber "0.1" = JS.Num (3602879701896397 # 36028797018963968).
Proof. vm_compute. reflexivity. Qed.
Example ToNumber_underflow : JS.ToNumber "1e-400" = JS.of_Z 0.
Proof. vm_compute. reflexivity. Qed.
Example ToNumber_smallest : JS.ToNumber "5e-324" = JS.Num (1 # 2 ^ 1074).
Proof. vm_compute. reflexivity. Qed.
Example ToNumber_overflow : JS.ToNumber "1e400" = JS.Infinity false.
Proof. vm_compute. reflexivity. Qed.
Example ToNumber_largest :
  JS.ToNumber "1.7976931348623157e308" = JS.of_Z ((2 ^ 53 - 1) * 2 ^ 971).
Proof. vm_compute. reflexivity. Qed.
Example ToNumber_tie_to_even :
  JS.ToNumber "9007199254740993" = JS.of_Z 9007199254740992.
Proof. vm_compute. reflexivity. Qed.
Example parseInt_rounds :
  JS.parseInt10 "9007199254740995" = JS.of_Z 9007199254740996.
Proof. vm_compute. reflexivity. Qed.
Example parseInt_overflow :
  JS.parseInt10 (String.concat "" (repeat "9999999999"%string 31))
  = JS.Infinity false.
Proof. vm_compute. reflexivity. Qed.
Example add64_tenths :
  JS.add64 (JS.ToNumber "0.1") (JS.ToNumber "0.2")
  = JS.Num (1351079888211149 # 4503599627370496).
Proof. vm_compute. reflexivity. Qed.

Example month_above_12_is_12 :
  Controller.invalid_month (Some "12.0000000000000001"%string) = false.
Proof. vm_compute. reflexivity. Qed.
Example month_underflow_is_0 :
  Controller.invalid_month (Some "1e-400"%string) = true.
Proof. vm_compute. reflexivity. Qed.

Example validation_message_price :
  Model.validation_message Sample.priceless_raw
  = "Transaction validation failed: price: Path `price` is required."%string.
Proof. reflexivity. Qed.
Example insertMany_nothing :
  Express.insertMany [] (Sample.holding [Sample.cable])
  = (Express.Returned [], Sample.holding [Sample.cable]).
Proof. reflexivity. Qed.

Example array_index_7 : JS.array_index "7" = Some 7.
Proof. reflexivity. Qed.
Example array_index_07 : JS.array_index "07" = None.
Proof. reflexivity. Qed.
Example array_index_max : JS.array_index "4294967295" = None.
Proof. reflexivity. Qed.
Example entries_order :
  JS.Object_entries
    (JS.set (JS.set (JS.set [] "b" (JS.VNum (JS.of_Z 1))) "10" (JS.VNum (JS.of_Z 1)))
            "2" (JS.VNum (JS.of_Z 1)))
  = [("2", JS.VNum (JS.of_Z 1)); ("10", JS.VNum (JS.of_Z 1)); ("b", JS.VNum (JS.of_Z 1))]%string.
Proof. reflexivity. Qed.
Example regex_literal :
  option_map (fun r => JS.test r "Mens Cotton Jacket") (JS.RegExp_i "cotton") = Some true.
Proof. reflexivity. Qed.
Example regex_dot :
  option_map (fun r => JS.test r "abc") (JS.RegExp_i ".") = Some true.
Proof. reflexivity. Qed.
Example regex_paren : JS.RegExp_i "(" = None.
Proof. reflexivity. Qed.

Example utc_month_march : Model.utc_month 1710504000000 = 3.
Proof. reflexivity. Qed.
Example utc_month_november : Model.utc_month 1638014400000 = 11.
Proof. reflexivity. Qed.
Example utc_month_leap_day : Model.utc_month 951825600000 = 2.
Proof. reflexivity. Qed.
Example utc_month_before_epoch : Model.utc_month (-43200000) = 12.
Proof. reflexivity. Qed.
Example utc_month_january : Model.utc_month 1704110400000 = 1.
Proof. reflexivity. Qed.

(* ================================================================= *)
(** ** Numbers *)

Module NumFacts.

Lemma Qred_inject_Z (z : Z) : Qred (inject_Z z) = inject_Z z.
Proof. apply Qcanon.Qred_identity. simpl. apply Z.gcd_1_r. Qed.

Lemma of_Z_inj (a b : Z) : JS.of_Z a = JS.of_Z b -> a = b.
Proof. unfold JS.of_Z, inject_Z. congruence. Qed.

Lemma le_of_Z (a b : Z) : JS.le (JS.of_Z a) (JS.of_Z b) = (a <=? b).
Proof.
  unfold JS.le, JS.of_Z, Qle_bool. simpl. now rewrite !Z.mul_1_r.
Qed.

Lemma gt_of_Z (a b : Z) : JS.gt (JS.of_Z a) (JS.of_Z b) = (b <? a).
Proof.
  unfold JS.gt, JS.of_Z, Qle_bool. simpl. rewrite !Z.mul_1_r.
  now rewrite Z.ltb_antisym.
Qed.

Lemma eqb_of_Z (a b : Z) : JS.eqb (JS.of_Z a) (JS.of_Z b) = (a =? b).
Proof.
  unfold JS.eqb, JS.of_Z, Qeq_bool. simpl. now rewrite !Z.mul_1_r.
Qed.

Lemma add_of_Z (a b : Z) : JS.add (JS.of_Z a) (JS.of_Z b) = JS.of_Z (a + b).
Proof.
  unfold JS.add, JS.of_Z, JS.num. f_equal.
  rewrite <- (Qred_inject_Z (a + b)). apply Qred_complete.
  now rewrite inject_Z_plus.
Qed.

Lemma sub_of_Z (a b : Z) : JS.sub (JS.of_Z a) (JS.of_Z b) = JS.of_Z (a - b).
Proof.
  unfold JS.sub, JS.neg, JS.of_Z, JS.add, JS.num. f_equal.
  rewrite <- (Qred_inject_Z (a - b)). apply Qred_complete.
  rewrite Qred_correct. unfold Z.sub.
  now rewrite inject_Z_plus, inject_Z_opp.
Qed.

Lemma mul_of_Z (a b : Z) : JS.mul (JS.of_Z a) (JS.of_Z b) = JS.of_Z (a * b).
Proof.
  unfold JS.mul, JS.of_Z, JS.num. f_equal.
  rewrite <- (Qred_inject_Z (a * b)). apply Qred_complete.
  now rewrite inject_Z_mult.
Qed.

Lemma integral_of_Z (z : Z) : Mongo.integral (JS.of_Z z) = Some z.
Proof.
  unfold Mongo.integral, JS.of_Z. rewrite Qfloor_Z.
  now rewrite (proj2 (Qeq_bool_iff _ _) (Qeq_refl _)).
Qed.

Lemma truthy_of_Z (z : Z) : JS.truthy (JS.of_Z z) = negb (z =? 0).
Proof. reflexivity. Qed.

Lemma round64_Qeq (p q : Q) : p == q -> JS.round64 p = JS.round64 q.
Proof. intros H. unfold JS.round64. now rewrite (Qred_complete p q H). Qed.

Lemma nearest_even_1 (a : Z) : JS.nearest_even a 1 = a.
Proof.
  unfold JS.nearest_even. rewrite Z.mod_1_r, Z.div_1_r. reflexivity.
Qed.

Lemma times_pow2_scaled (z k : Z) :
  0 < k -> JS.times_pow2 (z * 2 ^ k) (- k) = inject_Z z.
Proof.
  intros Hk. unfold JS.times_pow2.
  destruct (Z.ltb_spec (- k) 0) as [_ | ?]; [| lia].
  rewrite Z.opp_involutive.
  assert (Hp : 0 < 2 ^ k) by (apply Z.pow_pos_nonneg; lia).
  rewrite <- Qred_inject_Z. apply Qred_complete.
  unfold Qeq, inject_Z. cbn [Qnum Qden].
  rewrite Z2Pos.id by assumption. lia.
Qed.

(** The whole numbers up to [2^53] are doubles: rounding leaves them as
    they are. *)
Lemma round64_of_Z (z : Z) :
  0 <= z <= 2 ^ 53 -> JS.round64 (inject_Z z) = JS.of_Z z.
Proof.
  intros Hz. unfold JS.round64. rewrite Qred_inject_Z. cbn [Qnum Qden inject_Z].
  destruct z as [| n | n]; [reflexivity | | lia].
  unfold JS.round64_pos, JS.floor_log2.
  pose proof (Z.log2_nonneg (Z.pos n)) as HL0.
  assert (HL : Z.log2 (Z.pos n) <= 53).
  { rewrite <- (Z.log2_pow2 53) by lia. apply Z.log2_le_mono. lia. }
  destruct (Z.log2_spec (Z.pos n)) as [Hlo Hhi]; [lia |].
  change (Z.log2 1) with 0. rewrite Z.sub_0_r.
  set (L := Z.log2 (Z.pos n)) in *.
  destruct (Z.ltb_spec L 0) as [? | _]; [lia |].
  rewrite Z.mul_1_l.
  destruct (Z.leb_spec (2 ^ L) (Z.pos n)) as [_ | ?]; [| lia].
  rewrite Z.max_l by lia.
  destruct (Z.ltb_spec 971 (L - 52)) as [? | _]; [lia |].
  destruct (Z.eqb_spec (L - 52) 971) as [? | _]; [lia |]. cbn [andb].
  destruct (Z.ltb_spec (L - 52) 0) as [Hneg | Hpos].
  - rewrite nearest_even_1.
    replace (L - 52) with (- (52 - L)) at 2 by lia.
    replace (- (L - 52)) with (52 - L) by lia.
    rewrite times_pow2_scaled by lia. reflexivity.
  - assert (HLc : L = 52 \/ L = 53) by lia.
    destruct HLc as [E | E]; rewrite E in *.
    + change (52 - 52) with 0. change (2 ^ 0) with 1.
      rewrite Z.mul_1_l, nearest_even_1. unfold JS.times_pow2. cbn [Z.ltb Z.compare].
      change (2 ^ 0) with 1. now rewrite Z.mul_1_r.
    + assert (En : Z.pos n = 2 ^ 53) by lia.
      rewrite En. vm_compute. reflexivity.
Qed.

(** Adding a whole price to a whole running total is exact as long as the
    result stays within [2^53]. *)
Lemma add64_whole (a z : Z) (p : Q) :
  (p == inject_Z z)%Q -> 0 <= a + z <= 2 ^ 53 ->
  JS.add64 (JS.of_Z a) (JS.Num p) = JS.of_Z (a + z).
Proof.
  intros Hp Hb. unfold JS.of_Z at 1. cbn [JS.add64].
  rewrite (round64_Qeq _ (inject_Z (a + z))).
  - now apply round64_of_Z.
  - rewrite Hp, inject_Z_plus. reflexivity.
Qed.

End NumFacts.

(* ================================================================= *)
(** ** Running handlers *)

Module RunFacts.
Import Model Mongo Express Controller Spec.

Lemma send_express (w : world) (code : Z) (b : body) :
  send express_res code b w = (Returned the_res, replied w code b).
Proof. reflexivity. Qed.

Lemma send_null (w : world) (code : Z) (b : body) :
  send null code b w = (Thrown type_error_null, w).
Proof. reflexivity. Qed.

(** An operation that the store lets through is logged and takes effect. *)
Lemma issue_up {A} (op : db_op)
      (effect : list Transaction -> outcome A * list Transaction) (w : world) :
  store_up 1 (faults w) ->
  issue op effect w =
  (fst (effect (store w)),
   mkWorld (snd (effect (store w))) (tl (faults w)) (oplog w ++ [op]) (sent w) (api w)
           (written w)).
Proof.
  unfold issue, issue_torn. simpl. destruct (faults w) as [| [e |] rest]; simpl.
  - intros _. now destruct (effect (store w)).
  - intros [].
  - intros _. now destruct (effect (store w)).
Qed.

Lemma aggregate_up (p : pipeline) (w : world) (ds : list doc) :
  store_up 1 (faults w) ->
  run p (map stored (store w)) = inr ds ->
  aggregate p w = (Returned ds, logged w (aggregate_op p)).
Proof.
  intros Hup Hrun. unfold aggregate. rewrite issue_up by exact Hup.
  now rewrite Hrun.
Qed.

(** Whatever the store does, an aggregation is issued, leaves the
    collection as it was and never ends outside the model. *)
Lemma aggregate_cases (p : pipeline) (w : world) :
  exists w', (store w' = store w /\ sent w' = sent w
              /\ oplog w' = oplog w ++ [aggregate_op p]) /\
             ((exists ds, aggregate p w = (Returned ds, w')) \/
              (exists e, aggregate p w = (Thrown e, w'))).
Proof.
  unfold aggregate, issue, issue_torn.
  destruct (faults w) as [| [e |] rest];
    destruct (run p (map stored (store w))) as [e' | ds];
    eexists; (split; [split; [| split] |]);
    try (left; eexists; reflexivity); try (right; eexists; reflexivity);
    reflexivity.
Qed.

Lemma denotes_month_truthy (m : string) (z : Z) :
  denotes_month m z -> JS.truthy_string m = true.
Proof.
  intros [H Hz]. destruct m; [| reflexivity].
  apply NumFacts.of_Z_inj in H. lia.
Qed.

Lemma denotes_month_valid (m : string) (z : Z) :
  denotes_month m z -> invalid_month (Some m) = false.
Proof.
  intros H. unfold invalid_month.
  rewrite (denotes_month_truthy m z H). destruct H as [-> Hz].
  rewrite NumFacts.le_of_Z, NumFacts.gt_of_Z. simpl.
  apply orb_false_iff; split; [apply Z.leb_gt | apply Z.ltb_ge]; lia.
Qed.


End RunFacts.

(* ================================================================= *)
(** ** Month validation *)

Module Validation.
Import Model Mongo Express Controller Spec RunFacts.

Ltac reject H :=
  unfold try_catch; cbn [month month_only]; rewrite H; reflexivity.

Lemma listTransactions_rejects (req : query) (w : world) :
  invalid_month (month req) = true ->
  listTransactions req express_res w
  = (Returned the_res, replied w 400 valid_month_required).
Proof. intros H. unfold listTransactions. reject H. Qed.

Lemma getStatistics_rejects (req : query) (w : world) :
  invalid_month (month req) = true ->
  getStatistics req express_res w
  = (Returned the_res, replied w 400 valid_month_required).
Proof. intros H. unfold getStatistics. reject H. Qed.

Lemma getBarChart_rejects (req : query) (w : world) :
  invalid_month (month req) = true ->
  getBarChart req express_res w
  = (Returned the_res, replied w 400 valid_month_required).
Proof. intros H. unfold getBarChart. reject H. Qed.

Lemma getPieChart_rejects (req : query) (w : world) :
  invalid_month (month req) = true ->
  getPieChart req express_res w
  = (Returned the_res, replied w 400 valid_month_required).
Proof. intros H. unfold getPieChart. reject H. Qed.

Lemma getCombinedData_rejects (req : query) (w : world) :
  invalid_month (month req) = true ->
  getCombinedData req express_res w
  = (Returned the_res, replied w 400 valid_month_required).
Proof. intros H. unfold getCombinedData. reject H. Qed.


End Validation.

Module ValidationWitness.
Import Model Mongo Express Controller Spec Sample.


End ValidationWitness.

(* ================================================================= *)
(** ** The combined view *)

Module Combined.
Import Model Mongo Express Controller Spec RunFacts.

Ltac run_view_with_null H p w :=
  unfold try_catch, bind; cbn [month month_only]; rewrite H;
  destruct (aggregate_cases p w) as (w' & (Hst & Hsent & Hlog) & [[ds E] | [e E]]);
  exists w'; rewrite E; cbn; auto.

(** Called with [null] for [res], a view handler runs its query but cannot
    answer: writing the result throws, the [catch] block throws again on
    the same [null], and the call ends with that exception. *)
Lemma getStatistics_null (m : option string) (w : world) :
  invalid_month m = false ->
  exists w', getStatistics (month_only m) null w = (Thrown type_error_null, w')
             /\ store w' = store w /\ sent w' = sent w
             /\ oplog w' = oplog w ++ [aggregate_op (monthPipeline m [f_price; f_sold])].
Proof.
  intros H. unfold getStatistics.
  run_view_with_null H (monthPipeline m [f_price; f_sold]) w.
Qed.

Lemma getBarChart_null (m : option string) (w : world) :
  invalid_month m = false ->
  exists w', getBarChart (month_only m) null w = (Thrown type_error_null, w')
             /\ store w' = store w /\ sent w' = sent w
             /\ oplog w' = oplog w ++ [aggregate_op (monthPipeline m [f_price; f_sold])].
Proof.
  intros H. unfold getBarChart.
  run_view_with_null H (monthPipeline m [f_price; f_sold]) w.
Qed.

Lemma getPieChart_null (m : option string) (w : world) :
  invalid_month m = false ->
  exists w', getPieChart (month_only m) null w = (Thrown type_error_null, w')
             /\ store w' = store w /\ sent w' = sent w
             /\ oplog w' = oplog w ++ [aggregate_op (monthPipeline m [f_category])].
Proof.
  intros H. unfold getPieChart.
  run_view_with_null H (monthPipeline m [f_category]) w.
Qed.

(** Once the month has passed validation, the combined view runs the three
    queries and always answers 500: its three sub-calls are made with
    [null] for [res]. *)
Lemma getCombinedData_fails (m : option string) (w : world) :
  invalid_month m = false ->
  exists w', getCombinedData (month_only m) express_res w = (Returned undefined, w')
             /\ sent w' = sent w ++ [combined_failure]
             /\ store w' = store w
             /\ oplog w' = oplog w ++ map aggregate_op
                                          [ monthPipeline m [f_price; f_sold];
                                            monthPipeline m [f_price; f_sold];
                                            monthPipeline m [f_category] ].
Proof.
  intros H. unfold getCombinedData, try_catch at 1.
  cbn [month month_only]. rewrite H. unfold bind at 1, Promise_all3.
  destruct (getStatistics_null m w H) as (w1 & E1 & S1 & T1 & L1). rewrite E1.
  destruct (getBarChart_null m w1 H) as (w2 & E2 & S2 & T2 & L2). rewrite E2.
  destruct (getPieChart_null m w2 H) as (w3 & E3 & S3 & T3 & L3). rewrite E3.
  eexists. split; [reflexivity |]. cbn. unfold combined_failure.
  rewrite T3, T2, T1, S3, S2, S1, L3, L2, L1, <- !app_assoc.
  repeat split; reflexivity.
Qed.

(** C1, as the code behaves.  For every valid month (1 to 12), whatever the
    store holds and however it fares, [getCombinedData] answers status 500
    with [{ message: 'Failed to fetch combined data', error: "Cannot read
    properties of null (reading 'status')" }]: it never returns the object
    keyed [statistics], [barChart], [pieChart], because each of the three
    view handlers is called with [null] as its response object. *)
Theorem getCombinedData_valid_month_answers_500 (m : string) (z : Z) (w : world) :
  denotes_month m z ->
  exists w', getCombinedData (month_only (Some m)) express_res w
             = (Returned undefined, w')
             /\ sent w' = sent w ++ [combined_failure]
             /\ store w' = store w.
Proof.
  intros H.
  destruct (getCombinedData_fails (Some m) w (denotes_month_valid m z H))
    as (w' & E & Hsent & Hstore & _).
  now exists w'.
Qed.

End Combined.

(* ================================================================= *)
(** ** The month pipeline *)

Module MonthPipeline.
Import Model Mongo Express Controller Spec RunFacts.

(** The pipeline of the three views selects the records whose computed
    month equals [+month], in store order. *)
Lemma monthPipeline_run (mo : option string) (fields : list field)
      (st : list Transaction) :
  run (monthPipeline mo fields) (map stored st)
  = inr (map (month_view fields)
             (filter (fun t => JS.eqb (JS.of_Z (utc_month (dateOfSale t))) (plus mo)) st)).
Proof.
  unfold monthPipeline. cbn [run run_stage match_or]. f_equal.
  rewrite map_map, filter_map_swap, map_map. f_equal.
  apply filter_ext. intros t. unfold matches. cbn. now rewrite andb_true_r.
Qed.

Lemma monthPipeline_denoted (m : string) (z : Z) (fields : list field)
      (st : list Transaction) :
  denotes_month m z ->
  run (monthPipeline (Some m) fields) (map stored st)
  = inr (map (month_view fields) (of_month z st)).
Proof.
  intros [Hm _]. rewrite monthPipeline_run. do 2 f_equal.
  apply filter_ext. intros t. cbn [plus]. rewrite Hm.
  apply NumFacts.eqb_of_Z.
Qed.

(** A month that is not a number selects nothing. *)
Lemma monthPipeline_nan (m : string) (fields : list field) (st : list Transaction) :
  JS.ToNumber m = JS.NaN ->
  run (monthPipeline (Some m) fields) (map stored st) = inr [].
Proof.
  intros Hm. rewrite monthPipeline_run. cbn [plus]. rewrite Hm.
  replace (filter _ st) with (@nil Transaction); [reflexivity |].
  induction st as [| t st IH]; [reflexivity | exact IH].
Qed.

Ltac answer H Hrun Hup :=
  unfold try_catch, bind; cbn [month month_only]; rewrite H;
  rewrite (aggregate_up _ _ _ Hup Hrun); reflexivity.

Lemma getStatistics_answers (m : option string) (w : world) (ds : list doc) :
  invalid_month m = false ->
  store_up 1 (faults w) ->
  run (monthPipeline m [f_price; f_sold]) (map stored (store w)) = inr ds ->
  getStatistics (month_only m) express_res w
  = (Returned undefined,
     replied (logged w (aggregate_op (monthPipeline m [f_price; f_sold]))) 200
             (Statistics (totalSaleAmount ds) (totalSoldItems ds) (totalUnsoldItems ds))).
Proof. intros H Hup Hrun. unfold getStatistics. answer H Hrun Hup. Qed.

Lemma getBarChart_answers (m : option string) (w : world) (ds : list doc) :
  invalid_month m = false ->
  store_up 1 (faults w) ->
  run (monthPipeline m [f_price; f_sold]) (map stored (store w)) = inr ds ->
  getBarChart (month_only m) express_res w
  = (Returned undefined,
     replied (logged w (aggregate_op (monthPipeline m [f_price; f_sold]))) 200
             (RangeCounts (rangeCounts ds))).
Proof. intros H Hup Hrun. unfold getBarChart. answer H Hrun Hup. Qed.

Lemma getPieChart_answers (m : option string) (w : world) (ds : list doc) :
  invalid_month m = false ->
  store_up 1 (faults w) ->
  run (monthPipeline m [f_category]) (map stored (store w)) = inr ds ->
  getPieChart (month_only m) express_res w
  = (Returned undefined,
     replied (logged w (aggregate_op (monthPipeline m [f_category]))) 200
             (CategoryCounts (result ds))).
Proof. intros H Hup Hrun. unfold getPieChart. answer H Hrun Hup. Qed.

End MonthPipeline.

(* ================================================================= *)
(** ** Statistics *)

Module StatisticsFacts.
Import Model Mongo Express Controller Spec RunFacts MonthPipeline.

Lemma sold_view (l : list Transaction) :
  filter item_sold (map (month_view [f_price; f_sold]) l)
  = map (month_view [f_price; f_sold]) (filter sold l).
Proof. rewrite filter_map_swap. f_equal. Qed.

Lemma fold_prices (l : list Transaction) (a : JS.jsnum) :
  fold_left (fun sum item => JS.add64 sum (item_price item))
            (map (month_view [f_price; f_sold]) l) a
  = fold_left (fun sum t => JS.add64 sum (JS.Num (price t))) l a.
Proof.
  revert a. induction l as [| t l IH]; intros a; [reflexivity |].
  cbn [map fold_left]. rewrite IH. reflexivity.
Qed.

Lemma sum_prices_whole (l : list Transaction) :
  Forall whole_price l -> (0 <= sum_prices l)%Q.
Proof.
  induction 1 as [| t l (z & Hz & Hp) _ IH]; [apply Qle_refl |].
  cbn [sum_prices fold_right]. fold (sum_prices l). rewrite Hp.
  assert (H0 : (0 <= inject_Z z)%Q) by (unfold Qle; simpl; lia).
  lra.
Qed.

(** Whole prices add up without rounding while the sum stays within
    [2^53]. *)
Lemma fold_whole (l : list Transaction) (a : Z) :
  Forall whole_price l -> 0 <= a ->
  (inject_Z a + sum_prices l <= inject_Z (2 ^ 53))%Q ->
  exists b,
    fold_left (fun sum t => JS.add64 sum (JS.Num (price t))) l (JS.of_Z a)
    = JS.of_Z b
    /\ (inject_Z b == inject_Z a + sum_prices l)%Q.
Proof.
  intros Hw. revert a. induction Hw as [| t l (z & Hz & Hp) Hl IH]; intros a Ha Hb.
  - exists a. split; [reflexivity |]. simpl. ring.
  - cbn [sum_prices fold_right] in Hb. fold (sum_prices l) in Hb.
    pose proof (sum_prices_whole l Hl) as Hs.
    assert (Haz : (inject_Z (a + z) <= inject_Z (2 ^ 53))%Q).
    { rewrite inject_Z_plus, <- Hp. lra. }
    rewrite <- Zle_Qle in Haz.
    cbn [fold_left]. rewrite (NumFacts.add64_whole a z (price t) Hp) by lia.
    destruct (IH (a + z)) as (b & Hb' & Hsum); [lia | |].
    + rewrite inject_Z_plus, <- Hp. lra.
    + exists b. split; [exact Hb' |].
      rewrite Hsum, inject_Z_plus.
      cbn [sum_prices fold_right]. fold (sum_prices l). lra.
Qed.

(** C6.  For a month in 1..12 and any store that answers, [getStatistics]
    replies 200 with [totalSaleAmount] the prices of the sold records of
    that month added up in store order, from 0, in double arithmetic,
    [totalSoldItems] the number of those sold records, and
    [totalUnsoldItems] such that sold plus unsold is the number of all
    records of that month.  When those prices are whole non-negative
    numbers whose sum is at most [2^53], no addition rounds and
    [totalSaleAmount] is their sum. *)
Theorem getStatistics_totals_in_doubles (m : string) (z : Z) (w : world) :
  denotes_month m z ->
  store_up 1 (faults w) ->
  let matching := of_month z (store w) in
  let sold_ones := filter sold matching in
  exists unsold,
    getStatistics (month_only (Some m)) express_res w
    = (Returned undefined,
       replied (logged w (aggregate_op (monthPipeline (Some m) [f_price; f_sold]))) 200
               (Statistics (sum64 sold_ones) (Z.of_nat (length sold_ones)) unsold))
    /\ Z.of_nat (length sold_ones) + unsold = Z.of_nat (length matching)
    /\ (Forall whole_price sold_ones ->
        (sum_prices sold_ones <= inject_Z (2 ^ 53))%Q ->
        exists amount,
          sum64 sold_ones = JS.Num amount /\ (amount == sum_prices sold_ones)%Q).
Proof.
  intros Hm Hup matching sold_ones.
  pose proof (getStatistics_answers (Some m) w _ (denotes_month_valid m z Hm) Hup
                (monthPipeline_denoted m z _ (store w) Hm)) as Hrun.
  fold matching in Hrun.
  exists (Z.of_nat (length matching) - Z.of_nat (length sold_ones)).
  split; [| split].
  - rewrite Hrun. do 3 f_equal.
    + unfold totalSaleAmount, sum64. rewrite sold_view. apply fold_prices.
    + unfold totalSoldItems. rewrite sold_view. now rewrite length_map.
    + unfold totalUnsoldItems, totalSoldItems. rewrite sold_view.
      now rewrite !length_map.
  - lia.
  - intros Hw Hb.
    destruct (fold_whole sold_ones 0 Hw) as (b & Hfold & Hsum); [lia | |].
    + change (inject_Z 0) with 0%Q. lra.
    + exists (inject_Z b). split; [exact Hfold |].
      rewrite Hsum. change (inject_Z 0) with 0%Q. ring.
Qed.

End StatisticsFacts.

(* ================================================================= *)
(** ** The bar chart *)

Module BarChartFacts.
Import Model Mongo Express Controller Spec RunFacts MonthPipeline.

Section Counting.
Context {A : Type}.

Lemma filter_andb (f g : A -> bool) (l : list A) :
  filter (fun x => f x && g x) l = filter f (filter g l).
Proof.
  induction l as [| x l IH]; [reflexivity |].
  cbn [filter]. destruct (g x); cbn [filter].
  - rewrite andb_true_r. destruct (f x); now rewrite IH.
  - now rewrite andb_false_r.
Qed.

(** Two predicates that never hold together split what either selects. *)
Lemma count_orb (f g : A -> bool) (l : list A) :
  (forall x, f x = true -> g x = false) ->
  length (filter (fun x => f x || g x) l)
  = (length (filter f l) + length (filter g l))%nat.
Proof.
  intros Hfg. induction l as [| x l IH]; [reflexivity |].
  cbn [filter]. destruct (f x) eqn:Ef.
  - rewrite (Hfg x Ef). cbn. now rewrite IH.
  - destruct (g x); cbn; rewrite IH; lia.
Qed.

(** Over pairwise exclusive predicates, the counts add up to the number
    of elements that satisfy one of them. *)
Lemma counts_of_exclusive (ps : list (A -> bool)) (l : list A) :
  ForallOrdPairs (fun p q => forall x, p x = true -> q x = false) ps ->
  total (map (fun p => Z.of_nat (length (filter p l))) ps)
  = Z.of_nat (length (filter (fun x => existsb (fun p => p x) ps) l)).
Proof.
  induction 1 as [| p ps Hp Hps IH]; cbn [map total fold_right existsb].
  - induction l; [reflexivity | assumption].
  - fold (total (map (fun p => Z.of_nat (length (filter p l))) ps)).
    rewrite IH, count_orb; [lia |].
    intros x Hx. apply not_true_is_false. intros Hex.
    apply existsb_exists in Hex. destruct Hex as (q & Hq & Hqx).
    rewrite Forall_forall in Hp. specialize (Hp q Hq x Hx). congruence.
Qed.
End Counting.

(** A bucket that ends below where another starts shares no price with it. *)
Lemma apart (lo1 hi1 lo2 : Z) (hi2 : option Z) (p : Q) :
  hi1 < lo2 ->
  in_bucket (lo1, Some hi1) p = true -> in_bucket (lo2, hi2) p = false.
Proof.
  intros Hlt. unfold in_bucket. cbn [fst snd].
  rewrite andb_true_iff, !Qle_bool_iff. intros [_ Hhi].
  apply andb_false_iff. left. apply not_true_is_false.
  rewrite Qle_bool_iff. intros Hlo.
  assert (H : (inject_Z lo2 <= inject_Z hi1)%Q) by (eapply Qle_trans; eassumption).
  rewrite <- Zle_Qle in H. lia.
Qed.

Lemma buckets_apart :
  ForallOrdPairs (fun b1 b2 => forall p, in_bucket b1 p = true -> in_bucket b2 p = false)
                 buckets.
Proof.
  unfold buckets.
  repeat (constructor; [repeat (constructor; [intros p; apply apart; lia |]);
                        constructor |]).
  constructor.
Qed.

Lemma ForallOrdPairs_map {A B} (R : B -> B -> Prop) (f : A -> B) (l : list A) :
  ForallOrdPairs (fun a b => R (f a) (f b)) l -> ForallOrdPairs R (map f l).
Proof.
  induction 1 as [| a l Ha Hl IH]; cbn [map]; constructor; [| assumption].
  rewrite Forall_forall in *. intros b Hb.
  apply in_map_iff in Hb. destruct Hb as (b' & <- & Hb'). now apply Ha.
Qed.

Lemma ForallOrdPairs_weaken {A} (R S : A -> A -> Prop) (l : list A) :
  ForallOrdPairs R l -> (forall a b, R a b -> S a b) -> ForallOrdPairs S l.
Proof.
  intros H HRS. induction H as [| a l Ha Hl IH]; constructor; [| assumption].
  eapply Forall_impl; [| exact Ha]. intros b. apply HRS.
Qed.

(** The ten buckets are mutually exclusive. *)
Lemma buckets_exclusive (p : Q) (b1 b2 : Z * option Z) :
  In b1 buckets -> In b2 buckets ->
  in_bucket b1 p = true -> in_bucket b2 p = true -> b1 = b2.
Proof.
  assert (Hgen : forall l, ForallOrdPairs
            (fun b1 b2 => forall p, in_bucket b1 p = true -> in_bucket b2 p = false) l ->
          In b1 l -> In b2 l ->
          in_bucket b1 p = true -> in_bucket b2 p = true -> b1 = b2).
  { induction 1 as [| b l Hb Hl IH]; [intros [] |].
    rewrite Forall_forall in Hb.
    intros [<- | H1] [<- | H2] T1 T2; try reflexivity.
    - specialize (Hb b2 H2 p T1). congruence.
    - specialize (Hb b1 H1 p T2). congruence.
    - now apply IH. }
  apply Hgen, buckets_apart.
Qed.

Lemma in_bucket_integer (lo hi n : Z) :
  in_bucket (lo, Some hi) (inject_Z n) = (lo <=? n) && (n <=? hi).
Proof.
  unfold in_bucket, Qle_bool. cbn. now rewrite !Z.mul_1_r.
Qed.

(** Every non-negative integer price lies in a bucket. *)
Lemma buckets_cover_integers (n : Z) : 0 <= n -> covered (inject_Z n) = true.
Proof.
  intros Hn. unfold covered. apply existsb_exists.
  assert (Hin : forall lo hi, 0 <= lo <= n -> n <= hi ->
                              in_bucket (lo, Some hi) (inject_Z n) = true).
  { intros lo hi Hlo Hhi. rewrite in_bucket_integer.
    apply andb_true_iff; split; apply Z.leb_le; lia. }
  assert (Hcase : n <= 100 \/ 101 <= n <= 200 \/ 201 <= n <= 300 \/ 301 <= n <= 400
                  \/ 401 <= n <= 500 \/ 501 <= n <= 600 \/ 601 <= n <= 700
                  \/ 701 <= n <= 800 \/ 801 <= n <= 900 \/ 901 <= n) by lia.
  destruct Hcase as [H | [H | [H | [H | [H | [H | [H | [H | [H | H]]]]]]]]].
  - exists (0, Some 100). split; [simpl; tauto | apply Hin; lia].
  - exists (101, Some 200). split; [simpl; tauto | apply Hin; lia].
  - exists (201, Some 300). split; [simpl; tauto | apply Hin; lia].
  - exists (301, Some 400). split; [simpl; tauto | apply Hin; lia].
  - exists (401, Some 500). split; [simpl; tauto | apply Hin; lia].
  - exists (501, Some 600). split; [simpl; tauto | apply Hin; lia].
  - exists (601, Some 700). split; [simpl; tauto | apply Hin; lia].
  - exists (701, Some 800). split; [simpl; tauto | apply Hin; lia].
  - exists (801, Some 900). split; [simpl; tauto | apply Hin; lia].
  - exists (901, None). split; [simpl; tauto |].
    unfold in_bucket, Qle_bool. cbn. rewrite Z.mul_1_r, andb_true_r.
    apply Z.leb_le. lia.
Qed.

Lemma in_bucket_proper (b : Z * option Z) (p q : Q) :
  (p == q)%Q -> in_bucket b p = in_bucket b q.
Proof.
  intros E. unfold in_bucket. destruct b as [lo hi]. cbn [fst snd].
  assert (H1 : forall a, Qle_bool a p = Qle_bool a q).
  { intros a. apply eq_true_iff_eq. rewrite !Qle_bool_iff. now rewrite E. }
  assert (H2 : forall a, Qle_bool p a = Qle_bool q a).
  { intros a. apply eq_true_iff_eq. rewrite !Qle_bool_iff. now rewrite E. }
  rewrite H1. destruct hi; [now rewrite H2 | reflexivity].
Qed.

Lemma covered_proper (p q : Q) : (p == q)%Q -> covered p = covered q.
Proof.
  intros E. unfold covered.
  induction buckets as [| b l IH]; [reflexivity |].
  cbn [existsb]. now rewrite IH, (in_bucket_proper b p q E).
Qed.

(** What the code counts for a range is what the bucket holds of the sold
    records. *)
Lemma count_in_range (name : string) (lo : Z) (hi : option Z) (l : list Transaction) :
  length (filter (in_range (mkRange name (JS.of_Z lo)
                                    (match hi with
                                     | Some h => JS.of_Z h
                                     | None => JS.Infinity false
                                     end)))
                 (map (month_view [f_price; f_sold]) l))
  = length (filter (fun t => in_bucket (lo, hi) (price t)) (filter sold l)).
Proof.
  rewrite filter_map_swap, length_map, <- filter_andb.
  f_equal. apply filter_ext. intros t.
  unfold in_range, in_bucket. destruct hi; reflexivity.
Qed.

Lemma rangeCounts_buckets (l : list Transaction) :
  rangeCounts (map (month_view [f_price; f_sold]) l)
  = combine bucket_labels
            (map (fun b => Z.of_nat (length (filter (fun t => in_bucket b (price t))
                                                    (filter sold l))))
                 buckets).
Proof.
  unfold rangeCounts, ranges, bucket_labels, buckets. cbn [map combine label].
  repeat (f_equal; [f_equal; f_equal;
                    match goal with
                    | |- length (filter (in_range (mkRange ?n (JS.of_Z ?lo) (JS.of_Z ?hi))) _) = _ =>
                        exact (count_in_range n lo (Some hi) l)
                    end |]).
  do 3 f_equal. exact (count_in_range "901-above" 901 None l).
Qed.

(** C2, amended.  For a month in 1..12 and a store that answers,
    [getBarChart] replies 200 with ten entries, labelled and ordered as the
    buckets [0,100], [101,200], ..., [801,900], [901,oo), each counting the
    sold records of that month whose price lies in the bucket (zero counts
    included).  The buckets are mutually exclusive, and every non-negative
    integer price lies in one of them.  The counts sum to the number of
    sold records of the month whose price lies in some bucket; that is the
    number of all sold records of the month when their prices are
    non-negative integers. *)
Theorem getBarChart_counts (m : string) (z : Z) (w : world) :
  denotes_month m z ->
  store_up 1 (faults w) ->
  let sold_ones := filter sold (of_month z (store w)) in
  let counts :=
    map (fun b => Z.of_nat (length (filter (fun t => in_bucket b (price t)) sold_ones)))
        buckets in
  getBarChart (month_only (Some m)) express_res w
  = (Returned undefined,
     replied (logged w (aggregate_op (monthPipeline (Some m) [f_price; f_sold]))) 200
             (RangeCounts (combine bucket_labels counts)))
  /\ length (combine bucket_labels counts) = 10%nat
  /\ (forall p b1 b2, In b1 buckets -> In b2 buckets ->
                      in_bucket b1 p = true -> in_bucket b2 p = true -> b1 = b2)
  /\ (forall n, 0 <= n -> covered (inject_Z n) = true)
  /\ total counts
     = Z.of_nat (length (filter (fun t => covered (price t)) sold_ones))
  /\ ((forall t, In t sold_ones -> exists n, 0 <= n /\ (price t == inject_Z n)%Q) ->
      total counts = Z.of_nat (length sold_ones)).
Proof.
  intros Hm Hup sold_ones counts.
  assert (Hsum : total counts
                 = Z.of_nat (length (filter (fun t => covered (price t)) sold_ones))).
  { unfold counts.
    pose proof (counts_of_exclusive
                  (map (fun b t => in_bucket b (price t)) buckets) sold_ones) as H.
    rewrite map_map in H. rewrite H.
    - reflexivity.
    - apply ForallOrdPairs_map.
      apply (ForallOrdPairs_weaken _ _ _ buckets_apart).
      intros b1 b2 Hb t. apply Hb. }
  refine (conj _ (conj _ (conj _ (conj _ (conj _ _))))).
  - rewrite (getBarChart_answers (Some m) w _ (denotes_month_valid m z Hm) Hup
               (monthPipeline_denoted m z _ (store w) Hm)).
    now rewrite rangeCounts_buckets.
  - reflexivity.
  - intros p b1 b2. apply buckets_exclusive.
  - exact buckets_cover_integers.
  - exact Hsum.
  - intros Hint. rewrite Hsum. do 2 f_equal.
    rewrite <- (filter_true sold_ones) at 2. apply filter_ext_in.
    intros t Ht. destruct (Hint t Ht) as (n & Hn & E).
    rewrite (covered_proper _ _ E). now apply buckets_cover_integers.
Qed.

End BarChartFacts.

(* ================================================================= *)
(** ** Tables of counts *)

Module TallyFacts.
Import Spec.

Lemma existsb_eqb_In (c : string) (l : list string) :
  existsb (String.eqb c) l = true <-> In c l.
Proof.
  rewrite existsb_exists. split.
  - intros (x & Hx & E). apply String.eqb_eq in E. now subst.
  - intros H. exists c. split; [assumption | apply String.eqb_refl].
Qed.

Lemma In_first_occurrences (c : string) (l : list string) :
  In c (first_occurrences l) <-> In c l.
Proof.
  induction l as [| a l IH]; [reflexivity |].
  cbn [first_occurrences In]. rewrite filter_In, IH.
  destruct (String.eqb_spec c a) as [-> | Hne]; cbn [negb].
  - split; intros _; now left.
  - split.
    + intros [E | [H _]]; [now left | now right].
    + intros [E | H]; [now left | right; split; [assumption | reflexivity]].
Qed.

Lemma NoDup_first_occurrences (l : list string) : NoDup (first_occurrences l).
Proof.
  induction l as [| a l IH]; cbn [first_occurrences]; constructor.
  - rewrite filter_In. intros [_ H]. now rewrite String.eqb_refl in H.
  - now apply NoDup_filter.
Qed.

Lemma first_occurrences_snoc (pre : list string) (c : string) :
  first_occurrences (pre ++ [c])
  = if existsb (String.eqb c) pre
    then first_occurrences pre
    else first_occurrences pre ++ [c].
Proof.
  induction pre as [| a pre IH]; [reflexivity |].
  cbn [app first_occurrences existsb]. rewrite IH.
  destruct (String.eqb_spec c a) as [-> | Hne]; cbn [orb].
  - destruct (existsb (String.eqb a) pre); [reflexivity |].
    rewrite filter_app. cbn [filter]. rewrite String.eqb_refl. cbn.
    now rewrite app_nil_r.
  - destruct (existsb (String.eqb c) pre); [reflexivity |].
    rewrite filter_app. cbn [filter].
    destruct (String.eqb_spec c a); [contradiction | reflexivity].
Qed.

Lemma bump_keys (c : string) (table : list (string * Z)) :
  map fst (bump c table)
  = if existsb (String.eqb c) (map fst table)
    then map fst table
    else map fst table ++ [c].
Proof.
  induction table as [| [k n] r IH]; [reflexivity |].
  cbn [bump map fst existsb].
  destruct (String.eqb c k); cbn [orb map fst]; [reflexivity |].
  rewrite IH. now destruct (existsb (String.eqb c) (map fst r)).
Qed.

Lemma tally_snoc (pre : list string) (c : string) :
  tally (pre ++ [c]) = bump c (tally pre).
Proof. unfold tally. now rewrite fold_left_app. Qed.

(** The table lists the distinct values in order of first occurrence. *)
Lemma tally_keys (l : list string) : map fst (tally l) = first_occurrences l.
Proof.
  induction l as [| c pre IH] using rev_ind; [reflexivity |].
  rewrite tally_snoc, bump_keys, first_occurrences_snoc, IH.
  assert (E : existsb (String.eqb c) (first_occurrences pre)
              = existsb (String.eqb c) pre).
  { apply eq_true_iff_eq.
    now rewrite !existsb_eqb_In, In_first_occurrences. }
  now rewrite E.
Qed.

Lemma assoc_bump (k c : string) (table : list (string * Z)) :
  JS.assoc k (bump c table)
  = if String.eqb k c
    then Some (match JS.assoc c table with Some n => n + 1 | None => 1 end)
    else JS.assoc k table.
Proof.
  induction table as [| [k' n] r IH]; cbn [bump JS.assoc].
  - now destruct (String.eqb k c).
  - destruct (String.eqb_spec c k') as [-> | Hne]; cbn [JS.assoc].
    + destruct (String.eqb_spec k k'); [reflexivity |].
      reflexivity.
    + rewrite IH. destruct (String.eqb_spec k c) as [-> | Hkc].
      * destruct (String.eqb_spec c k'); [contradiction | reflexivity].
      * reflexivity.
Qed.

Lemma occurrences_snoc (k c : string) (pre : list string) :
  occurrences k (pre ++ [c])
  = occurrences k pre + (if String.eqb k c then 1 else 0).
Proof.
  unfold occurrences. rewrite filter_app, length_app. cbn [filter].
  destruct (String.eqb k c); cbn [length]; lia.
Qed.

Lemma occurrences_nonneg (k : string) (l : list string) : 0 <= occurrences k l.
Proof. unfold occurrences. lia. Qed.

(** Looking a value up in the table gives the number of its occurrences, and
    nothing when there is none. *)
Lemma assoc_tally (k : string) (l : list string) :
  JS.assoc k (tally l)
  = if occurrences k l =? 0 then None else Some (occurrences k l).
Proof.
  induction l as [| c pre IH] using rev_ind; [reflexivity |].
  rewrite tally_snoc, assoc_bump, occurrences_snoc.
  pose proof (occurrences_nonneg k pre) as Hk.
  destruct (String.eqb_spec k c) as [-> | Hne].
  - rewrite IH. destruct (Z.eqb_spec (occurrences c pre) 0) as [E | E].
    + rewrite E. reflexivity.
    + destruct (Z.eqb_spec (occurrences c pre + 1) 0); [lia | reflexivity].
  - now rewrite IH, Z.add_0_r.
Qed.

Lemma In_assoc {V} (k : string) (v : V) (table : list (string * V)) :
  NoDup (map fst table) -> In (k, v) table -> JS.assoc k table = Some v.
Proof.
  induction table as [| [k' v'] r IH]; [intros _ [] |].
  cbn [map fst JS.assoc In]. intros Hnd [E | Hin].
  - injection E as -> ->. now rewrite String.eqb_refl.
  - inversion Hnd as [| ? ? Hnotin Hnd']; subst.
    destruct (String.eqb_spec k k') as [-> | _].
    + exfalso. apply Hnotin. apply in_map_iff. now exists (k', v).
    + now apply IH.
Qed.

Lemma tally_counts (c : string) (n : Z) (l : list string) :
  In (c, n) (tally l) -> n = occurrences c l.
Proof.
  intros H. apply In_assoc in H.
  - rewrite assoc_tally in H.
    destruct (occurrences c l =? 0); congruence.
  - rewrite tally_keys. apply NoDup_first_occurrences.
Qed.

Lemma total_bump (c : string) (table : list (string * Z)) :
  total (map snd (bump c table)) = total (map snd table) + 1.
Proof.
  unfold total. induction table as [| [k n] r IH]; [reflexivity |].
  cbn [bump]. destruct (String.eqb c k); cbn [map snd fold_right] in *; lia.
Qed.

(** The counts of the table add up to the length of the list. *)
Lemma total_tally (l : list string) :
  total (map snd (tally l)) = Z.of_nat (length l).
Proof.
  induction l as [| c pre IH] using rev_ind; [reflexivity |].
  rewrite tally_snoc, total_bump, IH, length_app. cbn [length]. lia.
Qed.

Lemma tally_positive (l : list string) : Forall (fun e => 1 <= snd e) (tally l).
Proof.
  rewrite Forall_forall. intros [c n] H. cbn [snd].
  pose proof (In_assoc c n (tally l)) as Ha.
  rewrite tally_keys in Ha. specialize (Ha (NoDup_first_occurrences l) H).
  rewrite assoc_tally in Ha. pose proof (occurrences_nonneg c l).
  destruct (Z.eqb_spec (occurrences c l) 0); [discriminate |].
  injection Ha as <-. lia.
Qed.

Lemma total_Permutation (a b : list Z) : Permutation a b -> total a = total b.
Proof.
  unfold total. induction 1; cbn [fold_right] in *; lia.
Qed.

End TallyFacts.

(* ================================================================= *)
(** ** The pie chart *)

Module PieChartFacts.
Import Model Mongo Express Controller Spec RunFacts MonthPipeline TallyFacts.

Lemma assoc_as_number (k : string) (table : list (string * Z)) :
  JS.assoc k (map as_number table)
  = option_map (fun n => JS.VNum (JS.of_Z n)) (JS.assoc k table).
Proof.
  induction table as [| [k' n] r IH]; [reflexivity |].
  cbn [map as_number fst snd JS.assoc]. now destruct (String.eqb k k').
Qed.

Lemma assoc_In {V} (k : string) (v : V) (table : list (string * V)) :
  JS.assoc k table = Some v -> In (k, v) table.
Proof.
  induction table as [| [k' v'] r IH]; [discriminate |].
  cbn [JS.assoc]. destruct (String.eqb_spec k k') as [-> | _].
  - intros [= ->]. now left.
  - intros H. right. now apply IH.
Qed.

Lemma update_as_number (c : string) (table : list (string * Z)) :
  JS.update c (JS.VNum (JS.of_Z (match JS.assoc c table with
                                 | Some n => n + 1
                                 | None => 1
                                 end)))
            (map as_number table)
  = map as_number (bump c table).
Proof.
  induction table as [| [k n] r IH]; [reflexivity |].
  cbn [map as_number fst snd JS.update JS.assoc bump].
  destruct (String.eqb c k); [reflexivity |].
  cbn [map as_number fst snd]. now rewrite IH.
Qed.

(** One step of the reducer on a table of positive counts, for a category
    that is not the name of an inherited member. *)
Lemma count_step (c : string) (table : list (string * Z)) :
  inherited c = false ->
  Forall (fun e => 1 <= snd e) table ->
  JS.set (map as_number table) c
         (JS.plus_one (JS.or_zero (JS.get (map as_number table) c)))
  = map as_number (bump c table).
Proof.
  intros Hc Hpos. unfold JS.set.
  destruct (String.eqb_spec c "__proto__") as [-> | _]; [discriminate Hc |].
  rewrite <- update_as_number. f_equal.
  unfold JS.get. rewrite assoc_as_number.
  destruct (JS.assoc c table) as [n |] eqn:E; cbn [option_map].
  - apply assoc_In in E. rewrite Forall_forall in Hpos.
    specialize (Hpos _ E). cbn [snd] in Hpos.
    unfold JS.or_zero. cbn [JS.truthy_val]. rewrite NumFacts.truthy_of_Z.
    destruct (Z.eqb_spec n 0); [lia |]. cbn [negb JS.plus_one].
    now rewrite NumFacts.add_of_Z.
  - unfold inherited in Hc.
    destruct (JS.assoc c JS.Object_prototype); [discriminate | reflexivity].
Qed.

Lemma bump_positive (c : string) (table : list (string * Z)) :
  Forall (fun e => 1 <= snd e) table ->
  Forall (fun e => 1 <= snd e) (bump c table).
Proof.
  induction 1 as [| [k n] r Hn Hr IH]; cbn [bump].
  - constructor; [cbn; lia | constructor].
  - destruct (String.eqb c k); constructor; cbn [snd] in *; try assumption; lia.
Qed.

(** The object the reducer builds is the table of the labels seen. *)
Lemma categoryCounts_tally (l : list Transaction) :
  (forall c, In c (map category_label l) -> inherited c = false) ->
  categoryCounts (map (month_view [f_category]) l)
  = map as_number (tally (map category_label l)).
Proof.
  unfold categoryCounts, tally.
  change (@nil (string * JS.jsval)) with (map as_number []).
  assert (Hpos : Forall (fun e => 1 <= snd e) (@nil (string * Z))) by constructor.
  revert Hpos. generalize (@nil (string * Z)) as table.
  induction l as [| t l IH]; intros table Hpos Hc; [reflexivity |].
  cbn [map fold_left]. unfold count_category at 2.
  change (category_or_default (month_view [f_category] t)) with (category_label t).
  rewrite count_step.
  - apply IH; [now apply bump_positive |].
    intros c Hin. apply Hc. now right.
  - apply Hc. now left.
  - exact Hpos.
Qed.

Section Entries.
Context {V : Type}.

Lemma insert_index_Permutation (i : Z) (e : string * V)
      (l : list (Z * (string * V))) :
  Permutation (map snd (JS.insert_index i e l)) (e :: map snd l).
Proof.
  induction l as [| [j e'] r IH]; [reflexivity |].
  cbn [JS.insert_index]. destruct (i <? j); [reflexivity |].
  cbn [map snd]. rewrite IH. apply perm_swap.
Qed.

(** [Object.entries] lists every own property exactly once. *)
Lemma own_entries_Permutation (o : list (string * V)) :
  Permutation (JS.own_entries o) o.
Proof.
  unfold JS.own_entries, JS.named_entries.
  induction o as [| [k v] r IH]; [reflexivity |].
  cbn [JS.index_entries filter fst].
  destruct (JS.array_index k) as [i |].
  - rewrite insert_index_Permutation. cbn [app]. now constructor.
  - rewrite <- Permutation_middle. now constructor.
Qed.

(** Without array-index keys, it lists them in creation order. *)
Lemma own_entries_named (o : list (string * V)) :
  (forall k, In k (map fst o) -> JS.array_index k = None) ->
  JS.own_entries o = o.
Proof.
  unfold JS.own_entries, JS.named_entries. intros H.
  assert (Hidx : JS.index_entries o = []).
  { induction o as [| [k v] r IH]; [reflexivity |].
    cbn [JS.index_entries]. rewrite (H k) by now left.
    apply IH. intros k' Hk'. apply H. now right. }
  rewrite Hidx. cbn [map app].
  induction o as [| [k v] r IH]; [reflexivity |].
  cbn [filter fst]. rewrite (H k) by now left.
  f_equal. apply IH.
  - intros k' Hk'. apply H. now right.
  - cbn [JS.index_entries] in Hidx. now rewrite (H k) in Hidx by now left.
Qed.
End Entries.

Lemma insert_index_as_number (i : Z) (e : string * Z) (l : list (Z * (string * Z))) :
  JS.insert_index i (as_number e) (map (fun ie => (fst ie, as_number (snd ie))) l)
  = map (fun ie => (fst ie, as_number (snd ie))) (JS.insert_index i e l).
Proof.
  induction l as [| [j e'] r IH]; [reflexivity |].
  cbn [map JS.insert_index fst snd]. destruct (i <? j); [reflexivity |].
  cbn [map fst snd]. now rewrite IH.
Qed.

Lemma own_entries_as_number (table : list (string * Z)) :
  JS.own_entries (map as_number table) = map as_number (JS.own_entries table).
Proof.
  unfold JS.own_entries, JS.named_entries. rewrite map_app. f_equal.
  - assert (H : JS.index_entries (map as_number table)
                = map (fun ie => (fst ie, as_number (snd ie))) (JS.index_entries table)).
    { induction table as [| [k n] r IH]; [reflexivity |].
      cbn [map as_number fst snd JS.index_entries].
      destruct (JS.array_index k); [| exact IH].
      rewrite IH. apply (insert_index_as_number _ (k, n)). }
    rewrite H, !map_map. reflexivity.
  - rewrite filter_map_swap. reflexivity.
Qed.

Lemma map_eta {A B} (l : list (A * B)) : map (fun '(a, b) => (a, b)) l = l.
Proof. induction l as [| [a b] l IH]; [reflexivity | cbn; now rewrite IH]. Qed.

(** C7, amended.  For a month in 1..12 and a store that answers,
    [getPieChart] groups all the records of that month (sold or not) by
    category, a missing or empty category counting as "Uncategorized".
    Provided no label is the name of a member inherited from
    [Object.prototype], it replies 200 with exactly one entry per distinct
    label observed, each with the number of records carrying that label, and
    the counts sum to the number of records of the month.  When no label is
    a canonical array index either, the entries come in order of first
    occurrence. *)
Theorem getPieChart_counts (m : string) (z : Z) (w : world) :
  denotes_month m z ->
  store_up 1 (faults w) ->
  let matching := of_month z (store w) in
  let labels := map category_label matching in
  (forall c, In c labels -> inherited c = false) ->
  exists entries : list (string * Z),
    getPieChart (month_only (Some m)) express_res w
    = (Returned undefined,
       replied (logged w (aggregate_op (monthPipeline (Some m) [f_category]))) 200
               (CategoryCounts (map as_number entries)))
    /\ Permutation (map fst entries) (first_occurrences labels)
    /\ (forall c n, In (c, n) entries -> n = occurrences c labels)
    /\ total (map snd entries) = Z.of_nat (length matching)
    /\ ((forall c, In c labels -> JS.array_index c = None) ->
        map fst entries = first_occurrences labels).
Proof.
  intros Hm Hup matching labels Hplain.
  exists (JS.own_entries (tally labels)).
  pose proof (own_entries_Permutation (tally labels)) as Hperm.
  refine (conj _ (conj _ (conj _ (conj _ _)))).
  - rewrite (getPieChart_answers (Some m) w _ (denotes_month_valid m z Hm) Hup
               (monthPipeline_denoted m z _ (store w) Hm)).
    do 3 f_equal. unfold result, JS.Object_entries. rewrite map_eta.
    fold matching. rewrite (categoryCounts_tally matching Hplain).
    apply own_entries_as_number.
  - rewrite <- tally_keys. now apply Permutation_map.
  - intros c n Hin. apply tally_counts.
    now apply (Permutation_in _ Hperm).
  - rewrite (total_Permutation _ _ (Permutation_map snd Hperm)), total_tally.
    unfold labels. now rewrite length_map.
  - intros Hnamed. rewrite own_entries_named; [apply tally_keys |].
    intros k Hk. apply Hnamed. rewrite tally_keys in Hk.
    now apply In_first_occurrences.
Qed.

End PieChartFacts.

(* ================================================================= *)
(** ** The list view *)

Module ListFacts.
Import Model Mongo Express Controller Spec RunFacts.

Lemma or_else_of_Z (p : Z) (d : JS.jsnum) :
  p <> 0 -> JS.or_else (JS.of_Z p) d = JS.of_Z p.
Proof.
  intros Hp. unfold JS.or_else. rewrite NumFacts.truthy_of_Z.
  now destruct (Z.eqb_spec p 0).
Qed.

Lemma Math_ceil_div (a p : Z) :
  p <> 0 ->
  JS.Math_ceil (JS.div (JS.of_Z a) (JS.of_Z p))
  = JS.of_Z (Qceiling (inject_Z a / inject_Z p)).
Proof.
  intros Hp. unfold JS.div, JS.of_Z, JS.is_zero. cbn [inject_Z Qnum].
  destruct (Z.eqb_spec p 0); [contradiction |].
  unfold JS.num, JS.Math_ceil, JS.of_Z. do 2 f_equal.
  apply Qceiling_comp, Qred_correct.
Qed.

(** The page pipeline: month and search filter, then the window. *)
Lemma listPipeline_run (m : string) (r : JS.regex) (s : string) (sk p : Z)
      (st : list Transaction) :
  JS.truthy_string m = true -> 0 <= sk -> 1 <= p ->
  run (listPipeline (Some m) r s (JS.of_Z sk) (JS.of_Z p)) (map stored st)
  = inr (map list_view
             (firstn (Z.to_nat p)
                     (skipn (Z.to_nat sk)
                            (filter (list_selects (JS.ToNumber m) r s) st)))).
Proof.
  intros Hm Hsk Hp. unfold listPipeline. rewrite Hm.
  cbn [run run_stage match_or searchQuery filter Boolean].
  rewrite !NumFacts.integral_of_Z.
  destruct (Z.leb_spec 0 sk); [| lia]. destruct (Z.ltb_spec 0 p); [| lia].
  f_equal. rewrite map_map, filter_map_swap, skipn_map, firstn_map, map_map.
  reflexivity.
Qed.

(** The count pipeline, as [slice(0, -2)] leaves it: the [$skip] stage is
    still there. *)
Lemma countPipeline_is (month : option string) (r : JS.regex) (s : string)
      (skip limit : JS.jsnum) :
  slice_0_minus2 (listPipeline month r s skip limit) ++ [Count_totalRecords]
  = [ AddFields_month;
      Match (mkMatch (match month with
                      | Some m => if JS.truthy_string m then Some (JS.ToNumber m) else None
                      | None => None
                      end)
                     (Some (searchQuery r s)));
      Skip skip;
      Count_totalRecords ].
Proof. reflexivity. Qed.

Lemma countPipeline_run (m : string) (r : JS.regex) (s : string) (sk : Z)
      (limit : JS.jsnum) (st : list Transaction) :
  JS.truthy_string m = true -> 0 <= sk ->
  run (slice_0_minus2 (listPipeline (Some m) r s (JS.of_Z sk) limit)
       ++ [Count_totalRecords]) (map stored st)
  = inr (counted (skipn (Z.to_nat sk)
                        (filter (list_selects (JS.ToNumber m) r s) st))).
Proof.
  intros Hm Hsk. rewrite countPipeline_is, Hm.
  cbn [run run_stage match_or searchQuery filter Boolean].
  rewrite NumFacts.integral_of_Z. destruct (Z.leb_spec 0 sk); [| lia].
  rewrite map_map, filter_map_swap, skipn_map.
  set (l := skipn _ _). destruct l; [reflexivity |].
  cbn [map counted length]. now rewrite !length_map.
Qed.

Lemma first_totalRecords_counted {A} (l : list A) :
  first_totalRecords (counted l) = JS.of_Z (Z.of_nat (length l)).
Proof.
  destruct l as [| a l]; [reflexivity |].
  cbn [counted first_totalRecords doc_totalRecords].
  apply or_else_of_Z. cbn [length]. lia.
Qed.

Lemma valid_month_truthy (m : string) :
  invalid_month (Some m) = false -> JS.truthy_string m = true.
Proof.
  unfold invalid_month. destruct (JS.truthy_string m); [reflexivity | discriminate].
Qed.

(** The answer of the list view once the month has passed validation, on a
    store that lets both aggregations through. *)
Lemma listTransactions_runs (req : query) (m : string) (k p : Z)
      (r : JS.regex) (w : world) :
  month req = Some m -> invalid_month (Some m) = false ->
  JS.RegExp_i (default "" (search req)) = Some r ->
  JS.parseInt10 (default "1" (page req)) = JS.of_Z k -> 1 <= k ->
  JS.parseInt10 (default "10" (perPage req)) = JS.of_Z p -> 1 <= p ->
  store_up 2 (faults w) ->
  let s := default "" (search req) in
  let sk := (k - 1) * p in
  let pipeline := listPipeline (Some m) r s (JS.of_Z sk) (JS.of_Z p) in
  let matching := filter (list_selects (JS.ToNumber m) r s) (store w) in
  let reported := Z.of_nat (length (skipn (Z.to_nat sk) matching)) in
  listTransactions req express_res w
  = (Returned undefined,
     replied (logged (logged w (aggregate_op pipeline))
                     (aggregate_op (slice_0_minus2 pipeline ++ [Count_totalRecords])))
             200
             (TransactionsPage
                (map list_view (firstn (Z.to_nat p) (skipn (Z.to_nat sk) matching)))
                (mkPagination (JS.of_Z reported) (JS.of_Z k) (JS.of_Z p)
                              (JS.of_Z (Qceiling (inject_Z reported / inject_Z p)))))).
Proof.
  intros Hq Hm Hre Hk Hk1 Hp Hp1 Hup s sk pipeline matching reported.
  pose proof (valid_month_truthy m Hm) as Ht.
  assert (Hsk : 0 <= sk) by (unfold sk; nia).
  assert (Hup1 : store_up 1 (faults w)).
  { cbn in *. destruct (faults w) as [| [e |] ?]; tauto. }
  assert (Hup2 : store_up 1 (tl (faults w))).
  { cbn in *. destruct (faults w) as [| [e |] ?]; cbn; tauto. }
  unfold listTransactions, try_catch, bind. cbv zeta.
  rewrite Hq, Hm, Hk, Hp, Hre.
  rewrite (or_else_of_Z p) by lia.
  rewrite NumFacts.sub_of_Z, NumFacts.mul_of_Z.
  fold s sk.
  rewrite (aggregate_up _ w _ Hup1 (listPipeline_run m r s sk p _ Ht Hsk Hp1)).
  cbv beta iota.
  rewrite (aggregate_up
             _ (logged w (aggregate_op (listPipeline (Some m) r s (JS.of_Z sk) (JS.of_Z p))))
             _ Hup2
             (countPipeline_run m r s sk (JS.of_Z p) _ Ht Hsk)).
  fold matching.
  rewrite first_totalRecords_counted. fold reported.
  rewrite Math_ceil_div by lia. reflexivity.
Qed.

Lemma listTransactions_answers (req : query) (m : string) (z k p : Z)
      (r : JS.regex) (w : world) :
  month req = Some m -> denotes_month m z ->
  JS.RegExp_i (default "" (search req)) = Some r ->
  JS.parseInt10 (default "1" (page req)) = JS.of_Z k -> 1 <= k ->
  JS.parseInt10 (default "10" (perPage req)) = JS.of_Z p -> 1 <= p ->
  store_up 2 (faults w) ->
  let s := default "" (search req) in
  let sk := (k - 1) * p in
  let pipeline := listPipeline (Some m) r s (JS.of_Z sk) (JS.of_Z p) in
  let matching := filter (list_selects (JS.of_Z z) r s) (store w) in
  let reported := Z.of_nat (length (skipn (Z.to_nat sk) matching)) in
  listTransactions req express_res w
  = (Returned undefined,
     replied (logged (logged w (aggregate_op pipeline))
                     (aggregate_op (slice_0_minus2 pipeline ++ [Count_totalRecords])))
             200
             (TransactionsPage
                (map list_view (firstn (Z.to_nat p) (skipn (Z.to_nat sk) matching)))
                (mkPagination (JS.of_Z reported) (JS.of_Z k) (JS.of_Z p)
                              (JS.of_Z (Qceiling (inject_Z reported / inject_Z p)))))).
Proof.
  intros Hq Hm Hre Hk Hk1 Hp Hp1 Hup.
  pose proof (listTransactions_runs req m k p r w Hq (denotes_month_valid m z Hm)
                Hre Hk Hk1 Hp Hp1 Hup) as H.
  destruct Hm as [Hz _]. rewrite Hz in H. exact H.
Qed.

End ListFacts.

(* ================================================================= *)
(** ** Searching *)

Module SearchFacts.
Import Model Mongo Express Controller Spec RunFacts ListFacts.

(** A text without metacharacters compiles to the sequence of its
    characters. *)
Lemma compile_plain (cs : list ascii) :
  forallb (fun c => negb (JS.is_meta c)) cs = true ->
  JS.compile cs = Some (map JS.Lit cs).
Proof.
  induction cs as [| c cs IH]; [reflexivity |].
  cbn [forallb]. rewrite andb_true_iff, negb_true_iff. intros [Hc Hcs].
  cbn [JS.compile map]. rewrite (IH Hcs), Hc.
  destruct (Ascii.eqb_spec c "."%char) as [-> | _]; [discriminate Hc | reflexivity].
Qed.

Lemma match_here_literal (n t : list ascii) :
  JS.match_here (map JS.Lit n) t = true
  <-> exists rest, map JS.lower t = map JS.lower n ++ rest.
Proof.
  revert t. induction n as [| a n IH]; intros t.
  - cbn. split; [intros _; now exists (map JS.lower t) | reflexivity].
  - destruct t as [| c t]; cbn [map JS.match_here JS.item_matches app].
    + split; [discriminate | intros [rest H]; discriminate H].
    + rewrite andb_true_iff, IH. split.
      * intros [E [rest H]]. apply Ascii.eqb_eq in E.
        exists rest. now rewrite E, H.
      * intros [rest H]. injection H as E H.
        split; [rewrite E; apply Ascii.eqb_refl | now exists rest].
Qed.

Lemma search_from_somewhere (r : JS.regex) (t : list ascii) :
  JS.search_from r t = true
  <-> exists before rest, t = before ++ rest /\ JS.match_here r rest = true.
Proof.
  induction t as [| c t IH]; cbn [JS.search_from]; rewrite orb_true_iff.
  - split.
    + intros [H | H]; [| discriminate]. now exists [], [].
    + intros (before & rest & E & H). left.
      symmetry in E. apply app_eq_nil in E. destruct E as [_ ->]. exact H.
  - rewrite IH. split.
    + intros [H | (before & rest & E & H)].
      * now exists [], (c :: t).
      * exists (c :: before), rest. now rewrite E.
    + intros (before & rest & E & H). destruct before as [| b before].
      * left. cbn in E. now rewrite E.
      * right. injection E as _ E. now exists before, rest.
Qed.

(** On a text without metacharacters, the case-insensitive regular
    expression is a case-insensitive substring test. *)
Lemma test_plain (s text : string) (r : JS.regex) :
  plain_text s -> JS.RegExp_i s = Some r ->
  (JS.test r text = true <-> contains_ci text s).
Proof.
  intros Hs Hr. unfold JS.RegExp_i in Hr. rewrite (compile_plain _ Hs) in Hr.
  injection Hr as <-. unfold JS.test, contains_ci.
  rewrite search_from_somewhere. split.
  - intros (before & rest & E & H). apply match_here_literal in H.
    destruct H as [after H]. exists (map JS.lower before), after.
    now rewrite E, map_app, H.
  - intros (before & after & E).
    exists (firstn (length before) (JS.chars text)),
           (skipn (length before) (JS.chars text)).
    split; [now rewrite firstn_skipn |].
    apply match_here_literal. exists after.
    rewrite <- skipn_map, E, skipn_app, Nat.sub_diag, skipn_all. reflexivity.
Qed.

(** The [$match] stage of the list view selects what the search is meant
    to select, when the search text has no metacharacter. *)
Lemma list_selects_plain (z : Z) (s : string) (r : JS.regex) (t : Transaction) :
  plain_text s -> JS.RegExp_i s = Some r ->
  (list_selects (JS.of_Z z) r s t = true <-> search_selects z s t).
Proof.
  intros Hs Hr. unfold list_selects, matches, search_selects.
  cbn [match_month match_or month_matches or_matches searchQuery filter Boolean
       existsb clause_matches add_month stored doc_month doc_title
       doc_description doc_price doc_dateOfSale option_map regex_on].
  rewrite andb_true_iff, NumFacts.eqb_of_Z, Z.eqb_eq, !orb_true_iff.
  rewrite (test_plain s (title t) r Hs Hr).
  assert (Hd : regex_on r (description t) = true
               <-> exists d, description t = Some d /\ contains_ci d s).
  { destruct (description t) as [d |]; cbn [regex_on].
    - rewrite (test_plain s d r Hs Hr). split.
      + intros H. now exists d.
      + intros (d' & [= <-] & H). exact H.
    - split; [discriminate | intros (d & E & _); discriminate E]. }
  assert (Hp : match (if JS.isNaN (JS.ToNumber s) then None
                      else Some (JS.ToNumber s)) with
               | Some n => JS.eqb (JS.Num (price t)) n
               | None => false
               end = true
               <-> exists q, JS.ToNumber s = JS.Num q /\ (price t == q)%Q).
  { destruct (JS.ToNumber s) as [| q | neg]; cbn [JS.isNaN JS.eqb].
    - split; [discriminate | intros (q & E & _); discriminate E].
    - rewrite Qeq_bool_iff. split.
      + intros H. now exists q.
      + intros (q' & [= <-] & H). exact H.
    - split; [discriminate | intros (q & E & _); discriminate E]. }
  rewrite Hd, Hp. intuition discriminate.
Qed.

End SearchFacts.

(* ================================================================= *)
(** ** Paging *)

Module PagingFacts.
Import Model Mongo Express Controller Spec RunFacts ListFacts SearchFacts.

Lemma firstn_plus {A} (a b : nat) (l : list A) :
  firstn (a + b) l = firstn a l ++ firstn b (skipn a l).
Proof.
  revert l. induction a as [| a IH]; intros l; [reflexivity |].
  destruct l as [| x l]; cbn [Nat.add firstn skipn app].
  - now rewrite firstn_nil.
  - now rewrite IH.
Qed.

(** The windows of pages 1 to [n], put end to end, are the first [n * p]
    elements: nothing is repeated and nothing is left out. *)
Lemma pages_concat {A} (p n : nat) (l : list A) :
  concat (map (fun i => firstn p (skipn (i * p) l)) (seq 0 n)) = firstn (n * p) l.
Proof.
  induction n as [| n IH]; [reflexivity |].
  rewrite seq_S, map_app, concat_app, IH. cbn [map concat Nat.add].
  rewrite app_nil_r, <- firstn_plus. f_equal. lia.
Qed.

Lemma pages_cover {A} (p n : nat) (l : list A) :
  (length l <= n * p)%nat ->
  concat (map (fun i => firstn p (skipn (i * p) l)) (seq 0 n)) = l.
Proof. intros H. rewrite pages_concat. now apply firstn_all2. Qed.

(** C4, as the code behaves.  For a valid month, a search pattern, page
    [k >= 1] and [perPage = p >= 1], [listTransactions] returns the window
    of the filtered set that starts after [skip = (k - 1) * p] records and
    holds at most [p] of them; but the [totalRecords] it reports is the
    number of filtered records left after those [skip] records (the count
    pipeline keeps the [$skip] stage), and [totalPages] is the ceiling of
    that number over [p].  Only on page 1 is it the count of all the
    records matching the filter. *)
Theorem listTransactions_totalRecords_omits_skipped
        (req : query) (m : string) (z k p : Z) (r : JS.regex) (w : world) :
  month req = Some m -> denotes_month m z ->
  JS.RegExp_i (default "" (search req)) = Some r ->
  JS.parseInt10 (default "1" (page req)) = JS.of_Z k -> 1 <= k ->
  JS.parseInt10 (default "10" (perPage req)) = JS.of_Z p -> 1 <= p ->
  store_up 2 (faults w) ->
  let skip := (k - 1) * p in
  let matching :=
    filter (list_selects (JS.of_Z z) r (default "" (search req))) (store w) in
  let reported := Z.max 0 (Z.of_nat (length matching) - skip) in
  exists w',
    listTransactions req express_res w = (Returned undefined, w')
    /\ sent w'
       = sent w
         ++ [mkResponse 200
               (TransactionsPage
                  (map list_view (firstn (Z.to_nat p) (skipn (Z.to_nat skip) matching)))
                  (mkPagination (JS.of_Z reported) (JS.of_Z k) (JS.of_Z p)
                                (JS.of_Z (Qceiling (inject_Z reported / inject_Z p)))))].
Proof.
  intros Hq Hm Hre Hk Hk1 Hp Hp1 Hup skip matching reported.
  eexists. split.
  - apply (listTransactions_answers req m z k p r w); assumption.
  - cbn [sent replied logged]. do 4 f_equal.
    assert (E : Z.of_nat (length (skipn (Z.to_nat skip) matching)) = reported).
    { rewrite length_skipn. unfold reported.
      assert (0 <= skip) by (unfold skip; nia). lia. }
    fold skip. fold matching. now rewrite E.
Qed.

(** C5, amended.  For a valid month and a search text that contains no
    regular-expression metacharacter, the page [listTransactions] returns
    is cut out of exactly the records of that month whose title or
    description contains the search text as a substring, letter case
    apart, or whose price equals the number the search text reads as (no
    price condition when it does not read as a number). *)
Theorem listTransactions_plain_search_selects
        (req : query) (m : string) (z k p : Z) (w : world) :
  month req = Some m -> denotes_month m z ->
  plain_text (default "" (search req)) ->
  JS.parseInt10 (default "1" (page req)) = JS.of_Z k -> 1 <= k ->
  JS.parseInt10 (default "10" (perPage req)) = JS.of_Z p -> 1 <= p ->
  store_up 2 (faults w) ->
  exists (selects : Transaction -> bool) (w' : world) (pagination : Pagination),
    (forall t, selects t = true <-> search_selects z (default "" (search req)) t)
    /\ listTransactions req express_res w = (Returned undefined, w')
    /\ sent w'
       = sent w
         ++ [mkResponse 200
               (TransactionsPage
                  (map list_view
                       (firstn (Z.to_nat p)
                               (skipn (Z.to_nat ((k - 1) * p))
                                      (filter selects (store w)))))
                  pagination)].
Proof.
  intros Hq Hm Hs Hk Hk1 Hp Hp1 Hup.
  pose proof (compile_plain _ Hs) as Hre.
  exists (list_selects (JS.of_Z z) (map JS.Lit (JS.chars (default "" (search req))))
                       (default "" (search req))).
  do 2 eexists. split; [| split].
  - intros t. now apply list_selects_plain.
  - apply (listTransactions_answers
             req m z k p (map JS.Lit (JS.chars (default "" (search req)))) w);
      assumption.
  - reflexivity.
Qed.

End PagingFacts.

(* ================================================================= *)
(** ** Seeding *)

Module SeedFacts.
Import Model Mongo Express Controller Spec RunFacts.

Lemma validate_stores_as (r : rawdoc) (t : Transaction) :
  validate r = Some t -> stores_as r t.
Proof.
  unfold validate, stores_as.
  destruct (raw_title r) as [ti |]; [| discriminate].
  destruct (raw_price r) as [pr |]; [| discriminate].
  destruct (raw_dateOfSale r) as [d |]; [| discriminate].
  destruct (JS.truthy_string ti); [| discriminate].
  intros [= <-]. cbn. repeat split; reflexivity.
Qed.

Lemma validate_all_stores_as (data : list rawdoc) (docs : list Transaction) :
  validate_all data = Some docs -> Forall2 stores_as data docs.
Proof.
  revert docs. induction data as [| r data IH]; intros docs.
  - intros [= <-]. constructor.
  - cbn [validate_all]. destruct (validate r) as [t |] eqn:Et; [| discriminate].
    destruct (validate_all data) as [ts |]; [| discriminate].
    intros [= <-]. constructor; [now apply validate_stores_as | now apply IH].
Qed.

Lemma store_up_2 (fs : list (option string)) :
  store_up 2 fs -> store_up 1 fs /\ store_up 1 (tl fs).
Proof. cbn. destruct fs as [| [e |] rest]; cbn; tauto. Qed.

(** The schema on a whole data set: the documents to store, or an error
    whose message starts as every validation error does. *)
Lemma validate_batch_all (data : list rawdoc) :
  match validate_all data with
  | Some docs => validate_batch data = inr docs
  | None => exists e, validate_batch data = inl e /\ validation_failure e
  end.
Proof.
  induction data as [| r data IH]; [reflexivity |].
  cbn [validate_all validate_batch].
  destruct (validate r) as [t |]; [| eexists; split; reflexivity].
  destruct (validate_all data) as [ts |].
  - now rewrite IH.
  - destruct IH as (e & -> & He). eauto.
Qed.

(** The insertion of a validated data set, when the store lets it
    through: it leaves the documents after what was there. *)
Lemma insertMany_up (data : list rawdoc) (docs : list Transaction) (w : world) :
  validate_all data = Some docs ->
  store_up 1 (faults w) ->
  exists fs log,
    insertMany data w
    = (Returned docs,
       mkWorld (store w ++ docs) fs log (sent w) (api w) (written w))
    /\ (log = oplog w \/ log = oplog w ++ [insertMany_op docs]).
Proof.
  intros Hval Hup. pose proof (validate_batch_all data) as Hb.
  rewrite Hval in Hb. unfold insertMany. rewrite Hb.
  destruct docs as [| t docs].
  - exists (faults w), (oplog w). split; [| now left].
    unfold ret. rewrite app_nil_r. now destruct w.
  - unfold issue_torn. destruct (faults w) as [| [e |] rest]; [| destruct Hup |];
      (do 2 eexists; split; [reflexivity | now right]).
Qed.

Lemma initializeDB_seeds (req : query) (w : world)
      (data : list rawdoc) (docs : list Transaction) :
  api w = FetchOk data ->
  validate_all data = Some docs ->
  store_up 2 (faults w) ->
  exists fs log,
    initializeDB req express_res w
    = (Returned undefined,
       mkWorld docs fs log (sent w ++ [mkResponse 200 (seeded (length docs))])
               (api w) (written w)).
Proof.
  intros Hapi Hval Hup. apply store_up_2 in Hup. destruct Hup as [Hup1 Hup2].
  unfold initializeDB, try_catch, bind, axios_get. rewrite Hapi.
  unfold deleteMany. rewrite issue_up by exact Hup1. cbn [fst snd].
  match goal with
  | |- context [insertMany data ?w1] =>
      destruct (insertMany_up data docs w1 Hval Hup2) as (fs & log & E & _);
      rewrite E
  end.
  cbn [fst snd store faults oplog sent api written app send ret].
  exists fs, log. now rewrite Hapi.
Qed.

(** C8.  When the third-party API answers with a data set that passes the
    schema and the store lets the two operations through, [initializeDB]
    clears the collection and inserts the fetched elements: the collection
    is then exactly the fetched data set, element for element and in
    order, whatever it held before; the reply is 200 with [totalRecords]
    the number of inserted records.  Seeding again after a second fetch
    leaves only the records of that second fetch. *)
Theorem initializeDB_replaces_store (req : query) (w : world)
        (data : list rawdoc) (docs : list Transaction) :
  api w = FetchOk data ->
  validate_all data = Some docs ->
  store_up 2 (faults w) ->
  let w1 := snd (initializeDB req express_res w) in
  fst (initializeDB req express_res w) = Returned undefined
  /\ store w1 = docs
  /\ Forall2 stores_as data docs
  /\ sent w1 = sent w ++ [mkResponse 200 (seeded (length data))]
  /\ (forall data2 docs2,
         validate_all data2 = Some docs2 ->
         store_up 2 (faults w1) ->
         store (snd (initializeDB req express_res (refetch w1 (FetchOk data2))))
         = docs2).
Proof.
  intros Hapi Hval Hup w1. subst w1.
  pose proof (validate_all_stores_as data docs Hval) as Hall.
  destruct (initializeDB_seeds req w data docs Hapi Hval Hup) as (fs & log & E).
  rewrite E. cbn [fst snd].
  refine (conj eq_refl (conj eq_refl (conj Hall (conj _ _)))).
  - cbn [sent]. now rewrite (Forall2_length Hall).
  - intros data2 docs2 Hval2 Hup2.
    set (w1 := refetch _ _).
    destruct (initializeDB_seeds req w1 data2 docs2 eq_refl Hval2 Hup2)
      as (fs2 & log2 & E2).
    now rewrite E2.
Qed.

(** C9.  A seed that fails is answered with status 500 and
    [{ message: 'Failed to initialize database', error }], and nothing is
    put back.  When the fetch itself fails, the collection is what it was
    and [error] is the message of the fetch.  When the clear has gone
    through and the data set fails validation, nothing is inserted: the
    collection is left empty and [error] is a validation message.  When
    the clear has gone through and the store fails while inserting, the
    collection holds the documents written before the failure, none of
    the earlier ones, and [error] is the message of the store. *)
Theorem initializeDB_failure_keeps_what_was_written
        (req : query) (w : world) (reported : string -> Prop)
        (left_behind : list Transaction) :
  seed_failure w reported left_behind ->
  exists w' e,
    initializeDB req express_res w = (Returned undefined, w')
    /\ reported e
    /\ store w' = left_behind
    /\ sent w' = sent w ++ [mkResponse 500 (seed_failed e)].
Proof.
  intros [e' Hapi | data Hapi Hup Hval
          | data docs e' rest Hapi Hup Hval Hdocs Hnext];
    unfold initializeDB, try_catch, bind, axios_get; rewrite Hapi.
  - do 2 eexists. split; [reflexivity | split; [reflexivity | split; reflexivity]].
  - unfold deleteMany. rewrite issue_up by exact Hup. cbn [fst snd].
    pose proof (validate_batch_all data) as Hb. rewrite Hval in Hb.
    destruct Hb as (e & Hb & He).
    unfold insertMany. rewrite Hb.
    do 2 eexists. split; [reflexivity | split; [exact He | split; reflexivity]].
  - unfold deleteMany. rewrite issue_up by exact Hup. cbn [fst snd].
    pose proof (validate_batch_all data) as Hb. rewrite Hval in Hb.
    unfold insertMany. rewrite Hb.
    destruct docs as [| t docs]; [contradiction |].
    unfold issue_torn at 1. cbn [faults]. rewrite Hnext.
    do 2 eexists. split; [reflexivity | split; [reflexivity | split; reflexivity]].
Qed.

End SeedFacts.

(* ================================================================= *)
(** ** A month that is not a number *)

Module NaNMonth.
Import Model Mongo Express Controller Spec RunFacts MonthPipeline ListFacts.

Lemma not_a_number_valid (m : string) :
  JS.truthy_string m = true -> JS.ToNumber m = JS.NaN ->
  invalid_month (Some m) = false.
Proof. intros Ht Hn. unfold invalid_month. now rewrite Ht, Hn. Qed.

Lemma list_selects_nan (r : JS.regex) (s : string) (st : list Transaction) :
  filter (list_selects JS.NaN r s) st = [].
Proof. induction st as [| t st IH]; [reflexivity | exact IH]. Qed.

(** C10, as the code behaves.  A [month] that is present but does not read
    as a number (its conversion is [NaN]) passes the validation of every
    endpoint: both comparisons are false.  The list, statistics, bar-chart
    and pie-chart views then run their query, which selects nothing, and
    reply 200 with empty results.  The combined view passes validation and
    runs the three queries too, but replies 500: its sub-calls receive
    [null] as response object. *)
Theorem non_numeric_month_is_not_rejected (m : string) (w : world) :
  JS.truthy_string m = true ->
  JS.ToNumber m = JS.NaN ->
  store_up 2 (faults w) ->
  invalid_month (Some m) = false
  /\ (exists w',
         listTransactions (month_only (Some m)) express_res w = (Returned undefined, w')
         /\ sent w'
            = sent w ++ [mkResponse 200
                           (TransactionsPage []
                              (mkPagination (JS.of_Z 0) (JS.of_Z 1) (JS.of_Z 10)
                                            (JS.of_Z 0)))]
         /\ length (oplog w') = (length (oplog w) + 2)%nat)
  /\ getStatistics (month_only (Some m)) express_res w
     = (Returned undefined,
        replied (logged w (aggregate_op (monthPipeline (Some m) [f_price; f_sold]))) 200
                (Statistics (JS.of_Z 0) 0 0))
  /\ getBarChart (month_only (Some m)) express_res w
     = (Returned undefined,
        replied (logged w (aggregate_op (monthPipeline (Some m) [f_price; f_sold]))) 200
                (RangeCounts (combine bucket_labels (repeat 0 10))))
  /\ getPieChart (month_only (Some m)) express_res w
     = (Returned undefined,
        replied (logged w (aggregate_op (monthPipeline (Some m) [f_category]))) 200
                (CategoryCounts []))
  /\ (exists w',
         getCombinedData (month_only (Some m)) express_res w = (Returned undefined, w')
         /\ sent w' = sent w ++ [combined_failure]
         /\ length (oplog w') = (length (oplog w) + 3)%nat).
Proof.
  intros Ht Hn Hup.
  pose proof (not_a_number_valid m Ht Hn) as Hv.
  destruct (SeedFacts.store_up_2 _ Hup) as [Hup1 _].
  refine (conj Hv (conj _ (conj _ (conj _ (conj _ _))))).
  - eexists. split; [| split].
    + apply (listTransactions_runs (month_only (Some m)) m 1 10 [] w);
        try reflexivity; try assumption; lia.
    + cbn [sent replied logged]. rewrite Hn, list_selects_nan. reflexivity.
    + cbn [oplog replied logged]. rewrite !length_app. cbn [length]. lia.
  - apply (getStatistics_answers (Some m) w [] Hv Hup1).
    now apply monthPipeline_nan.
  - apply (getBarChart_answers (Some m) w [] Hv Hup1).
    now apply monthPipeline_nan.
  - apply (getPieChart_answers (Some m) w [] Hv Hup1).
    now apply monthPipeline_nan.
  - destruct (Combined.getCombinedData_fails (Some m) w Hv)
      as (w' & E & Hsent & _ & Hlog).
    exists w'. split; [exact E | split; [exact Hsent |]].
    rewrite Hlog, length_app. reflexivity.
Qed.

End NaNMonth.

(* ================================================================= *)
(** ** The statements on the sample data *)

Module OnSamples.
Import Model Mongo Express Controller Spec Sample.

Lemma getCombinedData_valid_month_witness :
  denotes_month "3" 3
  /\ exists w',
       getCombinedData (for_month "3") express_res example_world
       = (Returned undefined, w')
       /\ sent w' = [combined_failure]
       /\ store w' = [television; cable].
Proof.
  assert (H : denotes_month "3" 3) by (split; [reflexivity | lia]).
  split; [exact H |].
  exact (Combined.getCombinedData_valid_month_answers_500 "3" 3 example_world H).
Defined.

Lemma getStatistics_totals_witness :
  (denotes_month "3" 3 /\ store_up 1 (faults example_world))
  /\ exists unsold,
       getStatistics (for_month "3") express_res example_world
       = (Returned undefined,
          replied (logged example_world
                          (aggregate_op (monthPipeline (Some "3"%string) [f_price; f_sold])))
                  200 (Statistics (sum64 [television]) 1 unsold))
       /\ 1 + unsold = 2
       /\ (Forall whole_price [television] ->
           (sum_prices [television] <= inject_Z (2 ^ 53))%Q ->
           exists amount,
             sum64 [television] = JS.Num amount
             /\ (amount == sum_prices [television])%Q).
Proof.
  assert (H : denotes_month "3" 3) by (split; [reflexivity | lia]).
  assert (Hup : store_up 1 (faults example_world)) by exact I.
  split; [split; assumption |].
  exact (StatisticsFacts.getStatistics_totals_in_doubles "3" 3 example_world H Hup).
Defined.

(** Two sold March records priced 0.1 and 0.2: the total [getStatistics]
    reports is 0.30000000000000004, the double sum, which is not the sum
    of the two prices. *)
Lemma getStatistics_rounds_the_sum :
  getStatistics (for_month "3") express_res (holding [sweet; gum])
  = (Returned undefined,
     replied (logged (holding [sweet; gum])
                     (aggregate_op (monthPipeline (Some "3"%string) [f_price; f_sold])))
             200 (Statistics (JS.Num (1351079888211149 # 4503599627370496)) 2 0))
  /\ filter sold (of_month 3 [sweet; gum]) = [sweet; gum]
  /\ ~ (1351079888211149 # 4503599627370496 == sum_prices [sweet; gum])%Q.
Proof.
  split; [vm_compute; reflexivity | split; [reflexivity |]].
  intros H. vm_compute in H. discriminate H.
Qed.

Lemma getBarChart_counts_witness :
  (denotes_month "3" 3 /\ store_up 1 (faults example_world))
  /\ getBarChart (for_month "3") express_res example_world
     = (Returned undefined,
        replied (logged example_world
                        (aggregate_op (monthPipeline (Some "3"%string) [f_price; f_sold])))
                200
                (RangeCounts
                   [ ("0-100", 0); ("101-200", 1); ("201-300", 0); ("301-400", 0);
                     ("401-500", 0); ("501-600", 0); ("601-700", 0); ("701-800", 0);
                     ("801-900", 0); ("901-above", 0) ]%string)).
Proof.
  assert (H : denotes_month "3" 3) by (split; [reflexivity | lia]).
  assert (Hup : store_up 1 (faults example_world)) by exact I.
  split; [split; assumption |].
  exact (proj1 (BarChartFacts.getBarChart_counts "3" 3 example_world H Hup)).
Defined.

(** C2 as stated fails: a sold March record priced 100.5 lies in no bucket,
    so every count is zero although the month has one sold record. *)
Lemma getBarChart_misses_price_between_buckets :
  getBarChart (for_month "3") express_res (holding [gadget])
  = (Returned undefined,
     replied (logged (holding [gadget])
                     (aggregate_op (monthPipeline (Some "3"%string) [f_price; f_sold])))
             200
             (RangeCounts
                [ ("0-100", 0); ("101-200", 0); ("201-300", 0); ("301-400", 0);
                  ("401-500", 0); ("501-600", 0); ("601-700", 0); ("701-800", 0);
                  ("801-900", 0); ("901-above", 0) ]%string))
  /\ length (filter sold (of_month 3 [gadget])) = 1%nat
  /\ (0 <= price gadget)%Q
  /\ covered (price gadget) = false.
Proof. repeat split; try reflexivity. discriminate. Qed.

Lemma getPieChart_counts_witness :
  (denotes_month "3" 3 /\ store_up 1 (faults example_world)
   /\ (forall c, In c (map category_label (of_month 3 (store example_world))) ->
                 inherited c = false))
  /\ exists entries : list (string * Z),
       getPieChart (for_month "3") express_res example_world
       = (Returned undefined,
          replied (logged example_world
                          (aggregate_op (monthPipeline (Some "3"%string) [f_category])))
                  200 (CategoryCounts (map as_number entries)))
       /\ Permutation (map fst entries) ["Electronics"; "Uncategorized"]%string
       /\ (forall c n, In (c, n) entries ->
                       n = occurrences c ["Electronics"; "Uncategorized"]%string)
       /\ total (map snd entries) = 2
       /\ ((forall c, In c ["Electronics"; "Uncategorized"]%string ->
                      JS.array_index c = None) ->
           map fst entries = ["Electronics"; "Uncategorized"]%string).
Proof.
  assert (H : denotes_month "3" 3) by (split; [reflexivity | lia]).
  assert (Hup : store_up 1 (faults example_world)) by exact I.
  assert (Hplain : forall c, In c (map category_label (of_month 3 (store example_world))) ->
                             inherited c = false).
  { simpl. intros c [<- | [<- | []]]; reflexivity. }
  split; [exact (conj H (conj Hup Hplain)) |].
  exact (PieChartFacts.getPieChart_counts "3" 3 example_world H Hup Hplain).
Defined.

(** C7 as stated fails: with the categories "Books", "1" and "constructor"
    seen in that order, the entry of "1" comes first, and the entry of
    "constructor" is not a count: the three entries do not add up to the
    three records. *)
Lemma getPieChart_reorders_and_miscounts :
  getPieChart (for_month "3") express_res (holding [novel; ticket; brick])
  = (Returned undefined,
     replied (logged (holding [novel; ticket; brick])
                     (aggregate_op (monthPipeline (Some "3"%string) [f_category])))
             200
             (CategoryCounts
                [ ("1", JS.VNum (JS.of_Z 1));
                  ("Books", JS.VNum (JS.of_Z 1));
                  ("constructor", JS.VStr "function Object() { [native code] }1") ]%string))
  /\ first_occurrences (map category_label (of_month 3 [novel; ticket; brick]))
     = ["Books"; "1"; "constructor"]%string
  /\ length (of_month 3 [novel; ticket; brick]) = 3%nat.
Proof. repeat split; reflexivity. Qed.

Lemma listTransactions_totalRecords_witness :
  (month (mkQuery (Some "3") None (Some "2") (Some "2"))%string = Some "3"%string
   /\ denotes_month "3" 3
   /\ JS.RegExp_i "" = Some []
   /\ JS.parseInt10 "2" = JS.of_Z 2 /\ 1 <= 2
   /\ store_up 2 (faults (holding [television; cable; gadget])))
  /\ length (filter (list_selects (JS.of_Z 3) [] "") [television; cable; gadget]) = 3%nat
  /\ exists w',
       listTransactions (mkQuery (Some "3") None (Some "2") (Some "2"))%string
                        express_res (holding [television; cable; gadget])
       = (Returned undefined, w')
       /\ sent w'
          = [mkResponse 200
               (TransactionsPage [list_view gadget]
                  (mkPagination (JS.of_Z 1) (JS.of_Z 2) (JS.of_Z 2) (JS.of_Z 1)))].
Proof.
  assert (H : denotes_month "3" 3) by (split; [reflexivity | lia]).
  assert (Hup : store_up 2 (faults (holding [television; cable; gadget]))) by exact I.
  assert (H2 : 1 <= 2) by lia.
  split; [repeat split; try assumption; reflexivity |].
  split; [reflexivity |].
  exact (PagingFacts.listTransactions_totalRecords_omits_skipped
           (mkQuery (Some "3") None (Some "2") (Some "2"))%string "3" 3 2 2 []
           (holding [television; cable; gadget])
           eq_refl H eq_refl eq_refl H2 eq_refl H2 Hup).
Defined.

Lemma listTransactions_plain_search_witness :
  (denotes_month "3" 3 /\ plain_text "usb"
   /\ JS.parseInt10 "1" = JS.of_Z 1 /\ JS.parseInt10 "10" = JS.of_Z 10
   /\ store_up 2 (faults example_world))
  /\ exists (selects : Transaction -> bool) (w' : world) (pagination : Pagination),
       (forall t, selects t = true <-> search_selects 3 "usb" t)
       /\ listTransactions (mkQuery (Some "3") (Some "usb") None None)%string
                           express_res example_world
          = (Returned undefined, w')
       /\ sent w'
          = [mkResponse 200
               (TransactionsPage
                  (map list_view (firstn 10 (filter selects [television; cable])))
                  pagination)].
Proof.
  assert (H : denotes_month "3" 3) by (split; [reflexivity | lia]).
  assert (Hup : store_up 2 (faults example_world)) by exact I.
  assert (Hs : plain_text "usb") by reflexivity.
  assert (H1 : 1 <= 1) by lia. assert (H10 : 1 <= 10) by lia.
  split; [repeat split; try assumption; reflexivity |].
  exact (PagingFacts.listTransactions_plain_search_selects
           (mkQuery (Some "3") (Some "usb") None None)%string "3" 3 1 10
           example_world eq_refl H Hs eq_refl H1 eq_refl H10 Hup).
Defined.

(** C5 as stated fails: the search text "." is a pattern that matches any
    character, so the television is selected although neither its title
    nor its (absent) description contains a dot and "." is not a number. *)
Lemma listTransactions_dot_selects_everything :
  (exists pagination,
      sent (snd (listTransactions (mkQuery (Some "3") (Some ".") None None)%string
                                  express_res (holding [television])))
      = [mkResponse 200 (TransactionsPage [list_view television] pagination)])
  /\ ~ search_selects 3 "." television.
Proof.
  split.
  - eexists. reflexivity.
  - intros [_ [Ht | [(d & Hd & _) | (q & Hq & _)]]].
    + destruct Ht as (before & after & E).
      assert (Hin : In "."%char (map JS.lower (JS.chars (title television)))).
      { rewrite E. apply in_or_app. right. now left. }
      cbn in Hin. intuition discriminate.
    + discriminate Hd.
    + discriminate Hq.
Qed.

Lemma initializeDB_replaces_store_witness :
  (api (seeding [television; cable] (FetchOk [shirt_raw; ring_raw]))
   = FetchOk [shirt_raw; ring_raw]
   /\ validate_all [shirt_raw; ring_raw] = Some [shirt; ring]
   /\ store_up 2 (faults (seeding [television; cable] (FetchOk [shirt_raw; ring_raw]))))
  /\ store (snd (initializeDB no_params express_res
                              (seeding [television; cable] (FetchOk [shirt_raw; ring_raw]))))
     = [shirt; ring]
  /\ sent (snd (initializeDB no_params express_res
                             (seeding [television; cable] (FetchOk [shirt_raw; ring_raw]))))
     = [mkResponse 200 (seeded 2)].
Proof.
  assert (Hup : store_up 2 (faults (seeding [television; cable]
                                            (FetchOk [shirt_raw; ring_raw]))))
    by exact I.
  split; [repeat split; try assumption; reflexivity |].
  pose proof (SeedFacts.initializeDB_replaces_store
                no_params (seeding [television; cable] (FetchOk [shirt_raw; ring_raw]))
                [shirt_raw; ring_raw] [shirt; ring] eq_refl eq_refl Hup) as W.
  split; [exact (proj1 (proj2 W)) | exact (proj1 (proj2 (proj2 (proj2 W))))].
Defined.

Lemma initializeDB_failure_witness :
  (seed_failure (seeding [television; cable] (FetchOk [shirt_raw; priceless_raw]))
                validation_failure []
   /\ seed_failure example_world (eq "connect ECONNREFUSED"%string) [television; cable]
   /\ seed_failure (interrupted [television; cable] [shirt_raw; ring_raw]
                                "connection closed" 1)
                   (eq "connection closed"%string) [shirt])
  /\ (exists w' e,
         initializeDB no_params express_res
                      (seeding [television; cable] (FetchOk [shirt_raw; priceless_raw]))
         = (Returned undefined, w')
         /\ validation_failure e
         /\ store w' = []
         /\ sent w' = [mkResponse 500 (seed_failed e)])
  /\ (exists w' e,
         initializeDB no_params express_res example_world = (Returned undefined, w')
         /\ "connect ECONNREFUSED"%string = e
         /\ store w' = [television; cable]
         /\ sent w' = [mkResponse 500 (seed_failed e)])
  /\ (exists w' e,
         initializeDB no_params express_res
                      (interrupted [television; cable] [shirt_raw; ring_raw]
                                   "connection closed" 1)
         = (Returned undefined, w')
         /\ "connection closed"%string = e
         /\ store w' = [shirt]
         /\ sent w' = [mkResponse 500 (seed_failed e)]).
Proof.
  assert (Hinvalid : seed_failure
                       (seeding [television; cable] (FetchOk [shirt_raw; priceless_raw]))
                       validation_failure []).
  { apply (insert_invalid _ [shirt_raw; priceless_raw]); [reflexivity | exact I | reflexivity]. }
  assert (Hfetch : seed_failure example_world (eq "connect ECONNREFUSED"%string)
                                [television; cable]).
  { apply (fetch_fails example_world). reflexivity. }
  assert (Htorn : seed_failure (interrupted [television; cable] [shirt_raw; ring_raw]
                                            "connection closed" 1)
                               (eq "connection closed"%string) [shirt]).
  { assert (Hdocs : [shirt; ring] <> []) by discriminate.
    exact (insert_refused (interrupted [television; cable] [shirt_raw; ring_raw]
                                       "connection closed" 1)
                          [shirt_raw; ring_raw] [shirt; ring] "connection closed" []
                          eq_refl I eq_refl Hdocs eq_refl). }
  split; [exact (conj Hinvalid (conj Hfetch Htorn)) |].
  refine (conj _ (conj _ _)).
  - exact (SeedFacts.initializeDB_failure_keeps_what_was_written no_params _ _ _ Hinvalid).
  - exact (SeedFacts.initializeDB_failure_keeps_what_was_written no_params _ _ _ Hfetch).
  - exact (SeedFacts.initializeDB_failure_keeps_what_was_written no_params _ _ _ Htorn).
Defined.

(** The store clears the collection, writes the first of two fetched
    documents and then fails: the seed answers 500 and the collection is
    not empty, it holds the document that was written. *)
Lemma initializeDB_failure_leaves_written_documents :
  let w := interrupted [television; cable] [shirt_raw; ring_raw] "connection closed" 1 in
  let w' := snd (initializeDB no_params express_res w) in
  validate_all [shirt_raw; ring_raw] = Some [shirt; ring]
  /\ oplog w' = [deleteMany_op; insertMany_op [shirt; ring]]
  /\ sent w' = [mkResponse 500 (seed_failed "connection closed")]
  /\ store w' = [shirt]
  /\ store w' <> [].
Proof.
  cbv zeta. refine (conj eq_refl (conj eq_refl (conj eq_refl (conj eq_refl _)))).
  discriminate.
Qed.

Lemma non_numeric_month_witness :
  (JS.truthy_string "abc" = true /\ JS.ToNumber "abc" = JS.NaN
   /\ store_up 2 (faults example_world))
  /\ invalid_month (Some "abc"%string) = false
  /\ getStatistics (for_month "abc") express_res example_world
     = (Returned undefined,
        replied (logged example_world
                        (aggregate_op (monthPipeline (Some "abc"%string) [f_price; f_sold])))
                200 (Statistics (JS.of_Z 0) 0 0))
  /\ exists w',
       getCombinedData (for_month "abc") express_res example_world
       = (Returned undefined, w')
       /\ sent w' = [combined_failure]
       /\ length (oplog w') = 3%nat.
Proof.
  assert (Hup : store_up 2 (faults example_world)) by exact I.
  split; [repeat split; try assumption; reflexivity |].
  pose proof (NaNMonth.non_numeric_month_is_not_rejected
                "abc" example_world eq_refl eq_refl Hup) as W.
  split; [exact (proj1 W) |].
  split; [exact (proj1 (proj2 (proj2 W))) |].
  exact (proj2 (proj2 (proj2 (proj2 (proj2 W))))).
Defined.

End OnSamples.

(* ================================================================= *)
(** ** The collection under the read endpoints *)

Module StoreInvariant.
Import Model Mongo Express Controller Spec Behaviour.

Lemma keeps_ret {A} (a : A) : keeps_store (ret a).
Proof. intros w. reflexivity. Qed.

Lemma keeps_throw {A} (e : string) : keeps_store (@throw A e).
Proof. intros w. reflexivity. Qed.

Lemma keeps_unmodelled {A} : keeps_store (@unmodelled A).
Proof. intros w. reflexivity. Qed.

Lemma keeps_send (res : resobj) (code : Z) (b : body) : keeps_store (send res code b).
Proof. intros w. now destruct res. Qed.

Lemma keeps_property (v : value) (name : string) : keeps_store (property v name).
Proof. intros w. now destruct v. Qed.

Lemma keeps_aggregate (p : pipeline) : keeps_store (aggregate p).
Proof.
  intros w. unfold aggregate, issue, issue_torn.
  destruct (faults w) as [| [e |] rest];
    destruct (run p (map stored (store w))); reflexivity.
Qed.

Lemma keeps_bind {A B} (c : M A) (k : A -> M B) :
  keeps_store c -> (forall a, keeps_store (k a)) -> keeps_store (bind c k).
Proof.
  intros Hc Hk w. unfold bind. specialize (Hc w).
  destruct (c w) as [[a | e |] w1]; cbn [snd] in *; [| assumption | assumption].
  now rewrite Hk.
Qed.

Lemma keeps_try_catch {A} (c : M A) (h : string -> M A) :
  keeps_store c -> (forall e, keeps_store (h e)) -> keeps_store (try_catch c h).
Proof.
  intros Hc Hh w. unfold try_catch. specialize (Hc w).
  destruct (c w) as [[a | e |] w1]; cbn [snd] in *; [assumption | | assumption].
  now rewrite Hh.
Qed.

Lemma keeps_Promise_all3 {A} (p1 p2 p3 : M A) :
  keeps_store p1 -> keeps_store p2 -> keeps_store p3 ->
  keeps_store (Promise_all3 p1 p2 p3).
Proof.
  intros H1 H2 H3 w. unfold Promise_all3.
  specialize (H1 w). destruct (p1 w) as [o1 w1].
  specialize (H2 w1). destruct (p2 w1) as [o2 w2].
  specialize (H3 w2). destruct (p3 w2) as [o3 w3]. cbn [snd] in *.
  assert (E : store w3 = store w) by congruence.
  destruct o1, o2, o3; exact E.
Qed.

Ltac keeps :=
  repeat first
    [ apply keeps_ret | apply keeps_throw | apply keeps_unmodelled
    | apply keeps_send | apply keeps_property | apply keeps_aggregate
    | apply keeps_try_catch | apply keeps_bind
    | match goal with
      | |- forall _, _ => intro
      | |- keeps_store (if ?b then _ else _) => destruct b
      | |- keeps_store (match ?o with Some _ => _ | None => _ end) => destruct o
      | |- keeps_store (let '(_, _) := ?x in _) => destruct x as [[? ?] ?]
      end ].

Lemma getStatistics_keeps_store (req : query) (res : resobj) :
  keeps_store (getStatistics req res).
Proof. unfold getStatistics. cbv zeta. keeps. Qed.

Lemma getBarChart_keeps_store (req : query) (res : resobj) :
  keeps_store (getBarChart req res).
Proof. unfold getBarChart. cbv zeta. keeps. Qed.

Lemma getPieChart_keeps_store (req : query) (res : resobj) :
  keeps_store (getPieChart req res).
Proof. unfold getPieChart. cbv zeta. keeps. Qed.

Lemma listTransactions_keeps_store (req : query) (res : resobj) :
  keeps_store (listTransactions req res).
Proof. unfold listTransactions. cbv zeta. keeps. Qed.

Lemma getCombinedData_keeps_store (req : query) (res : resobj) :
  keeps_store (getCombinedData req res).
Proof.
  unfold getCombinedData. cbv zeta.
  apply keeps_try_catch; [| keeps].
  destruct (invalid_month (month req)); [keeps |].
  apply keeps_bind; [| keeps].
  apply keeps_Promise_all3;
    [ apply getStatistics_keeps_store | apply getBarChart_keeps_store
    | apply getPieChart_keeps_store ].
Qed.

(** X1.  The five endpoints that take a month (list, statistics, bar chart,
    pie chart, combined data) never change the collection: whatever the
    request, whatever response object they are given, whether the store
    answers or fails, the collection afterwards is the collection before. *)
Theorem month_endpoints_keep_the_store
        (h : query -> resobj -> M value) (req : query) (res : resobj) (w : world) :
  In h month_endpoints ->
  store (snd (h req res w)) = store w.
Proof.
  unfold month_endpoints. cbn [In].
  intros [<- | [<- | [<- | [<- | [<- | []]]]]].
  - apply listTransactions_keeps_store.
  - apply getStatistics_keeps_store.
  - apply getBarChart_keeps_store.
  - apply getPieChart_keeps_store.
  - apply getCombinedData_keeps_store.
Qed.

End StoreInvariant.

(* ================================================================= *)
(** ** One response per request *)

Module Responses.
Import Model Mongo Express Controller Spec Behaviour RunFacts.

Ltac one_answer :=
  do 3 eexists; split; [reflexivity |]; cbn [sent replied status];
  split; [first [reflexivity | congruence] | cbn; tauto].

Ltac view_once p w :=
  unfold try_catch, bind;
  destruct (aggregate_cases p w) as (w1 & (_ & Hsent & _) & [[ds E] | [e E]]);
  rewrite E; cbn [send ret]; rewrite <- Hsent; one_answer.

Lemma getStatistics_once (req : query) (w : world) :
  answers_once (getStatistics req express_res) w.
Proof.
  destruct (invalid_month (month req)) eqn:H.
  - unfold answers_once. rewrite (Validation.getStatistics_rejects req w H). one_answer.
  - unfold answers_once, getStatistics. cbv zeta. rewrite H.
    view_once (monthPipeline (month req) [f_price; f_sold]) w.
Qed.

Lemma getBarChart_once (req : query) (w : world) :
  answers_once (getBarChart req express_res) w.
Proof.
  destruct (invalid_month (month req)) eqn:H.
  - unfold answers_once. rewrite (Validation.getBarChart_rejects req w H). one_answer.
  - unfold answers_once, getBarChart. cbv zeta. rewrite H.
    view_once (monthPipeline (month req) [f_price; f_sold]) w.
Qed.

Lemma getPieChart_once (req : query) (w : world) :
  answers_once (getPieChart req express_res) w.
Proof.
  destruct (invalid_month (month req)) eqn:H.
  - unfold answers_once. rewrite (Validation.getPieChart_rejects req w H). one_answer.
  - unfold answers_once, getPieChart. cbv zeta. rewrite H.
    view_once (monthPipeline (month req) [f_category]) w.
Qed.

Lemma getCombinedData_once (req : query) (w : world) :
  answers_once (getCombinedData req express_res) w.
Proof.
  destruct (invalid_month (month req)) eqn:H.
  - unfold answers_once. rewrite (Validation.getCombinedData_rejects req w H). one_answer.
  - change (getCombinedData req express_res)
      with (getCombinedData (month_only (month req)) express_res).
    destruct (Combined.getCombinedData_fails (month req) w H)
      as (w' & E & Hsent & _).
    exists undefined, w', combined_failure.
    split; [exact E | split; [exact Hsent | cbn; tauto]].
Qed.

Lemma initializeDB_once (req : query) (w : world) :
  answers_once (initializeDB req express_res) w.
Proof.
  unfold answers_once, initializeDB, try_catch, bind, axios_get.
  destruct (api w) as [data | e]; [| one_answer].
  unfold deleteMany, insertMany, issue, issue_torn.
  destruct (faults w) as [| [e |] rest]; cbn [store faults oplog sent api].
  - destruct (validate_batch data) as [e | [| t docs]]; cbn [faults]; one_answer.
  - one_answer.
  - destruct (validate_batch data) as [e | [| t docs]]; cbn [faults];
      [one_answer | one_answer |].
    destruct rest as [| [e |] rest]; one_answer.
Qed.

(** X2.  [initializeDB], [getStatistics], [getBarChart], [getPieChart] and
    [getCombinedData], called with the response object of a request, always
    return normally and write exactly one response, with status 200, 400 or
    500: whatever the query string, the seed source and the store do, no
    exception escapes the handler and nothing is sent twice. *)
Theorem handlers_answer_exactly_once
        (h : query -> resobj -> M value) (req : query) (w : world) :
  In h [initializeDB; getStatistics; getBarChart; getPieChart; getCombinedData] ->
  answers_once (h req express_res) w.
Proof.
  cbn [In]. intros [<- | [<- | [<- | [<- | [<- | []]]]]].
  - apply initializeDB_once.
  - apply getStatistics_once.
  - apply getBarChart_once.
  - apply getPieChart_once.
  - apply getCombinedData_once.
Qed.

(** X3.  [listTransactions] does the same whenever the search text is a
    pattern of the modelled fragment: it returns normally with exactly one
    response (200, 400 or 500), also when [page] or [perPage] make the
    store refuse the pipeline or when either of its two aggregations
    fails. *)
Theorem listTransactions_answers_exactly_once
        (req : query) (r : JS.regex) (w : world) :
  JS.RegExp_i (default "" (search req)) = Some r ->
  answers_once (listTransactions req express_res) w.
Proof.
  intros Hre. destruct (invalid_month (month req)) eqn:H.
  - unfold answers_once. rewrite (Validation.listTransactions_rejects req w H). one_answer.
  - unfold answers_once, listTransactions. cbv zeta. rewrite H, Hre.
    unfold try_catch, bind.
    match goal with
    | |- context [aggregate ?p w] =>
        destruct (aggregate_cases p w) as (w1 & (_ & Hsent & _) & [[ds E] | [e E]]);
        rewrite E
    end; [| cbn [send ret]; rewrite <- Hsent; one_answer].
    match goal with
    | |- context [aggregate ?p w1] =>
        destruct (aggregate_cases p w1) as (w2 & (_ & Hsent2 & _) & [[ds2 E2] | [e2 E2]]);
        rewrite E2
    end; cbn [send ret]; rewrite <- Hsent, <- Hsent2; one_answer.
Qed.

(** X4.  Given [null] as response object, none of the three view handlers
    can answer: whatever the month (valid or not) and whatever the store
    does, the call ends with the TypeError raised on [null], having
    written no response and left the collection alone. *)
Theorem view_handlers_throw_on_null
        (h : query -> resobj -> M value) (req : query) (w : world) :
  In h [getStatistics; getBarChart; getPieChart] ->
  exists w',
    h req null w = (Thrown type_error_null, w')
    /\ sent w' = sent w
    /\ store w' = store w.
Proof.
  cbn [In]. intros [<- | [<- | [<- | []]]];
    destruct (invalid_month (month req)) eqn:H.
  - exists w. unfold getStatistics, try_catch. cbv zeta. now rewrite H.
  - destruct (Combined.getStatistics_null (month req) w H) as (w' & E & S & T & _).
    exists w'. now repeat split.
  - exists w. unfold getBarChart, try_catch. cbv zeta. now rewrite H.
  - destruct (Combined.getBarChart_null (month req) w H) as (w' & E & S & T & _).
    exists w'. now repeat split.
  - exists w. unfold getPieChart, try_catch. cbv zeta. now rewrite H.
  - destruct (Combined.getPieChart_null (month req) w H) as (w' & E & S & T & _).
    exists w'. now repeat split.
Qed.

End Responses.

(* ================================================================= *)
(** ** When the store fails or refuses *)

Module Failures.
Import Model Mongo Express Controller Spec Behaviour RunFacts ListFacts.

Lemma aggregate_down (p : pipeline) (w : world) (e : string)
      (rest : list (option string)) :
  faults w = Some e :: rest ->
  aggregate p w
  = (Thrown e,
     mkWorld (store w) rest (oplog w ++ [aggregate_op p]) (sent w) (api w) (written w)).
Proof. intros H. unfold aggregate, issue, issue_torn. now rewrite H. Qed.

Ltac view_fails H Hf :=
  unfold answers_with, try_catch, bind; cbv zeta; rewrite H;
  rewrite (aggregate_down _ _ _ _ Hf);
  eexists; split; [reflexivity | split; reflexivity].

(** X5.  When the store fails the aggregation of a view whose month has
    passed validation, the view answers 500 with its own message and the
    store's error message: 'Failed to fetch statistics', 'Failed to fetch
    bar chart data', 'Failed to fetch pie chart data'; the list view does
    so with 'Failed to fetch transactions' when the page query fails. *)
Theorem views_report_store_failure
        (req : query) (w : world) (e : string) (rest : list (option string)) :
  invalid_month (month req) = false ->
  faults w = Some e :: rest ->
  answers_with (getStatistics req express_res) w
               (failure "Failed to fetch statistics" e)
  /\ answers_with (getBarChart req express_res) w
                  (failure "Failed to fetch bar chart data" e)
  /\ answers_with (getPieChart req express_res) w
                  (failure "Failed to fetch pie chart data" e)
  /\ (JS.RegExp_i (default "" (search req)) <> None ->
      answers_with (listTransactions req express_res) w
                   (failure "Failed to fetch transactions" e)).
Proof.
  intros H Hf. refine (conj _ (conj _ (conj _ _))).
  - unfold getStatistics. view_fails H Hf.
  - unfold getBarChart. view_fails H Hf.
  - unfold getPieChart. view_fails H Hf.
  - intros Hre. destruct (JS.RegExp_i (default "" (search req))) as [r |] eqn:E;
      [| contradiction].
    unfold listTransactions, answers_with, try_catch, bind. cbv zeta.
    rewrite H, E, (aggregate_down _ _ _ _ Hf).
    eexists; split; [reflexivity | split; reflexivity].
Qed.

(** X6.  When the page query of the list view goes through but the count
    query that follows fails, no page is returned: the only response is
    the 500 'Failed to fetch transactions' with the store's error. *)
Theorem listTransactions_drops_page_when_count_fails
        (req : query) (m : string) (k p : Z) (r : JS.regex) (w : world)
        (e : string) (rest : list (option string)) :
  month req = Some m -> invalid_month (Some m) = false ->
  JS.RegExp_i (default "" (search req)) = Some r ->
  JS.parseInt10 (default "1" (page req)) = JS.of_Z k -> 1 <= k ->
  JS.parseInt10 (default "10" (perPage req)) = JS.of_Z p -> 1 <= p ->
  faults w = None :: Some e :: rest ->
  answers_with (listTransactions req express_res) w
               (failure "Failed to fetch transactions" e).
Proof.
  intros Hq Hm Hre Hk Hk1 Hp Hp1 Hf.
  pose proof (valid_month_truthy m Hm) as Ht.
  assert (Hsk : 0 <= (k - 1) * p) by nia.
  assert (Hup1 : store_up 1 (faults w)) by (rewrite Hf; exact I).
  unfold listTransactions, answers_with, try_catch, bind. cbv zeta.
  rewrite Hq, Hm, Hk, Hp, Hre.
  rewrite (or_else_of_Z p) by lia.
  rewrite NumFacts.sub_of_Z, NumFacts.mul_of_Z.
  rewrite (aggregate_up _ w _ Hup1
             (listPipeline_run m r (default "" (search req)) ((k - 1) * p) p _ Ht Hsk Hp1)).
  cbv beta iota.
  rewrite (aggregate_down _ _ e rest) by (cbn [faults logged]; now rewrite Hf).
  eexists; split; [reflexivity | split; reflexivity].
Qed.

(** X7.  A [perPage] that [parseInt] reads as [NaN] or as zero (such as
    "abc", "" or "0") is replaced by 10: the request is served exactly as
    the same request without [perPage]. *)
Theorem perPage_falls_back_to_ten
        (req : query) (pp : string) (res : resobj) (w : world) :
  JS.truthy (JS.parseInt10 pp) = false ->
  listTransactions (with_perPage req (Some pp)) res w
  = listTransactions (with_perPage req None) res w.
Proof.
  intros H.
  assert (E : JS.or_else (JS.parseInt10 pp) (JS.of_Z 10)
              = JS.or_else (JS.parseInt10 "10") (JS.of_Z 10)).
  { unfold JS.or_else. now rewrite H. }
  unfold listTransactions.
  cbn [with_perPage month search page perPage default]. cbv zeta.
  now rewrite E.
Qed.

(** The page size the list view uses is never [NaN] nor zero. *)
Lemma limit_truthy (pp : string) :
  JS.truthy (JS.or_else (JS.parseInt10 pp) (JS.of_Z 10)) = true.
Proof.
  unfold JS.or_else. now destruct (JS.truthy (JS.parseInt10 pp)) eqn:E.
Qed.

Lemma integral_negative (q : Q) (k : Z) :
  (q < 0)%Q -> integral (JS.Num q) = Some k -> k < 0.
Proof.
  intros Hq. unfold integral.
  destruct (Qeq_bool q (inject_Z (Qfloor q))); [| discriminate].
  intros [= <-]. pose proof (Qfloor_le q) as Hf.
  assert (H : (inject_Z (Qfloor q) < inject_Z 0)%Q)
    by (apply (Qle_lt_trans _ q); assumption).
  now rewrite <- Zlt_Qlt in H.
Qed.

(** The store refuses the page pipeline when [$skip] is not a whole number
    or is negative, and when [$limit] is not a whole number or is not
    positive. *)
Lemma skip_refused (month : option string) (r : JS.regex) (s : string)
      (skip limit : JS.jsnum) (ds : list doc) :
  (forall k, integral skip = Some k -> k < 0) ->
  exists e, run (listPipeline month r s skip limit) ds = inl e.
Proof.
  intros H. unfold listPipeline.
  cbn [run run_stage match_or searchQuery filter Boolean].
  destruct (integral skip) as [k |]; [| eauto].
  specialize (H k eq_refl). destruct (Z.leb_spec 0 k); [lia | eauto].
Qed.

Lemma limit_refused (month : option string) (r : JS.regex) (s : string)
      (skip limit : JS.jsnum) (ds : list doc) :
  (forall k, integral limit = Some k -> k <= 0) ->
  exists e, run (listPipeline month r s skip limit) ds = inl e.
Proof.
  intros H. unfold listPipeline.
  cbn [run run_stage match_or searchQuery filter Boolean].
  destruct (integral skip) as [sk |]; [| eauto].
  destruct (0 <=? sk); [| eauto].
  cbn [run run_stage].
  destruct (integral limit) as [k |]; [| eauto].
  specialize (H k eq_refl). destruct (Z.ltb_spec 0 k); [lia | eauto].
Qed.

(** A page below one or a negative page size gives a window the store
    refuses, whatever [parseInt] makes of the other parameter: a number,
    [NaN] or an infinity. *)
Lemma window_refused (pg pp : string) (month : option string) (r : JS.regex)
      (s : string) (ds : list doc) :
  bad_page pg \/ negative_perPage pp ->
  let limit := JS.or_else (JS.parseInt10 pp) (JS.of_Z 10) in
  let skip := JS.mul (JS.sub (JS.parseInt10 pg) (JS.of_Z 1)) limit in
  exists e, run (listPipeline month r s skip limit) ds = inl e.
Proof.
  intros Hbad. cbv zeta.
  pose proof (limit_truthy pp) as Ht.
  destruct Hbad as [[E | (k & E & Hk)] | (p & E & Hp)].
  - apply skip_refused. rewrite E. intros k.
    destruct (JS.or_else (JS.parseInt10 pp) (JS.of_Z 10)); discriminate.
  - rewrite E, NumFacts.sub_of_Z.
    destruct (JS.or_else (JS.parseInt10 pp) (JS.of_Z 10)) as [| q | n];
      [discriminate Ht | |].
    + cbn [JS.truthy] in Ht. unfold JS.is_zero in Ht.
      destruct (Z.eqb_spec (Qnum q) 0) as [| Hq]; [discriminate Ht |].
      destruct (Z_lt_le_dec 0 (Qnum q)) as [Hpos | Hneg].
      * apply skip_refused. intros k'. unfold JS.mul, JS.of_Z, JS.num.
        apply integral_negative. rewrite Qred_correct.
        unfold Qlt, Qmult, inject_Z. cbn [Qnum Qden]. nia.
      * apply limit_refused. intros k' Hk'.
        assert (Hlt : k' < 0); [| lia].
        apply (integral_negative q); [| exact Hk'].
        unfold Qlt. cbn [Qnum Qden]. lia.
    + apply skip_refused. intros k'. unfold JS.mul, JS.of_Z.
      destruct (JS.is_zero (inject_Z (k - 1))); discriminate.
  - apply limit_refused. rewrite E, (or_else_of_Z p) by lia.
    rewrite NumFacts.integral_of_Z. intros k [= <-]. lia.
Qed.

(** X8.  With a valid month, a [page] that is not a number or is less than
    one, or a negative [perPage], makes the store refuse the pipeline: the
    list view answers 500 'Failed to fetch transactions' instead of a
    validation error, and returns no record. *)
Theorem listTransactions_refused_window
        (req : query) (r : JS.regex) (w : world) :
  invalid_month (month req) = false ->
  JS.RegExp_i (default "" (search req)) = Some r ->
  bad_page (default "1" (page req)) \/ negative_perPage (default "10" (perPage req)) ->
  exists e,
    answers_with (listTransactions req express_res) w
                 (failure "Failed to fetch transactions" e).
Proof.
  intros H Hre Hbad.
  destruct (window_refused _ _ (month req) r (default "" (search req))
                           (map stored (store w)) Hbad) as [e' Hrun].
  cbv zeta in Hrun.
  unfold listTransactions, answers_with, try_catch, bind. cbv zeta.
  rewrite H, Hre.
  unfold aggregate, issue, issue_torn. rewrite Hrun.
  destruct (faults w) as [| [e |] rest];
    eexists; eexists; (split; [reflexivity | split; reflexivity]).
Qed.

End Failures.

(* ================================================================= *)
(** ** Pages of the list view *)

Module Pages.
Import Model Mongo Express Controller Spec Behaviour RunFacts ListFacts PagingFacts.

(** The ceiling of a quotient of integers, in integer arithmetic. *)
Lemma Qceiling_div (a p : Z) :
  0 < p -> Qceiling (inject_Z a / inject_Z p) = (a + p - 1) / p.
Proof.
  intros Hp. destruct p as [| pp | pp]; try lia.
  unfold Qceiling, Qfloor, Qdiv, Qmult, Qinv, Qopp, inject_Z. cbn.
  rewrite Z.mul_1_r.
  apply (Z.div_unique _ _ _ (Z.pos pp - 1 - (- a) mod Z.pos pp)).
  - left. pose proof (Z.mod_pos_bound (- a) (Z.pos pp)). lia.
  - pose proof (Z.div_mod (- a) (Z.pos pp)). lia.
Qed.

Lemma reply_of {A} (c : M A) (w w1 : world) (o : outcome A) (code : Z) (b : body) :
  c w = (o, replied w1 code b) -> sent w1 = sent w ->
  reply c w = Some (mkResponse code b).
Proof.
  intros E Hs. unfold reply. rewrite E. cbn [snd sent replied].
  rewrite Hs, nth_error_app2, Nat.sub_diag by lia. reflexivity.
Qed.

(** The response of the list view to a well-formed request. *)
Lemma page_reply (req : query) (m : string) (z k p : Z) (r : JS.regex) (w : world) :
  month req = Some m -> denotes_month m z ->
  JS.RegExp_i (default "" (search req)) = Some r ->
  JS.parseInt10 (default "1" (page req)) = JS.of_Z k -> 1 <= k ->
  JS.parseInt10 (default "10" (perPage req)) = JS.of_Z p -> 1 <= p ->
  store_up 2 (faults w) ->
  let matching :=
    filter (list_selects (JS.of_Z z) r (default "" (search req))) (store w) in
  let left_over := Z.max 0 (Z.of_nat (length matching) - (k - 1) * p) in
  reply (listTransactions req express_res) w
  = Some (mkResponse 200
            (TransactionsPage
               (map list_view
                    (firstn (Z.to_nat p) (skipn (Z.to_nat ((k - 1) * p)) matching)))
               (mkPagination (JS.of_Z left_over) (JS.of_Z k) (JS.of_Z p)
                             (JS.of_Z ((left_over + p - 1) / p))))).
Proof.
  intros Hq Hm Hre Hk Hk1 Hp Hp1 Hup matching left_over.
  pose proof (listTransactions_answers req m z k p r w Hq Hm Hre Hk Hk1 Hp Hp1 Hup)
    as E. cbv zeta in E.
  rewrite (reply_of _ _ _ _ _ _ E eq_refl).
  assert (Hl : Z.of_nat (length (skipn (Z.to_nat ((k - 1) * p)) matching)) = left_over).
  { rewrite length_skipn. unfold left_over. assert (0 <= (k - 1) * p) by nia. lia. }
  fold matching. rewrite Hl, Qceiling_div by lia. reflexivity.
Qed.

(** X9.  A page of the list view never holds more than [perPage] records:
    page [k] holds the smaller of [perPage] and the number of filtered
    records left after the [(k - 1) * perPage] skipped ones. *)
Theorem page_size (req : query) (m : string) (z k p : Z) (r : JS.regex) (w : world) :
  month req = Some m -> denotes_month m z ->
  JS.RegExp_i (default "" (search req)) = Some r ->
  JS.parseInt10 (default "1" (page req)) = JS.of_Z k -> 1 <= k ->
  JS.parseInt10 (default "10" (perPage req)) = JS.of_Z p -> 1 <= p ->
  store_up 2 (faults w) ->
  let matching :=
    filter (list_selects (JS.of_Z z) r (default "" (search req))) (store w) in
  Z.of_nat (length (transactions_of (reply (listTransactions req express_res) w)))
  = Z.min p (Z.max 0 (Z.of_nat (length matching) - (k - 1) * p)).
Proof.
  intros Hq Hm Hre Hk Hk1 Hp Hp1 Hup matching.
  rewrite (page_reply req m z k p r w Hq Hm Hre Hk Hk1 Hp Hp1 Hup).
  cbn [transactions_of]. fold matching.
  rewrite length_map, length_firstn, length_skipn.
  assert (0 <= (k - 1) * p) by nia. lia.
Qed.

(** X10.  On page 1 the pagination block is right: [totalRecords] is the
    number of all the records the filter selects and [totalPages] is that
    number over [perPage], rounded up; the page holds the first [perPage]
    of them. *)
Theorem first_page_totals (req : query) (m : string) (z p : Z) (r : JS.regex) (w : world) :
  month req = Some m -> denotes_month m z ->
  JS.RegExp_i (default "" (search req)) = Some r ->
  JS.parseInt10 (default "1" (page req)) = JS.of_Z 1 ->
  JS.parseInt10 (default "10" (perPage req)) = JS.of_Z p -> 1 <= p ->
  store_up 2 (faults w) ->
  let matching :=
    filter (list_selects (JS.of_Z z) r (default "" (search req))) (store w) in
  let n := Z.of_nat (length matching) in
  reply (listTransactions req express_res) w
  = Some (mkResponse 200
            (TransactionsPage
               (map list_view (firstn (Z.to_nat p) matching))
               (mkPagination (JS.of_Z n) (JS.of_Z 1) (JS.of_Z p)
                             (JS.of_Z ((n + p - 1) / p))))).
Proof.
  intros Hq Hm Hre Hk Hp Hp1 Hup matching n.
  assert (H1 : 1 <= 1) by lia.
  rewrite (page_reply req m z 1 p r w Hq Hm Hre Hk H1 Hp Hp1 Hup).
  fold matching. fold n.
  replace (Z.max 0 (n - (1 - 1) * p)) with n by (unfold n; lia).
  reflexivity.
Qed.

(** X11.  A page past the last one is answered 200 with no record, and
    with [totalRecords: 0] and [totalPages: 0], however many records the
    filter selects. *)
Theorem page_past_the_end (req : query) (m : string) (z k p : Z) (r : JS.regex)
        (w : world) :
  month req = Some m -> denotes_month m z ->
  JS.RegExp_i (default "" (search req)) = Some r ->
  JS.parseInt10 (default "1" (page req)) = JS.of_Z k -> 1 <= k ->
  JS.parseInt10 (default "10" (perPage req)) = JS.of_Z p -> 1 <= p ->
  store_up 2 (faults w) ->
  Z.of_nat (length (filter (list_selects (JS.of_Z z) r (default "" (search req)))
                           (store w)))
  <= (k - 1) * p ->
  reply (listTransactions req express_res) w
  = Some (mkResponse 200
            (TransactionsPage []
               (mkPagination (JS.of_Z 0) (JS.of_Z k) (JS.of_Z p) (JS.of_Z 0)))).
Proof.
  intros Hq Hm Hre Hk Hk1 Hp Hp1 Hup Hend.
  rewrite (page_reply req m z k p r w Hq Hm Hre Hk Hk1 Hp Hp1 Hup).
  rewrite skipn_all2 by lia. rewrite firstn_nil. cbn [map].
  rewrite Z.max_l by lia.
  replace ((0 + p - 1) / p) with 0; [reflexivity |].
  symmetry. apply Z.div_small. lia.
Qed.

(** X12.  Read one after the other, pages 1 to [n] of the same request give
    the filtered records of the month in store order, each exactly once,
    as soon as [n * perPage] reaches their number. *)
Theorem pages_give_every_record_once
        (req : query) (m : string) (z p : Z) (r : JS.regex) (w : world)
        (number : nat -> string) (n : nat) :
  month req = Some m -> denotes_month m z ->
  JS.RegExp_i (default "" (search req)) = Some r ->
  JS.parseInt10 (default "10" (perPage req)) = JS.of_Z p -> 1 <= p ->
  (forall i, (1 <= i <= n)%nat -> JS.parseInt10 (number i) = JS.of_Z (Z.of_nat i)) ->
  store_up 2 (faults w) ->
  let matching :=
    filter (list_selects (JS.of_Z z) r (default "" (search req))) (store w) in
  Z.of_nat (length matching) <= Z.of_nat n * p ->
  concat (map (fun i =>
                 transactions_of
                   (reply (listTransactions (with_page req (Some (number i))) express_res) w))
              (seq 1 n))
  = map list_view matching.
Proof.
  intros Hq Hm Hre Hp Hp1 Hnum Hup matching Hn.
  transitivity
    (map list_view
         (concat (map (fun i => firstn (Z.to_nat p) (skipn (i * Z.to_nat p) matching))
                      (seq 0 n))));
    [| now rewrite pages_cover by nia].
  rewrite concat_map, map_map, <- seq_shift, map_map.
  f_equal. apply map_ext_in. intros i Hi. apply in_seq in Hi.
  rewrite (page_reply (with_page req (Some (number (S i)))) m z (Z.of_nat (S i)) p r w
             Hq Hm Hre (Hnum (S i) ltac:(lia)) ltac:(lia) Hp Hp1 Hup).
  cbn [transactions_of with_page search default]. fold matching.
  do 3 f_equal. nia.
Qed.

(** X13.  Without a search text (absent or empty), the list view pages
    through all the records of the month. *)
Theorem no_search_lists_the_month (req : query) (m : string) (z k p : Z) (w : world) :
  month req = Some m -> denotes_month m z ->
  default "" (search req) = ""%string ->
  JS.parseInt10 (default "1" (page req)) = JS.of_Z k -> 1 <= k ->
  JS.parseInt10 (default "10" (perPage req)) = JS.of_Z p -> 1 <= p ->
  store_up 2 (faults w) ->
  transactions_of (reply (listTransactions req express_res) w)
  = map list_view
        (firstn (Z.to_nat p) (skipn (Z.to_nat ((k - 1) * p)) (of_month z (store w)))).
Proof.
  intros Hq Hm Hs Hk Hk1 Hp Hp1 Hup.
  assert (Hre : JS.RegExp_i (default "" (search req)) = Some []) by now rewrite Hs.
  rewrite (page_reply req m z k p [] w Hq Hm Hre Hk Hk1 Hp Hp1 Hup).
  cbn [transactions_of]. do 3 f_equal.
  apply filter_ext. intros t. unfold list_selects, matches.
  cbn [match_month match_or month_matches or_matches searchQuery filter Boolean
       existsb clause_matches add_month stored doc_month doc_title
       doc_dateOfSale option_map regex_on].
  rewrite NumFacts.eqb_of_Z.
  replace (JS.test [] (title t)) with true; [apply andb_true_r |].
  unfold JS.test. now destruct (JS.chars (title t)).
Qed.

End Pages.

(* ================================================================= *)
(** ** What a seed accepts, and in which order it works *)

Module SeedOrder.
Import Model Mongo Express Controller Spec Behaviour RunFacts SeedFacts.

Lemma validate_well_formed (r : rawdoc) :
  well_formed r = true <-> exists t, validate r = Some t.
Proof.
  unfold well_formed, validate.
  destruct (raw_title r) as [ti |], (raw_price r) as [pr |],
           (raw_dateOfSale r) as [d |];
    try (split; [discriminate | intros [t H]; discriminate H]).
  destruct (JS.truthy_string ti).
  - split; [eauto | reflexivity].
  - split; [discriminate | intros [t H]; discriminate H].
Qed.

(** The data set passes the schema exactly when every element is well
    formed. *)
Lemma validate_all_well_formed (data : list rawdoc) :
  forallb well_formed data = true <-> exists docs, validate_all data = Some docs.
Proof.
  induction data as [| r data IH]; cbn [forallb validate_all].
  - split; [eauto | reflexivity].
  - rewrite andb_true_iff, IH, validate_well_formed. split.
    + intros [[t Ht] [docs Hd]]. rewrite Ht, Hd. eauto.
    + destruct (validate r) as [t |]; [| intros [docs H]; discriminate H].
      destruct (validate_all data) as [docs |]; [| intros [docs' H]; discriminate H].
      eauto.
Qed.

(** X14.  With the seed source answering and the store up, a seed is all
    or nothing on validation: if every fetched element has a non-empty
    title, a price and a date of sale, the answer is 200 and the collection
    holds one record per element; if a single element lacks one of them,
    the answer is 500 with a validation message as [error], nothing at all
    is inserted, and the collection, already cleared, is empty. *)
Theorem seed_is_all_or_nothing (req : query) (w : world) (data : list rawdoc) :
  api w = FetchOk data ->
  store_up 2 (faults w) ->
  let w' := snd (initializeDB req express_res w) in
  (forallb well_formed data = true ->
   reply (initializeDB req express_res) w = Some (mkResponse 200 (seeded (length data)))
   /\ length (store w') = length data)
  /\ (forallb well_formed data = false ->
      (exists e,
          reply (initializeDB req express_res) w
          = Some (failure "Failed to initialize database" e)
          /\ validation_failure e)
      /\ store w' = []
      /\ oplog w' = oplog w ++ [deleteMany_op]).
Proof.
  intros Hapi Hup w'. subst w'. split.
  - intros Hok. apply validate_all_well_formed in Hok. destruct Hok as [docs Hval].
    destruct (initializeDB_seeds req w data docs Hapi Hval Hup) as (fs & log & E).
    pose proof (Forall2_length (validate_all_stores_as data docs Hval)) as Hlen.
    unfold reply. rewrite E. cbn [snd sent store].
    rewrite nth_error_app2, Nat.sub_diag by lia. cbn. now rewrite Hlen.
  - intros Hbad.
    assert (Hval : validate_all data = None).
    { destruct (validate_all data) as [docs |] eqn:E; [| reflexivity].
      assert (H : forallb well_formed data = true)
        by (apply validate_all_well_formed; eauto).
      congruence. }
    apply store_up_2 in Hup. destruct Hup as [Hup1 _].
    pose proof (validate_batch_all data) as Hb. rewrite Hval in Hb.
    destruct Hb as (e & Hb & He).
    assert (E : initializeDB req express_res w
                = (Returned undefined,
                   mkWorld [] (tl (faults w)) (oplog w ++ [deleteMany_op])
                           (sent w ++ [failure "Failed to initialize database" e])
                           (api w) (written w))).
    { unfold initializeDB, try_catch, bind, axios_get. rewrite Hapi.
      unfold deleteMany. rewrite issue_up by exact Hup1. cbn [fst snd].
      unfold insertMany. rewrite Hb. cbn. now rewrite Hapi. }
    unfold reply. rewrite E. cbn [snd sent store oplog].
    rewrite nth_error_app2, Nat.sub_diag by lia.
    refine (conj _ (conj eq_refl eq_refl)).
    exists e. split; [reflexivity | exact He].
Qed.

(** X15.  Whatever happens, [initializeDB] works in one order: it issues
    nothing to the store when the fetch fails, never inserts before it has
    cleared, and only inserts a data set that has passed the schema: the
    operations it adds to the log are none, or [deleteMany], or
    [deleteMany] followed by [insertMany] of the validated data. *)
Theorem initializeDB_clears_before_it_inserts (req : query) (res : resobj) (w : world) :
  exists ops,
    oplog (snd (initializeDB req res w)) = oplog w ++ ops
    /\ (ops = []
        \/ ops = [deleteMany_op]
        \/ exists data docs,
             api w = FetchOk data /\ validate_all data = Some docs
             /\ ops = [deleteMany_op; insertMany_op docs])
    /\ (forall e, api w = FetchFails e -> ops = []).
Proof.
  unfold initializeDB, try_catch, bind, axios_get.
  destruct (api w) as [data | e] eqn:Hapi.
  - pose proof (validate_batch_all data) as Hb.
    unfold deleteMany, insertMany, issue, issue_torn.
    destruct (faults w) as [| [e |] rest]; cbn [store faults oplog sent api].
    + destruct (validate_batch data) as [e | [| t docs]]; cbn [faults].
      * exists [deleteMany_op].
        split; [destruct res; reflexivity |]. split; [tauto | discriminate].
      * exists [deleteMany_op].
        split; [destruct res; reflexivity |]. split; [tauto | discriminate].
      * destruct (validate_all data) as [docs' |] eqn:Hval;
          [injection Hb as <- | destruct Hb as (e & [=] & _)].
        exists [deleteMany_op; insertMany_op (t :: docs)].
        split; [destruct res; cbn; now rewrite <- app_assoc |].
        split; [right; right; eauto | discriminate].
    + exists [deleteMany_op].
      split; [destruct res; reflexivity |]. split; [tauto | discriminate].
    + destruct (validate_batch data) as [e | [| t docs]]; cbn [faults].
      * exists [deleteMany_op].
        split; [destruct res; reflexivity |]. split; [tauto | discriminate].
      * exists [deleteMany_op].
        split; [destruct res; reflexivity |]. split; [tauto | discriminate].
      * destruct (validate_all data) as [docs' |] eqn:Hval;
          [injection Hb as <- | destruct Hb as (e & [=] & _)].
        exists [deleteMany_op; insertMany_op (t :: docs)].
        split; [destruct rest as [| [e |] rest]; destruct res; cbn;
                now rewrite <- app_assoc |].
        split; [right; right; eauto | discriminate].
  - exists []. split; [destruct res; cbn; now rewrite app_nil_r |].
    split; [tauto | reflexivity].
Qed.

End SeedOrder.

(* ================================================================= *)
(** ** Months that select nothing *)

Module EmptyViews.
Import Model Mongo Express Controller Spec Behaviour RunFacts MonthPipeline.

(** The three views on an empty selection. *)
Lemma views_on_nothing (m : option string) (w : world) :
  invalid_month m = false ->
  store_up 1 (faults w) ->
  (forall fields, run (monthPipeline m fields) (map stored (store w)) = inr []) ->
  getStatistics (month_only m) express_res w
  = (Returned undefined,
     replied (logged w (aggregate_op (monthPipeline m [f_price; f_sold]))) 200
             (Statistics (JS.of_Z 0) 0 0))
  /\ getBarChart (month_only m) express_res w
     = (Returned undefined,
        replied (logged w (aggregate_op (monthPipeline m [f_price; f_sold]))) 200
                (RangeCounts (combine bucket_labels (repeat 0 10))))
  /\ getPieChart (month_only m) express_res w
     = (Returned undefined,
        replied (logged w (aggregate_op (monthPipeline m [f_category]))) 200
                (CategoryCounts [])).
Proof.
  intros Hv Hup Hrun. refine (conj _ (conj _ _)).
  - apply (getStatistics_answers m w [] Hv Hup (Hrun _)).
  - apply (getBarChart_answers m w [] Hv Hup (Hrun _)).
  - apply (getPieChart_answers m w [] Hv Hup (Hrun _)).
Qed.

Lemma not_integral_not_a_month (q : Q) (z : Z) :
  integral (JS.Num q) = None -> JS.eqb (JS.of_Z z) (JS.Num q) = false.
Proof.
  unfold integral. intros H. apply not_true_is_false. intros E.
  cbn [JS.eqb JS.of_Z] in E. apply Qeq_bool_iff in E.
  assert (Hq : Qeq_bool q (inject_Z (Qfloor q)) = true).
  { apply Qeq_bool_iff. rewrite <- E at 2. rewrite Qfloor_Z. now symmetry. }
  now rewrite Hq in H.
Qed.

(** X16.  The validation does not ask for a whole number: a month such as
    "3.5", which reads as a number above 0 and up to 12 that is not an
    integer, is accepted, and then selects nothing: the statistics are all
    zero, the ten buckets are empty and the pie chart has no entry,
    whatever the collection holds. *)
Theorem fractional_month_selects_nothing (m : string) (q : Q) (w : world) :
  JS.ToNumber m = JS.Num q ->
  (0 < q)%Q -> (q <= 12)%Q ->
  integral (JS.Num q) = None ->
  store_up 1 (faults w) ->
  invalid_month (Some m) = false
  /\ getStatistics (month_only (Some m)) express_res w
     = (Returned undefined,
        replied (logged w (aggregate_op (monthPipeline (Some m) [f_price; f_sold]))) 200
                (Statistics (JS.of_Z 0) 0 0))
  /\ getBarChart (month_only (Some m)) express_res w
     = (Returned undefined,
        replied (logged w (aggregate_op (monthPipeline (Some m) [f_price; f_sold]))) 200
                (RangeCounts (combine bucket_labels (repeat 0 10))))
  /\ getPieChart (month_only (Some m)) express_res w
     = (Returned undefined,
        replied (logged w (aggregate_op (monthPipeline (Some m) [f_category]))) 200
                (CategoryCounts [])).
Proof.
  intros Hm Hpos Hle Hfrac Hup.
  assert (Hv : invalid_month (Some m) = false).
  { unfold invalid_month. rewrite Hm.
    assert (Ht : JS.truthy_string m = true).
    { destruct m; [| reflexivity]. cbn in Hm. injection Hm as <-.
      exfalso. revert Hpos. apply Qlt_irrefl. }
    rewrite Ht. cbn [negb orb JS.le JS.gt JS.of_Z].
    apply orb_false_iff. split.
    - apply not_true_is_false. rewrite Qle_bool_iff. intros H.
      apply (Qlt_not_le _ _ Hpos H).
    - apply negb_false_iff. now apply Qle_bool_iff. }
  split; [exact Hv |].
  apply (views_on_nothing (Some m) w Hv Hup).
  intros fields. rewrite monthPipeline_run. cbn [plus]. rewrite Hm.
  replace (filter _ (store w)) with (@nil Transaction); [reflexivity |].
  induction (store w) as [| t st IH]; [reflexivity |].
  cbn [filter]. now rewrite (not_integral_not_a_month q _ Hfrac).
Qed.

(** X17.  For a valid month in which the collection has no record, the
    three views answer 200 with empty results: statistics all zero, ten
    buckets with count zero, and a pie chart without entries. *)
Theorem month_without_records (m : string) (z : Z) (w : world) :
  denotes_month m z ->
  store_up 1 (faults w) ->
  of_month z (store w) = [] ->
  getStatistics (month_only (Some m)) express_res w
  = (Returned undefined,
     replied (logged w (aggregate_op (monthPipeline (Some m) [f_price; f_sold]))) 200
             (Statistics (JS.of_Z 0) 0 0))
  /\ getBarChart (month_only (Some m)) express_res w
     = (Returned undefined,
        replied (logged w (aggregate_op (monthPipeline (Some m) [f_price; f_sold]))) 200
                (RangeCounts (combine bucket_labels (repeat 0 10))))
  /\ getPieChart (month_only (Some m)) express_res w
     = (Returned undefined,
        replied (logged w (aggregate_op (monthPipeline (Some m) [f_category]))) 200
                (CategoryCounts [])).
Proof.
  intros Hm Hup Hnone.
  apply (views_on_nothing (Some m) w (denotes_month_valid m z Hm) Hup).
  intros fields. now rewrite (monthPipeline_denoted m z fields (store w) Hm), Hnone.
Qed.

End EmptyViews.

(* ================================================================= *)
(** ** Entries of the pie chart *)

Module PieEntries.
Import Model Mongo Express Controller Spec Behaviour RunFacts MonthPipeline
       TallyFacts PieChartFacts.

Lemma first_occurrences_length (l : list string) :
  (length (first_occurrences l) <= length l)%nat.
Proof.
  apply NoDup_incl_length; [apply NoDup_first_occurrences |].
  intros c. apply In_first_occurrences.
Qed.

(** X18.  Provided no label is the name of a member inherited from
    [Object.prototype], the pie chart lists each category at most once,
    never lists a category with a count below one (it has no zero entries,
    unlike the bar chart), and has at most as many entries as the month has
    records. *)
Theorem pie_chart_entries_are_distinct_and_positive (m : string) (z : Z) (w : world) :
  denotes_month m z ->
  store_up 1 (faults w) ->
  let matching := of_month z (store w) in
  (forall c, In c (map category_label matching) -> inherited c = false) ->
  exists entries : list (string * Z),
    getPieChart (month_only (Some m)) express_res w
    = (Returned undefined,
       replied (logged w (aggregate_op (monthPipeline (Some m) [f_category]))) 200
               (CategoryCounts (map as_number entries)))
    /\ NoDup (map fst entries)
    /\ (forall c n, In (c, n) entries -> 1 <= n)
    /\ (length entries <= length matching)%nat.
Proof.
  intros Hm Hup matching Hplain.
  set (labels := map category_label matching).
  exists (JS.own_entries (tally labels)).
  pose proof (own_entries_Permutation (tally labels)) as Hperm.
  refine (conj _ (conj _ (conj _ _))).
  - rewrite (getPieChart_answers (Some m) w _ (denotes_month_valid m z Hm) Hup
               (monthPipeline_denoted m z _ (store w) Hm)).
    do 3 f_equal. unfold result, JS.Object_entries. rewrite map_eta.
    fold matching. rewrite (categoryCounts_tally matching Hplain).
    apply own_entries_as_number.
  - apply (Permutation_NoDup (l := map fst (tally labels)));
      [symmetry; now apply Permutation_map |].
    rewrite tally_keys. apply NoDup_first_occurrences.
  - intros c n Hin. apply (Permutation_in _ Hperm) in Hin.
    pose proof (tally_positive labels) as Hpos. rewrite Forall_forall in Hpos.
    exact (Hpos _ Hin).
  - rewrite (Permutation_length Hperm), <- (length_map fst), tally_keys.
    etransitivity; [apply first_occurrences_length |].
    unfold labels. now rewrite length_map.
Qed.

End PieEntries.

(* ================================================================= *)
(** ** Routing *)

Module Routing.
Import Model Mongo Express Controller Spec Behaviour StoreInvariant.

(** X19.  However the router matches paths, a request it serves changes
    the collection only if its path matches the route [/initialize]: every
    other request, to whichever of the five other routes it goes, leaves
    the collection as it was. *)
Theorem only_initialize_changes_the_store
        (path_matches : string -> string -> bool) (m : Routes.method)
        (path : string) (req : query) (res : resobj) (c : M value) (w : world) :
  Routes.dispatch path_matches m path req res = Some c ->
  path_matches "/initialize"%string path = false ->
  store (snd (c w)) = store w.
Proof.
  unfold Routes.dispatch. destruct (Routes.served m); [| discriminate].
  unfold Routes.routes. cbn [Routes.first_match]. intros H Hinit.
  rewrite Hinit in H.
  repeat match type of H with
         | context [if ?b then _ else _] => destruct b
         end;
    cbn [option_map] in H; try discriminate; injection H as <-.
  - apply listTransactions_keeps_store.
  - apply getStatistics_keeps_store.
  - apply getBarChart_keeps_store.
  - apply getPieChart_keeps_store.
  - apply getCombinedData_keeps_store.
Qed.

End Routing.

(* ================================================================= *)
(** ** The further statements on the sample data *)

Module OnSamples2.
Import Model Mongo Express Controller Spec Behaviour Sample Sample2.

Lemma month_endpoints_keep_the_store_witness :
  In getBarChart month_endpoints
  /\ store (snd (getBarChart (for_month "3") null example_world)) = [television; cable].
Proof.
  assert (Hin : In getBarChart month_endpoints) by (simpl; tauto).
  split; [exact Hin |].
  exact (StoreInvariant.month_endpoints_keep_the_store
           getBarChart (for_month "3") null example_world Hin).
Defined.

Lemma handlers_answer_exactly_once_witness :
  In initializeDB [initializeDB; getStatistics; getBarChart; getPieChart; getCombinedData]
  /\ answers_once (initializeDB no_params express_res) store_down.
Proof.
  assert (Hin : In initializeDB
                   [initializeDB; getStatistics; getBarChart; getPieChart; getCombinedData])
    by (simpl; tauto).
  split; [exact Hin |].
  exact (Responses.handlers_answer_exactly_once initializeDB no_params store_down Hin).
Defined.

Lemma listTransactions_answers_exactly_once_witness :
  JS.RegExp_i (default "" (search (march_page "0" "5"))) = Some []
  /\ answers_once (listTransactions (march_page "0" "5") express_res) store_drops.
Proof.
  split; [reflexivity |].
  exact (Responses.listTransactions_answers_exactly_once
           (march_page "0" "5") [] store_drops eq_refl).
Defined.

Lemma view_handlers_throw_on_null_witness :
  In getPieChart [getStatistics; getBarChart; getPieChart]
  /\ exists w',
       getPieChart (for_month "13") null example_world = (Thrown type_error_null, w')
       /\ sent w' = []
       /\ store w' = [television; cable].
Proof.
  assert (Hin : In getPieChart [getStatistics; getBarChart; getPieChart])
    by (simpl; tauto).
  split; [exact Hin |].
  exact (Responses.view_handlers_throw_on_null
           getPieChart (for_month "13") example_world Hin).
Defined.

Lemma views_report_store_failure_witness :
  (invalid_month (month (for_month "3")) = false
   /\ faults store_down = [Some "pool destroyed"%string])
  /\ answers_with (getStatistics (for_month "3") express_res) store_down
                  (failure "Failed to fetch statistics" "pool destroyed").
Proof.
  split; [split; reflexivity |].
  exact (proj1 (Failures.views_report_store_failure
                  (for_month "3") store_down "pool destroyed" [] eq_refl eq_refl)).
Defined.

Lemma listTransactions_drops_page_witness :
  (invalid_month (Some "3"%string) = false
   /\ JS.parseInt10 "1" = JS.of_Z 1 /\ JS.parseInt10 "5" = JS.of_Z 5
   /\ faults store_drops = [None; Some "pool destroyed"%string])
  /\ answers_with (listTransactions (march_page "1" "5") express_res) store_drops
                  (failure "Failed to fetch transactions" "pool destroyed").
Proof.
  assert (H1 : 1 <= 1) by lia. assert (H5 : 1 <= 5) by lia.
  split; [repeat split; reflexivity |].
  exact (Failures.listTransactions_drops_page_when_count_fails
           (march_page "1" "5") "3" 1 5 [] store_drops "pool destroyed" []
           eq_refl eq_refl eq_refl eq_refl H1 eq_refl H5 eq_refl).
Defined.

Lemma perPage_falls_back_witness :
  JS.truthy (JS.parseInt10 "abc") = false
  /\ listTransactions (with_perPage (for_month "3") (Some "abc"%string))
                      express_res example_world
     = listTransactions (with_perPage (for_month "3") None) express_res example_world.
Proof.
  split; [reflexivity |].
  exact (Failures.perPage_falls_back_to_ten
           (for_month "3") "abc" express_res example_world eq_refl).
Defined.

Lemma listTransactions_refused_window_witness :
  (invalid_month (month (march_page "0" "5")) = false
   /\ bad_page (default "1" (page (march_page "0" "5"))))
  /\ exists e,
       answers_with (listTransactions (march_page "0" "5") express_res) example_world
                    (failure "Failed to fetch transactions" e).
Proof.
  assert (Hbad : bad_page (default "1" (page (march_page "0" "5")))).
  { right. exists 0. split; [reflexivity | lia]. }
  split; [split; [reflexivity | exact Hbad] |].
  exact (Failures.listTransactions_refused_window
           (march_page "0" "5") [] example_world eq_refl eq_refl (or_introl Hbad)).
Defined.

Lemma page_size_witness :
  (denotes_month "3" 3 /\ store_up 2 (faults example_world))
  /\ Z.of_nat (length (transactions_of
                         (reply (listTransactions (march_page "2" "1") express_res)
                                example_world)))
     = 1.
Proof.
  assert (H : denotes_month "3" 3) by (split; [reflexivity | lia]).
  assert (Hup : store_up 2 (faults example_world)) by exact I.
  assert (H1 : 1 <= 1) by lia. assert (H2 : 1 <= 2) by lia.
  split; [split; assumption |].
  exact (Pages.page_size (march_page "2" "1") "3" 3 2 1 [] example_world
           eq_refl H eq_refl eq_refl H2 eq_refl H1 Hup).
Defined.

Lemma first_page_totals_witness :
  (denotes_month "3" 3 /\ store_up 2 (faults example_world))
  /\ reply (listTransactions (march_page "1" "1") express_res) example_world
     = Some (mkResponse 200
               (TransactionsPage [list_view television]
                  (mkPagination (JS.of_Z 2) (JS.of_Z 1) (JS.of_Z 1) (JS.of_Z 2)))).
Proof.
  assert (H : denotes_month "3" 3) by (split; [reflexivity | lia]).
  assert (Hup : store_up 2 (faults example_world)) by exact I.
  assert (H1 : 1 <= 1) by lia.
  split; [split; assumption |].
  exact (Pages.first_page_totals (march_page "1" "1") "3" 3 1 [] example_world
           eq_refl H eq_refl eq_refl eq_refl H1 Hup).
Defined.

Lemma page_past_the_end_witness :
  (denotes_month "3" 3 /\ store_up 2 (faults example_world)
   /\ Z.of_nat (length (filter (list_selects (JS.of_Z 3) [] "") (store example_world)))
      <= (3 - 1) * 1)
  /\ reply (listTransactions (march_page "3" "1") express_res) example_world
     = Some (mkResponse 200
               (TransactionsPage []
                  (mkPagination (JS.of_Z 0) (JS.of_Z 3) (JS.of_Z 1) (JS.of_Z 0)))).
Proof.
  assert (H : denotes_month "3" 3) by (split; [reflexivity | lia]).
  assert (Hup : store_up 2 (faults example_world)) by exact I.
  assert (H1 : 1 <= 1) by lia. assert (H3 : 1 <= 3) by lia.
  assert (Hend : Z.of_nat (length (filter (list_selects (JS.of_Z 3) [] "")
                                          (store example_world)))
                 <= (3 - 1) * 1) by (cbn; lia).
  split; [repeat split; assumption |].
  exact (Pages.page_past_the_end (march_page "3" "1") "3" 3 3 1 [] example_world
           eq_refl H eq_refl eq_refl H3 eq_refl H1 Hup Hend).
Defined.

Lemma pages_give_every_record_once_witness :
  (denotes_month "3" 3
   /\ (forall i, (1 <= i <= 2)%nat ->
                 JS.parseInt10 (page_number i) = JS.of_Z (Z.of_nat i))
   /\ store_up 2 (faults example_world))
  /\ transactions_of
       (reply (listTransactions (march_page "1" "1") express_res) example_world)
     ++ transactions_of
          (reply (listTransactions (march_page "2" "1") express_res) example_world)
     = [list_view television; list_view cable].
Proof.
  assert (H : denotes_month "3" 3) by (split; [reflexivity | lia]).
  assert (Hup : store_up 2 (faults example_world)) by exact I.
  assert (H1 : 1 <= 1) by lia.
  assert (Hnum : forall i, (1 <= i <= 2)%nat ->
                           JS.parseInt10 (page_number i) = JS.of_Z (Z.of_nat i)).
  { intros i Hi. destruct i as [| [| [| i]]]; try lia; reflexivity. }
  assert (Hn : Z.of_nat (length (filter (list_selects (JS.of_Z 3) [] "")
                                        (store example_world)))
               <= Z.of_nat 2 * 1) by (cbn; lia).
  split; [exact (conj H (conj Hnum Hup)) |].
  pose proof (Pages.pages_give_every_record_once
                (march_page "1" "1") "3" 3 1 [] example_world page_number 2
                eq_refl H eq_refl eq_refl H1 Hnum Hup Hn) as W.
  cbn [seq map concat with_page march_page month search perPage page_number] in W.
  rewrite app_nil_r in W. exact W.
Defined.

Lemma no_search_lists_the_month_witness :
  (denotes_month "3" 3 /\ store_up 2 (faults example_world))
  /\ transactions_of
       (reply (listTransactions (march_page "1" "5") express_res) example_world)
     = [list_view television; list_view cable].
Proof.
  assert (H : denotes_month "3" 3) by (split; [reflexivity | lia]).
  assert (Hup : store_up 2 (faults example_world)) by exact I.
  assert (H1 : 1 <= 1) by lia. assert (H5 : 1 <= 5) by lia.
  split; [split; assumption |].
  exact (Pages.no_search_lists_the_month (march_page "1" "5") "3" 3 1 5 example_world
           eq_refl H eq_refl eq_refl H1 eq_refl H5 Hup).
Defined.

Lemma seed_is_all_or_nothing_witness :
  (api (seeding [television] (FetchOk [shirt_raw; priceless_raw]))
   = FetchOk [shirt_raw; priceless_raw]
   /\ store_up 2 (faults (seeding [television] (FetchOk [shirt_raw; priceless_raw])))
   /\ forallb well_formed [shirt_raw; priceless_raw] = false)
  /\ store (snd (initializeDB no_params express_res
                              (seeding [television] (FetchOk [shirt_raw; priceless_raw]))))
     = [].
Proof.
  assert (Hup : store_up 2 (faults (seeding [television]
                                            (FetchOk [shirt_raw; priceless_raw]))))
    by exact I.
  split; [repeat split; try assumption; reflexivity |].
  exact (proj1 (proj2 (proj2 (SeedOrder.seed_is_all_or_nothing
                                no_params
                                (seeding [television] (FetchOk [shirt_raw; priceless_raw]))
                                [shirt_raw; priceless_raw] eq_refl Hup)
                             eq_refl))).
Defined.

Lemma fractional_month_witness :
  (JS.ToNumber "3.5" = JS.Num (7 # 2) /\ (0 < 7 # 2)%Q /\ (7 # 2 <= 12)%Q
   /\ integral (JS.Num (7 # 2)) = None /\ store_up 1 (faults example_world))
  /\ invalid_month (Some "3.5"%string) = false
  /\ getStatistics (for_month "3.5") express_res example_world
     = (Returned undefined,
        replied (logged example_world
                        (aggregate_op (monthPipeline (Some "3.5"%string) [f_price; f_sold])))
                200 (Statistics (JS.of_Z 0) 0 0)).
Proof.
  assert (Hpos : (0 < 7 # 2)%Q) by reflexivity.
  assert (Hle : (7 # 2 <= 12)%Q) by (unfold Qle; cbn; lia).
  assert (Hup : store_up 1 (faults example_world)) by exact I.
  split; [repeat split; try assumption; reflexivity |].
  pose proof (EmptyViews.fractional_month_selects_nothing
                "3.5" (7 # 2) example_world eq_refl Hpos Hle eq_refl Hup) as W.
  exact (conj (proj1 W) (proj1 (proj2 W))).
Defined.

Lemma month_without_records_witness :
  (denotes_month "7" 7 /\ store_up 1 (faults example_world)
   /\ of_month 7 (store example_world) = [])
  /\ getPieChart (for_month "7") express_res example_world
     = (Returned undefined,
        replied (logged example_world
                        (aggregate_op (monthPipeline (Some "7"%string) [f_category])))
                200 (CategoryCounts [])).
Proof.
  assert (H : denotes_month "7" 7) by (split; [reflexivity | lia]).
  assert (Hup : store_up 1 (faults example_world)) by exact I.
  split; [exact (conj H (conj Hup eq_refl)) |].
  exact (proj2 (proj2 (EmptyViews.month_without_records
                         "7" 7 example_world H Hup eq_refl))).
Defined.

Lemma pie_chart_entries_witness :
  (denotes_month "3" 3 /\ store_up 1 (faults example_world)
   /\ (forall c, In c (map category_label (of_month 3 (store example_world))) ->
                 inherited c = false))
  /\ exists entries : list (string * Z),
       getPieChart (for_month "3") express_res example_world
       = (Returned undefined,
          replied (logged example_world
                          (aggregate_op (monthPipeline (Some "3"%string) [f_category])))
                  200 (CategoryCounts (map as_number entries)))
       /\ NoDup (map fst entries)
       /\ (forall c n, In (c, n) entries -> 1 <= n)
       /\ (length entries <= 2)%nat.
Proof.
  assert (H : denotes_month "3" 3) by (split; [reflexivity | lia]).
  assert (Hup : store_up 1 (faults example_world)) by exact I.
  assert (Hplain : forall c, In c (map category_label (of_month 3 (store example_world))) ->
                             inherited c = false).
  { simpl. intros c [<- | [<- | []]]; reflexivity. }
  split; [exact (conj H (conj Hup Hplain)) |].
  exact (PieEntries.pie_chart_entries_are_distinct_and_positive
           "3" 3 example_world H Hup Hplain).
Defined.

Lemma only_initialize_changes_the_store_witness :
  (Routes.dispatch same_path Routes.GET "/statistics" (for_month "3") express_res
   = Some (getStatistics (for_month "3") express_res)
   /\ same_path "/initialize" "/statistics" = false)
  /\ store (snd (getStatistics (for_month "3") express_res store_down))
     = [television; cable].
Proof.
  split; [split; reflexivity |].
  exact (Routing.only_initialize_changes_the_store
           same_path Routes.GET "/statistics" (for_month "3") express_res
           (getStatistics (for_month "3") express_res) store_down eq_refl eq_refl).
Defined.

End OnSamples2.
